(** * Petrol price forecasting: data pipeline and recursive forecast engine

    A shallow embedding of the ingestion service, the ETL pipeline, the
    feature engineer, the model registry and the forecast generator, with
    the properties of the specification stated over it.

    Conventions of the embedding.
    - Decimal and float values are exact rationals ([Q]); a raw model output
      is a [pyfloat], which adds NaN and the two infinities.
    - A calendar date is its ordinal day number ([Z]); a datetime is a
      number of seconds on the same axis, 86400 per day.
    - SQL NULL and Python [None] are [None] of an option type.
    - A table is the list of its rows in row-id order. *)

From Stdlib Require Import QArith Qround ZArith String List Lia Lqa Bool DecimalString DecimalZ Sorted.
From stdpp Require Import gmap strings list.
Import ListNotations.

Local Open Scope string_scope.
Local Open Scope Z_scope.

(** ** Numbers *)

Module Num.

(** A Python float as the forecast loop sees it. *)
Inductive pyfloat : Type :=
| FNum (q : Q)
| FNaN
| FPosInf
| FNegInf.

(** [a < b] on floats; every comparison with NaN is false. *)
Definition py_lt (a b : pyfloat) : bool :=
  match a, b with
  | FNaN, _ | _, FNaN => false
  | FNum x, FNum y => negb (Qle_bool y x)
  | FNum _, FPosInf => true
  | FNum _, FNegInf => false
  | FPosInf, _ => false
  | FNegInf, FNegInf => false
  | FNegInf, _ => true
  end.

(** Python's two-argument [min(a, b)]: [b] replaces [a] only when [b < a]. *)
Definition py_min (a b : pyfloat) : pyfloat := if py_lt b a then b else a.

(** Python's two-argument [max(a, b)]: [b] replaces [a] only when [b > a]. *)
Definition py_max (a b : pyfloat) : pyfloat := if py_lt a b then b else a.

(** Truthiness of a nullable number: [None] and zero are falsy. *)
Definition truthy (o : option Q) : bool :=
  match o with
  | Some q => negb (Qeq_bool q 0)
  | None => false
  end.

(** Round half to even, to an integer. *)
Definition round_half_even (x : Q) : Z :=
  let f := Qfloor x in
  let r := (x - inject_Z f)%Q in
  match (r ?= 1 # 2)%Q with
  | Lt => f
  | Gt => f + 1
  | Eq => if Z.even f then f else f + 1
  end.

(** [round(x, 2)]. *)
Definition py_round2 (x : Q) : Q := inject_Z (round_half_even (x * 100)) / 100.

End Num.
Export Num.

#[global] Instance Q_inhabited : Inhabited Q := populate 0%Q.

(** ** Data model (db/models.py) *)

Module Models.

(** raw_petrol_prices: [date] is unique, [petrol_price] is NOT NULL. *)
Record RawPetrolPrice : Type := {
  rpp_id : Z;
  rpp_date : Z;
  rpp_petrol_price : Q;
  rpp_source : option string;
  rpp_created_at : Z
}.

(** raw_exogenous_data: [date] is unique, both signals are nullable. *)
Record RawExogenousData : Type := {
  red_id : Z;
  red_date : Z;
  red_crude_oil_price : option Q;
  red_inr_usd : option Q;
  red_source : option string;
  red_created_at : Z
}.

(** processed_features: [date] is the primary key, [petrol_price] is
    NOT NULL, every other numeric column is nullable. *)
Record ProcessedFeature : Type := {
  pf_date : Z;
  pf_petrol_price : Q;
  pf_lag_1 : option Q;
  pf_lag_2 : option Q;
  pf_lag_7 : option Q;
  pf_lag_14 : option Q;
  pf_rolling_7 : option Q;
  pf_crude_oil_price : option Q;
  pf_inr_usd : option Q;
  pf_target : option Q;
  pf_created_at : Z
}.

(** model_registry: [model_version] is unique, the metrics are nullable. *)
Record ModelRegistry : Type := {
  mr_id : Z;
  mr_model_version : string;
  mr_rmse : option Q;
  mr_mae : option Q;
  mr_mape : option Q;
  mr_r2 : option Q;
  mr_model_path : string;
  mr_training_samples : option Z;
  mr_data_source : string;
  mr_created_at : Z
}.

(** One forecast point, [{'date': ..., 'predicted_price': ...}]. *)
Record Prediction : Type := {
  pred_date : Z;
  predicted_price : Q
}.

(** prediction_logs; [predictions_json] is kept as the list it serialises. *)
Record PredictionLog : Type := {
  pl_id : Z;
  pl_request_time : Z;
  pl_horizon_days : Z;
  pl_model_version : string;
  pl_predictions_json : list Prediction
}.

(** [ProcessedFeature.to_dict]: the dictionary read back from a stored row.
    [petrol_price] is converted unconditionally; every other numeric entry
    is [float(x) if x else None]. *)
Record FeatureDict : Type := {
  fd_date : Z;
  fd_petrol_price : Q;
  fd_lag_1 : option Q;
  fd_lag_2 : option Q;
  fd_lag_7 : option Q;
  fd_lag_14 : option Q;
  fd_rolling_7 : option Q;
  fd_crude_oil_price : option Q;
  fd_inr_usd : option Q;
  fd_target : option Q;
  fd_created_at : Z
}.

(** [float(x) if x else None] *)
Definition float_if_truthy (x : option Q) : option Q :=
  if truthy x then x else None.

Definition ProcessedFeature_to_dict (self : ProcessedFeature) : FeatureDict :=
  {| fd_date := pf_date self;
     fd_petrol_price := pf_petrol_price self;
     fd_lag_1 := float_if_truthy (pf_lag_1 self);
     fd_lag_2 := float_if_truthy (pf_lag_2 self);
     fd_lag_7 := float_if_truthy (pf_lag_7 self);
     fd_lag_14 := float_if_truthy (pf_lag_14 self);
     fd_rolling_7 := float_if_truthy (pf_rolling_7 self);
     fd_crude_oil_price := float_if_truthy (pf_crude_oil_price self);
     fd_inr_usd := float_if_truthy (pf_inr_usd self);
     fd_target := float_if_truthy (pf_target self);
     fd_created_at := pf_created_at self |}.

(** [ModelRegistry.to_dict] *)
Record ModelDict : Type := {
  md_id : Z;
  md_model_version : string;
  md_rmse : option Q;
  md_mae : option Q;
  md_mape : option Q;
  md_r2 : option Q;
  md_model_path : string;
  md_training_samples : option Z;
  md_data_source : string;
  md_created_at : Z
}.

Definition ModelRegistry_to_dict (self : ModelRegistry) : ModelDict :=
  {| md_id := mr_id self;
     md_model_version := mr_model_version self;
     md_rmse := float_if_truthy (mr_rmse self);
     md_mae := float_if_truthy (mr_mae self);
     md_mape := float_if_truthy (mr_mape self);
     md_r2 := float_if_truthy (mr_r2 self);
     md_model_path := mr_model_path self;
     md_training_samples := mr_training_samples self;
     md_data_source := mr_data_source self;
     md_created_at := mr_created_at self |}.

End Models.
Export Models.

(** ** Storage (db/database.py) and the artifact directory *)

Module Store.

Record Database : Type := {
  raw_petrol_prices : list RawPetrolPrice;
  raw_exogenous_data : list RawExogenousData;
  processed_features : list ProcessedFeature;
  model_registry : list ModelRegistry;
  prediction_logs : list PredictionLog
}.

(** A fitted scaling transform and a fitted network, as functions of the
    input vector. *)
Definition Scaler : Type := list Q -> list Q.
Definition Model : Type := list Q -> pyfloat.

(** The files the forecast engine opens. *)
Inductive File : Type :=
| H5File (m : Model)
| PklFile (s : Scaler).

(** What an operation runs against: the database, the files by path, and
    the wall clock in seconds. *)
Record World : Type := {
  db : Database;
  files : gmap string File;
  now : Z
}.

Definition with_db (w : World) (d : Database) : World :=
  {| db := d; files := files w; now := now w |}.

Definition seconds_per_day : Z := 86400.

(** Stable insertion sort, the order of [ORDER BY]; rows that compare equal
    keep their table order. *)
Section OrderBy.
Context {A : Type} (le : A -> A -> bool).

Fixpoint insert_sorted (x : A) (l : list A) : list A :=
  match l with
  | [] => [x]
  | y :: l' => if le x y then x :: l else y :: insert_sorted x l'
  end.

Definition order_by (l : list A) : list A :=
  fold_right insert_sorted [] l.
End OrderBy.

(** [ORDER BY key DESC] on a NOT NULL integer column. *)
Definition desc {A : Type} (key : A -> Z) (a b : A) : bool := key b <=? key a.

(** [ORDER BY key ASC] on a nullable numeric column, as the default SQLite
    engine orders it: NULL before every value. *)
Definition asc_nullable {A : Type} (key : A -> option Q) (a b : A) : bool :=
  match key a, key b with
  | None, _ => true
  | Some _, None => false
  | Some x, Some y => Qle_bool x y
  end.

(** [Query.first()] *)
Definition first {A : Type} (l : list A) : option A := head l.

(** What can be bound to an INTEGER parameter: a signed 64-bit value; the
    driver raises [OverflowError] for any other. *)
Definition sqlite_integer (z : Z) : bool := (- 2 ^ 63 <=? z) && (z <? 2 ^ 63).

(** A [String] column with a [default]: a row added without a value for the
    column is inserted with the default. *)
Definition column_default (dflt : string) (value : option string) : option string :=
  match value with
  | Some s => Some s
  | None => Some dflt
  end.

(** The next value of an AUTOINCREMENT key. *)
Definition next_id {A : Type} (key : A -> Z) (rows : list A) : Z :=
  fold_right Z.max 0 (map key rows) + 1.

End Store.
Export Store.

(** ** Python exceptions and strings *)

Module Py.

Inductive exn : Type :=
| FileNotFoundError (path : string)
| InvalidFileError (path : string)
| IntegrityError (constraint : string).

(** A computation that returns or raises. *)
Definition Exc (A : Type) : Type := exn + A.

Definition ret {A : Type} (a : A) : Exc A := inr a.
Definition raise {A : Type} (e : exn) : Exc A := inl e.
Definition bind {A B : Type} (c : Exc A) (k : A -> Exc B) : Exc B :=
  match c with
  | inl e => inl e
  | inr a => k a
  end.

(** [try: ... except Exception: return dflt] *)
Definition try_except {A : Type} (c : Exc A) (dflt : A) : A :=
  match c with
  | inl _ => dflt
  | inr a => a
  end.

(** Truthiness of an optional string argument: [None] and [''] are falsy. *)
Definition str_truthy (o : option string) : bool :=
  match o with
  | Some s => negb (String.eqb s "")
  | None => false
  end.

(** [s.replace(old, new)] for a non-empty [old]: every non-overlapping
    occurrence, left to right. [skip] counts the characters of a matched
    occurrence still to be dropped. *)
Fixpoint replace_from (old new : string) (skip : nat) (s : string) : string :=
  match s with
  | EmptyString => EmptyString
  | String c s' =>
      match skip with
      | S k => replace_from old new k s'
      | O =>
          if String.prefix old s
          then String.append new (replace_from old new (String.length old - 1) s')
          else String c (replace_from old new 0 s')
      end
  end.

Definition str_replace (old new s : string) : string := replace_from old new 0 s.

End Py.
Export Py.

Notation "x <- c ;; k" := (Py.bind c (fun x => k))
  (at level 100, c at next level, right associativity, only parsing).

(** ** Forecast generation (ml_pipeline/predict.py) *)

Module Predict.

(** The metrics snapshot returned with a forecast. *)
Record Metrics : Type := {
  m_rmse : option Q;
  m_mae : option Q;
  m_mape : option Q
}.

(** [keras.models.load_model(path)] *)
Definition keras_load_model (path : string) (w : World) : Exc Model :=
  match files w !! path with
  | Some (H5File m) => ret m
  | Some (PklFile _) => raise (InvalidFileError path)
  | None => raise (FileNotFoundError path)
  end.

(** [with open(path, 'rb') as f: pickle.load(f)] *)
Definition pickle_load (path : string) (w : World) : Exc Scaler :=
  match files w !! path with
  | Some (PklFile s) => ret s
  | Some (H5File _) => raise (InvalidFileError path)
  | None => raise (FileNotFoundError path)
  end.

(** The registry row the loader looks for: the requested version, or the
    most recently created one. *)
Definition find_model_record (model_version : option string) (w : World)
  : option ModelRegistry :=
  match model_version with
  | Some v =>
      if str_truthy model_version
      then first (List.filter (fun r => String.eqb (mr_model_version r) v)
                    (model_registry (db w)))
      else first (order_by (desc mr_created_at) (model_registry (db w)))
  | None => first (order_by (desc mr_created_at) (model_registry (db w)))
  end.

(** The body of [load_model_and_scaler], inside its [try]. *)
Definition load_model_and_scaler_body (model_version : option string) (w : World)
  : Exc (option (Model * Scaler * string * Metrics)) :=
  match find_model_record model_version w with
  | None => ret None
  | Some model_record =>
      let model_path := mr_model_path model_record in
      let scaler_path := str_replace ".h5" "_scaler.pkl" model_path in
      model <- keras_load_model model_path w ;;
      scaler <- pickle_load scaler_path w ;;
      let metrics := {| m_rmse := mr_rmse model_record;
                        m_mae := mr_mae model_record;
                        m_mape := mr_mape model_record |} in
      ret (Some (model, scaler, mr_model_version model_record, metrics))
  end.

(** [load_model_and_scaler]: [None] stands for the tuple of four [None]s,
    returned both when no registry row is found and when anything raises. *)
Definition load_model_and_scaler (model_version : option string) (w : World)
  : option (Model * Scaler * string * Metrics) :=
  try_except (load_model_and_scaler_body model_version w) None.

(** [get_latest_features]: the row with the greatest date, as a dict. *)
Definition get_latest_features (w : World) : option FeatureDict :=
  match first (order_by (desc pf_date) (processed_features (db w))) with
  | None => None
  | Some latest => Some (ProcessedFeature_to_dict latest)
  end.

(** [x if x else dflt] *)
Definition if_truthy_else (x : option Q) (dflt : Q) : Q :=
  match x with
  | Some q => if truthy x then q else dflt
  | None => dflt
  end.

(** The initial [current_features] dictionary. *)
Definition seed_features (latest : FeatureDict) : gmap string Q :=
  list_to_map
    [ ("petrol_price", fd_petrol_price latest);
      ("lag_1", if_truthy_else (fd_lag_1 latest) (fd_petrol_price latest));
      ("lag_2", if_truthy_else (fd_lag_2 latest) (fd_petrol_price latest));
      ("lag_7", if_truthy_else (fd_lag_7 latest) (fd_petrol_price latest));
      ("lag_14", if_truthy_else (fd_lag_14 latest) (fd_petrol_price latest));
      ("rolling_7", if_truthy_else (fd_rolling_7 latest) (fd_petrol_price latest));
      ("crude_oil_price", if_truthy_else (fd_crude_oil_price latest) 80%Q);
      ("inr_usd", if_truthy_else (fd_inr_usd latest) 83%Q) ].

(** [max(90.0, min(150.0, float(pred)))]. The result is always a number
    (lemma [clamp_in_band]); the last branch is never taken. *)
Definition clamp (pred : pyfloat) : Q :=
  match py_max (FNum 90) (py_min (FNum 150) pred) with
  | FNum q => q
  | _ => 90%Q
  end.

(** The variables the loop updates. *)
Record LoopState : Type := {
  current_features : gmap string Q;
  current_date : Z;
  predictions : list Prediction
}.

(** The input row [X], in the order the model was trained on. *)
Definition input_vector (cf : gmap string Q) : list Q :=
  [ cf !!! "petrol_price"; cf !!! "lag_1"; cf !!! "lag_2"; cf !!! "lag_7";
    cf !!! "lag_14"; cf !!! "rolling_7"; cf !!! "crude_oil_price";
    cf !!! "inr_usd" ].

(** One iteration of the forecasting loop. The dictionary is updated by
    the same sequence of assignments as in the source. *)
Definition forecast_step (model : Model) (scaler : Scaler) (st : LoopState)
  : LoopState :=
  let cf := current_features st in
  let X := input_vector cf in
  let X_scaled := scaler X in
  let pred := clamp (model X_scaled) in
  let predictions' :=
    (predictions st ++
     [ {| pred_date := current_date st / seconds_per_day;
          predicted_price := py_round2 pred |} ])%list in
  let cf := <["lag_14" := cf !!! "lag_7"]> cf in
  let cf := <["lag_7" := cf !!! "lag_2"]> cf in
  let cf := <["lag_2" := cf !!! "lag_1"]> cf in
  let cf := <["lag_1" := cf !!! "petrol_price"]> cf in
  let cf := <["petrol_price" := pred]> cf in
  let cf := <["rolling_7" := (((cf !!! "rolling_7") * 6 + pred) / 7)%Q]> cf in
  {| current_features := cf;
     current_date := current_date st + seconds_per_day;
     predictions := predictions' |}.

(** [for day in range(n)] *)
Fixpoint forecast_loop (model : Model) (scaler : Scaler) (n : nat)
  (st : LoopState) : LoopState :=
  match n with
  | O => st
  | S n' => forecast_loop model scaler n' (forecast_step model scaler st)
  end.

(** The [end_date] argument: a ['YYYY-MM-DD'] string or a date object. *)
Inductive EndDate : Type :=
| EndDateStr (s : string)
| EndDateObj (d : Z).

(** [if end_date:] *)
Definition end_date_truthy (end_date : option EndDate) : bool :=
  match end_date with
  | None => false
  | Some (EndDateStr s) => negb (String.eqb s "")
  | Some (EndDateObj _) => true
  end.

Inductive ForecastResult : Type :=
| ForecastFailure (error : string)
| ForecastSuccess (model_version : string) (horizon_days : Z)
    (predictions : list Prediction) (metrics : Metrics).

Definition no_model_error : string := "No trained model available".
Definition no_features_error : string := "No feature data available".
Definition end_date_error : string := "End date must be after latest data date".
Definition end_date_format_error : string := "Invalid end date format".

Section GenerateForecast.

(** [datetime.strptime(s, '%Y-%m-%d')] as the day it denotes; [None] is
    the [ValueError] of a string that does not parse. *)
Variable strptime : string -> option Z.

(** The horizon the loop runs for: the argument, or the inclusive day
    count from [current_date] (tomorrow midnight) to [end_date]. *)
Definition resolve_horizon (horizon_days : Z) (end_date : option EndDate)
  (current_date : Z) : string + Z :=
  match end_date with
  | Some e =>
      if end_date_truthy end_date then
        let parsed :=
          match e with
          | EndDateStr s => strptime s
          | EndDateObj d => Some d
          end in
        match parsed with
        | None => inl end_date_format_error
        | Some d =>
            let target_date := d * seconds_per_day in
            let delta := target_date - current_date in
            let horizon_days := delta / seconds_per_day + 1 in
            if horizon_days <=? 0 then inl end_date_error
            else inr horizon_days
        end
      else inr horizon_days
  | None => inr horizon_days
  end.

(** [generate_forecast]. Days are numbers without an upper bound: the
    [OverflowError] of a [datetime] stepped past 9999-12-31 is outside the
    model. *)
Definition generate_forecast (horizon_days : Z) (model_version : option string)
  (end_date : option EndDate) (w : World) : ForecastResult :=
  match load_model_and_scaler model_version w with
  | None => ForecastFailure no_model_error
  | Some (model, scaler, version, metrics) =>
      match get_latest_features w with
      | None => ForecastFailure no_features_error
      | Some latest =>
          let current_features := seed_features latest in
          let current_date := now w - now w mod seconds_per_day in
          let current_date := current_date + seconds_per_day in
          match resolve_horizon horizon_days end_date current_date with
          | inl error => ForecastFailure error
          | inr horizon_days =>
              let st := forecast_loop model scaler (Z.to_nat horizon_days)
                          {| current_features := current_features;
                             current_date := current_date;
                             predictions := [] |} in
              ForecastSuccess version horizon_days (predictions st) metrics
          end
      end
  end.

End GenerateForecast.

End Predict.
Export Predict.

(** ** Prediction orchestration (backend/services/prediction_service.py) *)

Module PredictionService.

(** [log_prediction]: append one row to prediction_logs. A [horizon_days]
    that cannot be bound to the INTEGER column makes the insert raise; the
    [except] branch then returns [False] and no row is written.
    [request_time], which the database sets, is stamped with the one clock
    of the model. *)
Definition log_prediction (horizon_days : Z) (model_version : string)
  (predictions : list Prediction) (w : World) : bool * World :=
  let d := db w in
  let log_entry :=
    {| pl_id := next_id pl_id (prediction_logs d);
       pl_request_time := now w;
       pl_horizon_days := horizon_days;
       pl_model_version := model_version;
       pl_predictions_json := predictions |} in
  if sqlite_integer horizon_days then
    (true,
     with_db w
       {| raw_petrol_prices := raw_petrol_prices d;
          raw_exogenous_data := raw_exogenous_data d;
          processed_features := processed_features d;
          model_registry := model_registry d;
          prediction_logs := (prediction_logs d ++ [log_entry])%list |})
  else (false, w).

Section GeneratePrediction.
Variable strptime : string -> option Z.

(** [generate_prediction]: forecast, and log the forecast only when it
    succeeded. *)
Definition generate_prediction (horizon_days : Z)
  (model_version : option string) (end_date : option EndDate) (w : World)
  : ForecastResult * World :=
  let result := generate_forecast strptime horizon_days model_version end_date w in
  match result with
  | ForecastFailure _ => (result, w)
  | ForecastSuccess version _ predictions _ =>
      let '(_, w') := log_prediction horizon_days version predictions w in
      (result, w')
  end.
End GeneratePrediction.

End PredictionService.
Export PredictionService.

(** ** Ingestion (scraper/data_ingestion_service.py) *)

Module Ingestion.

(** The INSERT a commit flushes for a new raw_petrol_prices row, with the
    table's NOT NULL and UNIQUE constraints and the default of its [source]
    column. *)
Definition insert_raw_petrol_price (date : Z) (price : option Q)
  (source : option string) (now : Z) (d : Database) : Exc Database :=
  match price with
  | None => raise (IntegrityError "raw_petrol_prices.petrol_price")
  | Some p =>
      if existsb (fun r => rpp_date r =? date) (raw_petrol_prices d)
      then raise (IntegrityError "raw_petrol_prices.date")
      else
        let new_record :=
          {| rpp_id := next_id rpp_id (raw_petrol_prices d);
             rpp_date := date;
             rpp_petrol_price := p;
             rpp_source := column_default "web_scraper" source;
             rpp_created_at := now |} in
        ret {| raw_petrol_prices := (raw_petrol_prices d ++ [new_record])%list;
               raw_exogenous_data := raw_exogenous_data d;
               processed_features := processed_features d;
               model_registry := model_registry d;
               prediction_logs := prediction_logs d |}
  end.

(** [ingest_petrol_price]: check for the date, insert when it is absent.
    A commit that raises is rolled back and reported as [False]. *)
Definition ingest_petrol_price (date : Z) (price : option Q)
  (source : option string) (w : World) : bool * World :=
  let session : Exc (bool * Database) :=
    let existing :=
      first (List.filter (fun r => rpp_date r =? date) (raw_petrol_prices (db w))) in
    match existing with
    | Some _ => ret (false, db w)
    | None =>
        d' <- insert_raw_petrol_price date price source (now w) (db w) ;;
        ret (true, d')
    end in
  match session with
  | inr (inserted, d') => (inserted, with_db w d')
  | inl _ => (false, w)
  end.

(** The INSERT for a new raw_exogenous_data row, with the default of its
    [source] column. *)
Definition insert_raw_exogenous_data (date : Z) (crude_oil_price inr_usd : option Q)
  (source : option string) (now : Z) (d : Database) : Exc Database :=
  if existsb (fun r => red_date r =? date) (raw_exogenous_data d)
  then raise (IntegrityError "raw_exogenous_data.date")
  else
    let new_record :=
      {| red_id := next_id red_id (raw_exogenous_data d);
         red_date := date;
         red_crude_oil_price := crude_oil_price;
         red_inr_usd := inr_usd;
         red_source := column_default "yahoo_finance" source;
         red_created_at := now |} in
    ret {| raw_petrol_prices := raw_petrol_prices d;
           raw_exogenous_data := (raw_exogenous_data d ++ [new_record])%list;
           processed_features := processed_features d;
           model_registry := model_registry d;
           prediction_logs := prediction_logs d |}.

(** [ingest_macro_data] *)
Definition ingest_macro_data (date : Z) (crude_oil_price inr_usd : option Q)
  (source : option string) (w : World) : bool * World :=
  let session : Exc (bool * Database) :=
    let existing :=
      first (List.filter (fun r => red_date r =? date) (raw_exogenous_data (db w))) in
    match existing with
    | Some _ => ret (false, db w)
    | None =>
        d' <- insert_raw_exogenous_data date crude_oil_price inr_usd source
                (now w) (db w) ;;
        ret (true, d')
    end in
  match session with
  | inr (inserted, d') => (inserted, with_db w d')
  | inl _ => (false, w)
  end.

(** The number of raw_petrol_prices rows stored for a date. *)
Definition petrol_row_count (date : Z) (w : World) : nat :=
  length (List.filter (fun r => rpp_date r =? date) (raw_petrol_prices (db w))).

End Ingestion.
Export Ingestion.

(** ** Model registry (ml_pipeline/model_registry.py) *)

Module Registry.

Inductive LogLevel : Type := INFO | ERROR.

(** A record written by the module's logger. *)
Record LogRecord : Type := {
  log_level : LogLevel;
  log_message : string
}.

(** [f(model) if model else None], with the info line of the success path. *)
Definition best_of (metric : string) (model : option ModelRegistry)
  : option ModelDict * list LogRecord :=
  match model with
  | Some m =>
      (Some (ModelRegistry_to_dict m),
       [ {| log_level := INFO;
            log_message := "Best model by " ++ metric ++ ": " ++ mr_model_version m |} ])
  | None => (None, [])
  end.

(** [get_best_model]: the first row in ascending order of the chosen metric;
    an unknown metric name logs an error and returns [None]. The second
    component is what the call writes to the log. *)
Definition get_best_model (metric : string) (w : World)
  : option ModelDict * list LogRecord :=
  let registry := model_registry (db w) in
  if String.eqb metric "rmse" then
    best_of metric (first (order_by (asc_nullable mr_rmse) registry))
  else if String.eqb metric "mae" then
    best_of metric (first (order_by (asc_nullable mr_mae) registry))
  else if String.eqb metric "mape" then
    best_of metric (first (order_by (asc_nullable mr_mape) registry))
  else
    (None, [ {| log_level := ERROR; log_message := "Invalid metric: " ++ metric |} ]).

(** The metrics dictionary handed to [register_model]. *)
Record MetricsArg : Type := {
  arg_rmse : option Q;
  arg_mae : option Q;
  arg_mape : option Q;
  arg_r2 : option Q
}.

(** [register_model]: append a registry row; a duplicate version violates
    the UNIQUE constraint at commit and is reported as [False]. The row
    keeps the metrics as given, where the DECIMAL(10, 4) columns read back
    four decimals, and [created_at], which the database sets, is stamped
    with the one clock of the model. *)
Definition register_model (model_version model_path : string)
  (metrics : MetricsArg) (training_samples : option Z) (data_source : string)
  (w : World) : bool * World :=
  let d := db w in
  if existsb (fun r => String.eqb (mr_model_version r) model_version) (model_registry d)
  then (false, w)
  else
    let new_model :=
      {| mr_id := next_id mr_id (model_registry d);
         mr_model_version := model_version;
         mr_rmse := arg_rmse metrics;
         mr_mae := arg_mae metrics;
         mr_mape := arg_mape metrics;
         mr_r2 := arg_r2 metrics;
         mr_model_path := model_path;
         mr_training_samples := training_samples;
         mr_data_source := data_source;
         mr_created_at := now w |} in
    (true,
     with_db w
       {| raw_petrol_prices := raw_petrol_prices d;
          raw_exogenous_data := raw_exogenous_data d;
          processed_features := processed_features d;
          model_registry := (model_registry d ++ [new_model])%list;
          prediction_logs := prediction_logs d |}).

(** The column a metric name selects. *)
Definition metric_column (metric : string) : option (ModelRegistry -> option Q) :=
  if String.eqb metric "rmse" then Some mr_rmse
  else if String.eqb metric "mae" then Some mr_mae
  else if String.eqb metric "mape" then Some mr_mape
  else None.

End Registry.
Export Registry.

(** ** Data frames *)

Module Pandas.

(** A cell of a data frame or an entry of a [to_dict] dictionary. [VNone]
    is [None], NaN and NaT alike: what [isna] reports as missing. *)
Inductive Value : Type :=
| VNone
| VNum (q : Q)
| VInt (z : Z)
| VStr (s : string)
| VDate (d : Z)
| VTime (t : Z).

Definition isna (v : Value) : bool :=
  match v with
  | VNone => true
  | _ => false
  end.

Definition value_eqb (a b : Value) : bool :=
  match a, b with
  | VNone, VNone => true
  | VNum x, VNum y => Qeq_bool x y
  | VInt x, VInt y => x =? y
  | VStr x, VStr y => String.eqb x y
  | VDate x, VDate y => x =? y
  | VTime x, VTime y => x =? y
  | _, _ => false
  end.

(** Ascending order of [sort_values]: missing values last. *)
Definition value_le (a b : Value) : bool :=
  match a, b with
  | _, VNone => true
  | VNone, _ => false
  | VNum x, VNum y => Qle_bool x y
  | VInt x, VInt y => x <=? y
  | VDate x, VDate y => x <=? y
  | VTime x, VTime y => x <=? y
  | VStr x, VStr y => negb (String.ltb y x)
  | _, _ => true
  end.

(** The cell of a row under a column name. *)
Definition cell (r : gmap string Value) (c : string) : Value :=
  default VNone (r !! c).

(** A frame: its column names in order and its rows in order. *)
Record DataFrame : Type := {
  df_columns : list string;
  df_rows : list (gmap string Value)
}.

(** [pd.DataFrame()] *)
Definition empty_frame : DataFrame := {| df_columns := []; df_rows := [] |}.

(** [pd.DataFrame(records)] for dictionaries with the keys [columns]. *)
Definition from_records (columns : list string) (records : list (gmap string Value))
  : DataFrame :=
  match records with
  | [] => empty_frame
  | _ => {| df_columns := columns; df_rows := records |}
  end.

(** [df.empty] *)
Definition df_empty (df : DataFrame) : bool :=
  match df_rows df, df_columns df with
  | [], _ | _, [] => true
  | _, _ => false
  end.

(** [len(df)] *)
Definition len (df : DataFrame) : nat := length (df_rows df).

Definition has_column (df : DataFrame) (c : string) : bool :=
  existsb (String.eqb c) (df_columns df).

(** [df[c]] *)
Definition column (df : DataFrame) (c : string) : list Value :=
  map (fun r => cell r c) (df_rows df).

(** [df[[c1, ..., cn]]] *)
Definition select (df : DataFrame) (cols : list string) : DataFrame :=
  {| df_columns := cols;
     df_rows := map (fun r => list_to_map (map (fun c => (c, cell r c)) cols))
                  (df_rows df) |}.

(** [df[c] = values], one value per row. *)
Definition set_column (df : DataFrame) (c : string) (values : list Value)
  : DataFrame :=
  {| df_columns := if has_column df c then df_columns df
                   else (df_columns df ++ [c])%list;
     df_rows := zip_with (fun r v => <[c := v]> r) (df_rows df) values |}.

(** [df[c] = v] for a scalar. *)
Definition set_column_scalar (df : DataFrame) (c : string) (v : Value) : DataFrame :=
  set_column df c (replicate (len df) v).

(** [pd.merge(left, right, on=key, how='left')]: every left row, in order,
    joined with each right row of equal key, or with missing cells. *)
Definition merge_left (left right : DataFrame) (key : string) : DataFrame :=
  let right_cols := List.filter (fun c => negb (String.eqb c key)) (df_columns right) in
  let extend (l r : gmap string Value) : gmap string Value :=
    fold_left (fun acc c => <[c := cell r c]> acc) right_cols l in
  {| df_columns := (df_columns left ++ right_cols)%list;
     df_rows :=
       flat_map
         (fun l =>
            match List.filter (fun r => value_eqb (cell l key) (cell r key))
                    (df_rows right) with
            | [] => [extend l ∅]
            | matches => map (extend l) matches
            end)
         (df_rows left) |}.

(** [df.drop_duplicates(subset=[key], keep='first')] *)
Fixpoint drop_duplicates_from (key : string) (seen : list Value)
  (rows : list (gmap string Value)) : list (gmap string Value) :=
  match rows with
  | [] => []
  | r :: rows' =>
      if existsb (value_eqb (cell r key)) seen
      then drop_duplicates_from key seen rows'
      else r :: drop_duplicates_from key (cell r key :: seen) rows'
  end.

Definition drop_duplicates (df : DataFrame) (key : string) : DataFrame :=
  {| df_columns := df_columns df;
     df_rows := drop_duplicates_from key [] (df_rows df) |}.

(** [df.sort_values(key).reset_index(drop=True)] *)
Definition sort_values (df : DataFrame) (key : string) : DataFrame :=
  {| df_columns := df_columns df;
     df_rows := order_by (fun a b => value_le (cell a key) (cell b key)) (df_rows df) |}.

(** Forward fill: a missing cell takes the last value above it; [prev] is
    the filled row above. *)
Fixpoint ffill_from (cols : list string) (prev : gmap string Value)
  (rows : list (gmap string Value)) : list (gmap string Value) :=
  match rows with
  | [] => []
  | r :: rows' =>
      let filled :=
        fold_left
          (fun acc c => if isna (cell r c) then <[c := cell prev c]> acc else acc)
          cols r in
      filled :: ffill_from cols filled rows'
  end.

(** [df.fillna(method='ffill')] *)
Definition ffill (df : DataFrame) : DataFrame :=
  {| df_columns := df_columns df;
     df_rows := ffill_from (df_columns df) ∅ (df_rows df) |}.

(** [df.dropna()]: keep the rows with no missing cell in any column. *)
Definition row_complete (cols : list string) (r : gmap string Value) : bool :=
  forallb (fun c => negb (isna (cell r c))) cols.

Definition dropna (df : DataFrame) : DataFrame :=
  {| df_columns := df_columns df;
     df_rows := List.filter (row_complete (df_columns df)) (df_rows df) |}.

(** [series.shift(periods)] *)
Definition shift (periods : Z) (col : list Value) : list Value :=
  let n := length col in
  if 0 <=? periods
  then take n (replicate (Z.to_nat periods) VNone ++ col)%list
  else
    let k := Z.to_nat (- periods) in
    (drop k col ++ replicate (Nat.min k n) VNone)%list.

(** The numbers of a window, if none is missing. *)
Fixpoint numbers (win : list Value) : option (list Q) :=
  match win with
  | [] => Some []
  | VNum q :: win' =>
      match numbers win' with
      | Some qs => Some (q :: qs)
      | None => None
      end
  | _ :: _ => None
  end.

Definition Qsum (qs : list Q) : Q := fold_right Qplus 0%Q qs.

(** [series.rolling(window).mean()] at position [i]: missing until
    [window] values are available, and when the window holds a missing one. *)
Definition rolling_mean_at (window : nat) (col : list Value) (i : nat) : Value :=
  if ((window =? 0) || (i + 1 <? window))%nat then VNone
  else
    match numbers (take window (drop (i + 1 - window) col)) with
    | Some qs => VNum (Qsum qs / inject_Z (Z.of_nat window))
    | None => VNone
    end.

Definition rolling_mean (window : nat) (col : list Value) : list Value :=
  map (rolling_mean_at window col) (seq 0 (length col)).

(** The non-missing numbers of a column. *)
Fixpoint present_numbers (col : list Value) : list Q :=
  match col with
  | [] => []
  | VNum q :: col' => q :: present_numbers col'
  | _ :: col' => present_numbers col'
  end.

(** [series.quantile(q)], linear interpolation between order statistics. *)
Definition quantile (q : Q) (col : list Value) : option Q :=
  let sorted := order_by Qle_bool (present_numbers col) in
  match sorted with
  | [] => None
  | x0 :: _ =>
      let pos := (inject_Z (Z.of_nat (length sorted) - 1) * q)%Q in
      let lo := Qfloor pos in
      let frac := (pos - inject_Z lo)%Q in
      let a := nth (Z.to_nat lo) sorted x0 in
      let b := nth (Z.to_nat (lo + 1)) sorted a in
      Some (a + frac * (b - a))%Q
  end.

End Pandas.
Export Pandas.

(** ** ETL (ml_pipeline/preprocess.py) *)

Module ETL.

Definition opt_num (o : option Q) : Value :=
  match o with
  | Some q => VNum q
  | None => VNone
  end.

Definition opt_str (o : option string) : Value :=
  match o with
  | Some s => VStr s
  | None => VNone
  end.

(** [RawPetrolPrice.to_dict] *)
Definition RawPetrolPrice_to_dict (self : RawPetrolPrice) : gmap string Value :=
  list_to_map
    [ ("id", VInt (rpp_id self));
      ("date", VDate (rpp_date self));
      ("petrol_price", VNum (rpp_petrol_price self));
      ("source", opt_str (rpp_source self));
      ("created_at", VTime (rpp_created_at self)) ].

(** [RawExogenousData.to_dict] *)
Definition RawExogenousData_to_dict (self : RawExogenousData) : gmap string Value :=
  list_to_map
    [ ("id", VInt (red_id self));
      ("date", VDate (red_date self));
      ("crude_oil_price", opt_num (float_if_truthy (red_crude_oil_price self)));
      ("inr_usd", opt_num (float_if_truthy (red_inr_usd self)));
      ("source", opt_str (red_source self));
      ("created_at", VTime (red_created_at self)) ].

(** The date filter, applied only when both bounds are given. *)
Definition in_range (start_date end_date : option Z) (d : Z) : bool :=
  match start_date, end_date with
  | Some s, Some e => (s <=? d) && (d <=? e)
  | _, _ => true
  end.

Definition uploaded_sources : list string := ["file_upload"; "manual"; "csv_upload"].

(** The provenance filter; any name other than the two below keeps all rows. *)
Definition source_matches (source_filter : string) (source : option string) : bool :=
  if String.eqb source_filter "yahoo_finance" then
    match source with
    | Some s => String.eqb s "yahoo_finance"
    | None => false
    end
  else if String.eqb source_filter "custom_csv" then
    match source with
    | Some s => existsb (String.eqb s) uploaded_sources
    | None => false
    end
  else true.

(** [extract_raw_data]. The two query results are taken in the order of
    their tables; the queries have no ORDER BY, and the engine may return
    the rows in another order. *)
Definition extract_raw_data (start_date end_date : option Z)
  (source_filter : string) (w : World) : DataFrame :=
  let petrol :=
    List.filter
      (fun p => in_range start_date end_date (rpp_date p)
                && source_matches source_filter (rpp_source p))
      (raw_petrol_prices (db w)) in
  let macro :=
    List.filter
      (fun m => in_range start_date end_date (red_date m)
                && source_matches source_filter (red_source m))
      (raw_exogenous_data (db w)) in
  let petrol_df :=
    from_records ["id"; "date"; "petrol_price"; "source"; "created_at"]
      (map RawPetrolPrice_to_dict petrol) in
  let macro_df :=
    from_records ["id"; "date"; "crude_oil_price"; "inr_usd"; "source"; "created_at"]
      (map RawExogenousData_to_dict macro) in
  if df_empty petrol_df then empty_frame
  else if negb (df_empty macro_df) then
    merge_left (select petrol_df ["date"; "petrol_price"; "source"])
      (select macro_df ["date"; "crude_oil_price"; "inr_usd"]) "date"
  else
    let merged_df := select petrol_df ["date"; "petrol_price"; "source"] in
    let merged_df := set_column_scalar merged_df "crude_oil_price" VNone in
    set_column_scalar merged_df "inr_usd" VNone.

(** [remove_duplicates] *)
Definition remove_duplicates (df : DataFrame) : DataFrame :=
  drop_duplicates df "date".

(** [standardize_dates]: dates are already day numbers; sort by them. *)
Definition standardize_dates (df : DataFrame) : DataFrame :=
  sort_values df "date".

(** [handle_missing_values(df, method='ffill')]: the forward fill and the
    second forward fill for what remains. *)
Definition handle_missing_values (df : DataFrame) : DataFrame :=
  ffill (ffill df).

(** [detect_outliers(df, column, method='iqr', remove)] *)
Definition detect_outliers (df : DataFrame) (col : string) (remove : bool)
  : DataFrame :=
  if negb (has_column df col) then df
  else
    match quantile (1 # 4) (column df col), quantile (3 # 4) (column df col) with
    | Some Q1, Some Q3 =>
        let IQR := (Q3 - Q1)%Q in
        let lower_bound := (Q1 - (3 # 2) * IQR)%Q in
        let upper_bound := (Q3 + (3 # 2) * IQR)%Q in
        let outlier (r : gmap string Value) : bool :=
          match cell r col with
          | VNum v => negb (Qle_bool lower_bound v) || negb (Qle_bool v upper_bound)
          | _ => false
          end in
        if remove
        then {| df_columns := df_columns df;
                df_rows := List.filter (fun r => negb (outlier r)) (df_rows df) |}
        else df
    | _, _ => df
    end.

(** [run_etl] *)
Definition run_etl (start_date end_date : option Z) (remove_outliers : bool)
  (source_filter : string) (w : World) : DataFrame :=
  let df := extract_raw_data start_date end_date source_filter w in
  if df_empty df then df
  else
    let df := remove_duplicates df in
    let df := standardize_dates df in
    let df := handle_missing_values df in
    if remove_outliers then detect_outliers df "petrol_price" true else df.

End ETL.
Export ETL.

(** ** Feature engineering (ml_pipeline/feature_engineering.py) *)

Module FeatureEngineer.

(** [ModelConfig.LAG_FEATURES] and [ModelConfig.ROLLING_WINDOWS] *)
Definition LAG_FEATURES : list nat := [1; 2; 7; 14]%nat.
Definition ROLLING_WINDOWS : list nat := [7]%nat.

(** [str(n)] *)
Definition str_of_nat (n : nat) : string :=
  DecimalString.NilZero.string_of_uint (Nat.to_uint n).

(** [create_lag_features]: one [lag_k] column per lag, the price column
    shifted [k] rows down. *)
Definition create_lag_features (df : DataFrame) (col : string) (lags : list nat)
  : DataFrame :=
  fold_left
    (fun df lag =>
       set_column df ("lag_" ++ str_of_nat lag) (shift (Z.of_nat lag) (column df col)))
    lags df.

(** [create_rolling_features]: one [rolling_w] column per window. *)
Definition create_rolling_features (df : DataFrame) (col : string)
  (windows : list nat) : DataFrame :=
  fold_left
    (fun df window =>
       set_column df ("rolling_" ++ str_of_nat window)
         (rolling_mean window (column df col)))
    windows df.

(** [create_target_variable]: the price [horizon] rows ahead. *)
Definition create_target_variable (df : DataFrame) (col : string) (horizon : Z)
  : DataFrame :=
  set_column df "target" (shift (- horizon) (column df col)).

(** [create_all_features]. A frame without the column a step reads raises
    [KeyError]; the [except] branch returns the frame as it stands. *)
Definition create_all_features (df : DataFrame) : DataFrame :=
  if negb (has_column df "date") then df
  else
    let df := sort_values df "date" in
    if negb (has_column df "petrol_price") then df
    else
      let df := create_lag_features df "petrol_price" LAG_FEATURES in
      let df := create_rolling_features df "petrol_price" ROLLING_WINDOWS in
      let df := create_target_variable df "petrol_price" 1 in
      dropna df.

End FeatureEngineer.
Export FeatureEngineer.

(** ** Vocabulary of the properties *)

Module Vocabulary.

(** The band a forecast price is clamped into. *)
Definition in_band (q : Q) : Prop := (90 <= q /\ q <= 150)%Q.

(** The current date of the wall clock, and the day after. *)
Definition today (w : World) : Z := now w / seconds_per_day.
Definition tomorrow (w : World) : Z := today w + 1.

(** A supplied [end_date] that stands for the day [d]: a date object, or a
    non-empty string that parses. *)
Definition end_date_denotes (strptime : string -> option Z) (e : EndDate) (d : Z)
  : Prop :=
  match e with
  | EndDateStr s => s <> "" /\ strptime s = Some d
  | EndDateObj d' => d' = d
  end.

(** A stored value that is exactly zero. *)
Definition stored_zero (x : option Q) : Prop :=
  exists q, x = Some q /\ (q == 0)%Q.

(** The nullable numeric columns of a stored feature row, by name. *)
Definition stored_nullable (row : ProcessedFeature) : list (string * option Q) :=
  [ ("lag_1", pf_lag_1 row); ("lag_2", pf_lag_2 row); ("lag_7", pf_lag_7 row);
    ("lag_14", pf_lag_14 row); ("rolling_7", pf_rolling_7 row);
    ("crude_oil_price", pf_crude_oil_price row); ("inr_usd", pf_inr_usd row);
    ("target", pf_target row) ].

(** Every numeric column of a stored feature row. *)
Definition stored_numeric (row : ProcessedFeature) : list (string * option Q) :=
  ("petrol_price", Some (pf_petrol_price row)) :: stored_nullable row.

(** The numeric entries of the dictionary read back, by name. *)
Definition readback_numeric (d : FeatureDict) : list (string * option Q) :=
  [ ("petrol_price", Some (fd_petrol_price d));
    ("lag_1", fd_lag_1 d); ("lag_2", fd_lag_2 d); ("lag_7", fd_lag_7 d);
    ("lag_14", fd_lag_14 d); ("rolling_7", fd_rolling_7 d);
    ("crude_oil_price", fd_crude_oil_price d); ("inr_usd", fd_inr_usd d);
    ("target", fd_target d) ].

(** The stored columns the forecast seed reads, each with the value the
    seed falls back to. *)
Definition seeded_columns (row : ProcessedFeature) : list (string * option Q * Q) :=
  [ ("lag_1", pf_lag_1 row, pf_petrol_price row);
    ("lag_2", pf_lag_2 row, pf_petrol_price row);
    ("lag_7", pf_lag_7 row, pf_petrol_price row);
    ("lag_14", pf_lag_14 row, pf_petrol_price row);
    ("rolling_7", pf_rolling_7 row, pf_petrol_price row);
    ("crude_oil_price", pf_crude_oil_price row, 80%Q);
    ("inr_usd", pf_inr_usd row, 83%Q) ].

(** The state a forecast loop starts from. *)
Definition initial_state (cf : gmap string Q) (date : Z) : LoopState :=
  {| current_features := cf; current_date := date; predictions := [] |}.

End Vocabulary.
Export Vocabulary.

(** ** Concrete stores used as instances *)

Module Scenario.

Definition empty_db : Database :=
  {| raw_petrol_prices := [];
     raw_exogenous_data := [];
     processed_features := [];
     model_registry := [];
     prediction_logs := [] |}.

(** 2024-06-15 09:30, no rows, no files. *)
Definition empty_world : World :=
  {| db := empty_db; files := ∅; now := 739052 * 86400 + 34200 |}.

(** A network that predicts the current price plus one half, and a scaler
    that leaves its input unchanged. *)
Definition demo_model : Model := fun X => FNum (nth 0 X 0 + (1 # 2))%Q.
Definition demo_scaler : Scaler := fun X => X.

Definition demo_version : ModelRegistry :=
  {| mr_id := 1;
     mr_model_version := "v1";
     mr_rmse := Some (5 # 2)%Q;
     mr_mae := Some (2 # 1)%Q;
     mr_mape := Some (19 # 10)%Q;
     mr_r2 := Some (9 # 10)%Q;
     mr_model_path := "saved_models/v1.h5";
     mr_training_samples := Some 80;
     mr_data_source := "combined";
     mr_created_at := 739050 * 86400 |}.

Definition demo_feature_row : ProcessedFeature :=
  {| pf_date := 739051;
     pf_petrol_price := (209 # 2)%Q;
     pf_lag_1 := Some (104 # 1)%Q;
     pf_lag_2 := Some (104 # 1)%Q;
     pf_lag_7 := Some (103 # 1)%Q;
     pf_lag_14 := Some (102 # 1)%Q;
     pf_rolling_7 := Some (104 # 1)%Q;
     pf_crude_oil_price := Some (81 # 1)%Q;
     pf_inr_usd := Some (167 # 2)%Q;
     pf_target := Some (105 # 1)%Q;
     pf_created_at := 739051 * 86400 |}.

Definition demo_db : Database :=
  {| raw_petrol_prices := [];
     raw_exogenous_data := [];
     processed_features := [demo_feature_row];
     model_registry := [demo_version];
     prediction_logs := [] |}.

(** One registered version with its artifact and its scaler sidecar. *)
Definition demo_world : World :=
  {| db := demo_db;
     files := <["saved_models/v1.h5" := H5File demo_model]>
                (<["saved_models/v1_scaler.pkl" := PklFile demo_scaler]> ∅);
     now := 739052 * 86400 + 34200 |}.

(** The same store with the sidecar file missing. *)
Definition sidecar_missing_world : World :=
  {| db := demo_db;
     files := <["saved_models/v1.h5" := H5File demo_model]> ∅;
     now := 739052 * 86400 + 34200 |}.

(** The same store with nothing registered. *)
Definition unregistered_world : World :=
  {| db := {| raw_petrol_prices := [];
              raw_exogenous_data := [];
              processed_features := [demo_feature_row];
              model_registry := [];
              prediction_logs := [] |};
     files := files demo_world;
     now := now demo_world |}.

(** A parser that knows three days of June 2024. *)
Definition demo_strptime (s : string) : option Z :=
  if String.eqb s "2024-06-15" then Some 739052
  else if String.eqb s "2024-06-16" then Some 739053
  else if String.eqb s "2024-06-17" then Some 739054
  else None.

Definition demo_metrics : Metrics :=
  {| m_rmse := Some (5 # 2)%Q; m_mae := Some (2 # 1)%Q; m_mape := Some (19 # 10)%Q |}.

(** A stored feature row whose price is zero. *)
Definition zero_price_row : ProcessedFeature :=
  {| pf_date := 739051;
     pf_petrol_price := 0%Q;
     pf_lag_1 := Some (104 # 1)%Q;
     pf_lag_2 := Some (104 # 1)%Q;
     pf_lag_7 := Some (103 # 1)%Q;
     pf_lag_14 := Some (102 # 1)%Q;
     pf_rolling_7 := Some (104 # 1)%Q;
     pf_crude_oil_price := Some (81 # 1)%Q;
     pf_inr_usd := Some (167 # 2)%Q;
     pf_target := Some (105 # 1)%Q;
     pf_created_at := 739051 * 86400 |}.

(** Ingest [n] consecutive daily prices starting on day [d], the price
    rising by one each day. *)
Fixpoint ingest_daily_prices (n : nat) (d : Z) (price : Q) (w : World) : World :=
  match n with
  | O => w
  | S n' =>
      ingest_daily_prices n' (d + 1) (price + 1)%Q
        (snd (ingest_petrol_price d (Some price) (Some "web_scraper") w))
  end.

(** The same for the two exogenous signals, held constant. *)
Fixpoint ingest_daily_macro (n : nat) (d : Z) (w : World) : World :=
  match n with
  | O => w
  | S n' =>
      ingest_daily_macro n' (d + 1)
        (snd (ingest_macro_data d (Some (81 # 1)%Q) (Some (167 # 2)%Q)
                (Some "yahoo_finance") w))
  end.

(** Twenty daily prices from 2024-01-01, and no exogenous data. *)
Definition twenty_prices_world : World :=
  ingest_daily_prices 20 738886 (100 # 1)%Q empty_world.

(** The same with exogenous data for every one of the twenty days. *)
Definition twenty_prices_macro_world : World :=
  ingest_daily_macro 20 738886 twenty_prices_world.

(** Three versions registered with rmse 5.0, 2.0 and 8.0. *)
Definition metrics_with_rmse (rmse : Q) : MetricsArg :=
  {| arg_rmse := Some rmse;
     arg_mae := Some (1 # 1)%Q;
     arg_mape := Some (1 # 1)%Q;
     arg_r2 := Some (9 # 10)%Q |}.

Definition three_versions_world : World :=
  let w := snd (register_model "v1" "saved_models/v1.h5" (metrics_with_rmse (5 # 1))
                  (Some 80) "combined" empty_world) in
  let w := snd (register_model "v2" "saved_models/v2.h5" (metrics_with_rmse (2 # 1))
                  (Some 80) "combined" w) in
  snd (register_model "v3" "saved_models/v3.h5" (metrics_with_rmse (8 # 1))
         (Some 80) "combined" w).

(** A stored feature row whose lag_1 and crude_oil_price are exactly zero
    and whose inr_usd is missing. *)
Definition zero_lag_row : ProcessedFeature :=
  {| pf_date := 739051;
     pf_petrol_price := (209 # 2)%Q;
     pf_lag_1 := Some 0%Q;
     pf_lag_2 := Some (104 # 1)%Q;
     pf_lag_7 := Some (103 # 1)%Q;
     pf_lag_14 := Some (102 # 1)%Q;
     pf_rolling_7 := Some (104 # 1)%Q;
     pf_crude_oil_price := Some 0%Q;
     pf_inr_usd := None;
     pf_target := Some (105 # 1)%Q;
     pf_created_at := 739051 * 86400 |}.

(** A registry in which v1 was registered without an rmse and v2 with
    rmse 2.0. *)
Definition null_metric_world : World :=
  let w := snd (register_model "v1" "saved_models/v1.h5"
                  {| arg_rmse := None; arg_mae := Some (1 # 1)%Q;
                     arg_mape := Some (1 # 1)%Q; arg_r2 := None |}
                  (Some 80) "combined" empty_world) in
  snd (register_model "v2" "saved_models/v2.h5" (metrics_with_rmse (2 # 1))
         (Some 80) "combined" w).

End Scenario.
Export Scenario.

(** ** Limits of the Python and SQL values *)

Module Limits.

(** [date.max.toordinal()], the day 9999-12-31: the last day a [date] or a
    [datetime] can hold. Adding a [timedelta] that leads past it raises
    [OverflowError]. *)
Definition MAXORDINAL : Z := 3652059.

(** [q] is a multiple of [10 ^ (- places)]: a value a DECIMAL column of
    that scale reads back as it was written. *)
Definition at_scale (places : Z) (q : Q) : bool :=
  (Qnum q * 10 ^ places) mod Z.pos (Qden q) =? 0.

(** An optional value that is absent, or given with at most [places]
    decimals. *)
Definition optional_at_scale (places : Z) (x : option Q) : bool :=
  match x with
  | Some q => at_scale places q
  | None => true
  end.

(** A metric that is absent, or given with at most four decimals. *)
Definition metric_at_scale (x : option Q) : bool := optional_at_scale 4 x.

(** An optional INTEGER parameter. *)
Definition optional_sqlite_integer (x : option Z) : bool :=
  match x with
  | Some z => sqlite_integer z
  | None => true
  end.

(** The metrics of a dictionary given with at most four decimals, the scale
    of the metric columns. *)
Definition metrics_at_scale (metrics : MetricsArg) : bool :=
  metric_at_scale (arg_rmse metrics) && metric_at_scale (arg_mae metrics) &&
  metric_at_scale (arg_mape metrics) && metric_at_scale (arg_r2 metrics).

(** A dictionary in which each of the four metrics has a value. *)
Definition metrics_complete (metrics : MetricsArg) : bool :=
  match arg_rmse metrics, arg_mae metrics, arg_mape metrics, arg_r2 metrics with
  | Some _, Some _, Some _, Some _ => true
  | _, _, _, _ => false
  end.

End Limits.
Export Limits.

(** ** Registry queries and updates (ml_pipeline/model_registry.py,
    ml_pipeline/evaluate.py) *)

Module RegistryOps.

(** [get_all_models]: every version, newest first. *)
Definition get_all_models (w : World) : list ModelDict :=
  map ModelRegistry_to_dict (order_by (desc mr_created_at) (model_registry (db w))).

(** [get_model_by_version] *)
Definition get_model_by_version (model_version : string) (w : World)
  : option ModelDict :=
  match first (List.filter (fun r => String.eqb (mr_model_version r) model_version)
                 (model_registry (db w))) with
  | Some model => Some (ModelRegistry_to_dict model)
  | None => None
  end.

(** [get_latest_model] *)
Definition get_latest_model (w : World) : option ModelDict :=
  match first (order_by (desc mr_created_at) (model_registry (db w))) with
  | Some model => Some (ModelRegistry_to_dict model)
  | None => None
  end.

(** One line of [compare_models]. *)
Record Comparison : Type := {
  cmp_model_version : string;
  cmp_rmse : option Q;
  cmp_mae : option Q;
  cmp_mape : option Q;
  cmp_training_samples : option Z;
  cmp_created_at : Z
}.

(** [compare_models]: every version in ascending order of rmse. *)
Definition compare_models (w : World) : list Comparison :=
  map (fun model =>
         {| cmp_model_version := mr_model_version model;
            cmp_rmse := float_if_truthy (mr_rmse model);
            cmp_mae := float_if_truthy (mr_mae model);
            cmp_mape := float_if_truthy (mr_mape model);
            cmp_training_samples := mr_training_samples model;
            cmp_created_at := mr_created_at model |})
    (order_by (asc_nullable mr_rmse) (model_registry (db w))).

(** The table without the first row that satisfies [p]. *)
Fixpoint remove_first {A : Type} (p : A -> bool) (l : list A) : list A :=
  match l with
  | [] => []
  | x :: l' => if p x then l' else x :: remove_first p l'
  end.

(** The table with [f] applied to the first row that satisfies [p]. *)
Fixpoint update_first {A : Type} (p : A -> bool) (f : A -> A) (l : list A) : list A :=
  match l with
  | [] => []
  | x :: l' => if p x then f x :: l' else x :: update_first p f l'
  end.

Definition with_registry (w : World) (registry : list ModelRegistry) : World :=
  with_db w
    {| raw_petrol_prices := raw_petrol_prices (db w);
       raw_exogenous_data := raw_exogenous_data (db w);
       processed_features := processed_features (db w);
       model_registry := registry;
       prediction_logs := prediction_logs (db w) |}.

(** [delete_model]: delete the row found for the version, if any. On the
    default SQLite engine foreign keys are not enforced, so prediction log
    rows that name the version do not block the delete. *)
Definition delete_model (model_version : string) (w : World) : bool * World :=
  let matches r := String.eqb (mr_model_version r) model_version in
  match first (List.filter matches (model_registry (db w))) with
  | Some _ => (true, with_registry w (remove_first matches (model_registry (db w))))
  | None => (false, w)
  end.

(** [str(n)] for an integer. *)
Definition py_str (z : Z) : string := NilEmpty.string_of_int (Z.to_int z).

Section NextVersion.

(** [int(s)]; [None] is the [ValueError] of a string that is no integer. *)
Variable py_int : string -> option Z.

(** The numbers of the versions that parse once every 'v' is removed. *)
Fixpoint version_numbers (versions : list string) : list Z :=
  match versions with
  | [] => []
  | version :: versions' =>
      match py_int (str_replace "v" "" version) with
      | Some num => num :: version_numbers versions'
      | None => version_numbers versions'
      end
  end.

(** [max(version_numbers)] for a non-empty list. *)
Definition max_of (n : Z) (ns : list Z) : Z := fold_left Z.max ns n.

(** [get_next_version] *)
Definition get_next_version (w : World) : string :=
  match model_registry (db w) with
  | [] => "v1"
  | _ =>
      match version_numbers (map mr_model_version (model_registry (db w))) with
      | [] => "v1"
      | n :: ns => "v" ++ py_str (max_of n ns + 1)
      end
  end.

End NextVersion.

(** [ModelEvaluator.save_metrics_to_database]: update the row of the
    version in place, or insert one; the insert leaves [data_source] to the
    column default. [metrics] is a dictionary that holds the four keys the
    function indexes, a [None] entry being a key whose value is [None]. *)
Definition save_metrics_to_database (model_version : string)
  (metrics : MetricsArg) (model_path : string) (training_samples : option Z)
  (w : World) : bool * World :=
  let matches r := String.eqb (mr_model_version r) model_version in
  match first (List.filter matches (model_registry (db w))) with
  | Some _ =>
      let update (existing : ModelRegistry) : ModelRegistry :=
        {| mr_id := mr_id existing;
           mr_model_version := mr_model_version existing;
           mr_rmse := arg_rmse metrics;
           mr_mae := arg_mae metrics;
           mr_mape := arg_mape metrics;
           mr_r2 := arg_r2 metrics;
           mr_model_path := model_path;
           mr_training_samples := training_samples;
           mr_data_source := mr_data_source existing;
           mr_created_at := mr_created_at existing |} in
      (true, with_registry w (update_first matches update (model_registry (db w))))
  | None =>
      let new_record :=
        {| mr_id := next_id mr_id (model_registry (db w));
           mr_model_version := model_version;
           mr_rmse := arg_rmse metrics;
           mr_mae := arg_mae metrics;
           mr_mape := arg_mape metrics;
           mr_r2 := arg_r2 metrics;
           mr_model_path := model_path;
           mr_training_samples := training_samples;
           mr_data_source := "combined";
           mr_created_at := now w |} in
      (true, with_registry w (model_registry (db w) ++ [new_record])%list)
  end.

End RegistryOps.
Export RegistryOps.

(** ** Gap search and batch ingestion (scraper/data_ingestion_service.py) *)

Module IngestionOps.

(** The table a gap search runs on. *)
Inductive TableModel : Type :=
| RawPetrolPriceTable
| RawExogenousDataTable.

Definition table_dates (table_model : TableModel) (w : World) : list Z :=
  match table_model with
  | RawPetrolPriceTable => map rpp_date (raw_petrol_prices (db w))
  | RawExogenousDataTable => map red_date (raw_exogenous_data (db w))
  end.

(** [n] consecutive days from [current]. *)
Fixpoint dates_from (n : nat) (current : Z) : list Z :=
  match n with
  | O => []
  | S n' => current :: dates_from n' (current + 1)
  end.

(** The loop [while current <= end_date: ...; current += 1 day]. *)
Definition all_dates (start_date end_date : Z) : list Z :=
  dates_from (Z.to_nat (end_date - start_date + 1)) start_date.

(** [get_missing_dates]. The loop steps [current] one day past [end_date];
    when [end_date] is the last day a [date] can hold, that step raises
    [OverflowError] and the [except] branch returns the empty list. *)
Definition get_missing_dates (table_model : TableModel) (start_date end_date : Z)
  (w : World) : list Z :=
  let existing_dates :=
    List.filter (fun d => (start_date <=? d) && (d <=? end_date))
      (table_dates table_model w) in
  if (start_date <=? end_date) && (MAXORDINAL <=? end_date) then []
  else
    List.filter (fun d => negb (existsb (Z.eqb d) existing_dates))
      (all_dates start_date end_date).

(** A cell as a date argument; anything else is refused by the Date column
    when the query is run. *)
Definition as_date (v : Value) : option Z :=
  match v with
  | VDate d => Some d
  | _ => None
  end.

(** A cell as a numeric argument; a missing cell is NaN, stored as NULL.
    A numeric column holds no strings or dates. *)
Definition as_number (v : Value) : option Q :=
  match v with
  | VNum q => Some q
  | VInt z => Some (inject_Z z)
  | _ => None
  end.

Definition as_source (v : Value) : option string :=
  match v with
  | VStr s => Some s
  | _ => None
  end.

(** [row.get('source', 'file_upload')] *)
Definition row_source (df : DataFrame) (row : gmap string Value) : option string :=
  if has_column df "source" then as_source (cell row "source")
  else Some "file_upload".

(** The result dictionary of [ingest_from_dataframe]. *)
Record IngestCounts : Type := {
  inserted : nat;
  duplicates : nat;
  total : nat;
  message : string
}.

(** What a call returns: the counts, or the [NameError] of the [except]
    branch, which returns a name that is never bound. *)
Inductive IngestOutcome : Type :=
| Counted (counts : IngestCounts)
| RaisedNameError.

(** One loop step for a petrol row. *)
Definition ingest_petrol_row (df : DataFrame) (row : gmap string Value) (w : World)
  : bool * World :=
  match as_date (cell row "date") with
  | Some date =>
      ingest_petrol_price date (as_number (cell row "petrol_price"))
        (row_source df row) w
  | None => (false, w)
  end.

(** One loop step for a macro row. *)
Definition ingest_macro_row (df : DataFrame) (row : gmap string Value) (w : World)
  : bool * World :=
  match as_date (cell row "date") with
  | Some date =>
      ingest_macro_data date (as_number (cell row "crude_oil_price"))
        (as_number (cell row "inr_usd")) (row_source df row) w
  | None => (false, w)
  end.

(** The loop over the rows, counting what each call returns. *)
Fixpoint ingest_rows (step : gmap string Value -> World -> bool * World)
  (rows : list (gmap string Value)) (inserted_count duplicate_count : nat)
  (w : World) : nat * nat * World :=
  match rows with
  | [] => (inserted_count, duplicate_count, w)
  | row :: rows' =>
      let '(ok, w') := step row w in
      if ok then ingest_rows step rows' (S inserted_count) duplicate_count w'
      else ingest_rows step rows' inserted_count (S duplicate_count) w'
  end.

Definition counts_message (total_count inserted_count duplicate_count : nat) : string :=
  "Processed " ++ str_of_nat total_count ++ " records: "
  ++ str_of_nat inserted_count ++ " inserted, "
  ++ str_of_nat duplicate_count ++ " duplicates".

Definition counted (total_count inserted_count duplicate_count : nat) : IngestOutcome :=
  Counted {| inserted := inserted_count;
             duplicates := duplicate_count;
             total := total_count;
             message := counts_message total_count inserted_count duplicate_count |}.

(** [ingest_from_dataframe]. Indexing a row by a column the frame lacks
    raises [KeyError] on the first row, before anything is ingested. *)
Definition ingest_from_dataframe (df : DataFrame) (data_type : string) (w : World)
  : IngestOutcome * World :=
  let total_count := len df in
  if String.eqb data_type "petrol" then
    match df_rows df with
    | [] => (counted total_count 0 0, w)
    | _ =>
        if has_column df "date" && has_column df "petrol_price" then
          let '(i, d, w') := ingest_rows (ingest_petrol_row df) (df_rows df) 0 0 w in
          (counted total_count i d, w')
        else (RaisedNameError, w)
    end
  else if String.eqb data_type "macro" then
    match df_rows df with
    | [] => (counted total_count 0 0, w)
    | _ =>
        if has_column df "date" then
          let '(i, d, w') := ingest_rows (ingest_macro_row df) (df_rows df) 0 0 w in
          (counted total_count i d, w')
        else (RaisedNameError, w)
    end
  else (counted total_count 0 0, w).

End IngestionOps.
Export IngestionOps.

(** ** Prediction history (backend/services/prediction_service.py) *)

Module PredictionHistory.

(** [get_prediction_history]: the newest [limit] log rows, newest first. A
    negative LIMIT is no limit on the default SQLite engine; a [limit] that
    cannot be bound to the LIMIT parameter makes the query raise, and the
    [except] branch returns the empty list. *)
Definition get_prediction_history (limit : Z) (w : World) : list PredictionLog :=
  let logs := order_by (desc pl_request_time) (prediction_logs (db w)) in
  if negb (sqlite_integer limit) then []
  else if limit <? 0 then logs else take (Z.to_nat limit) logs.

End PredictionHistory.
Export PredictionHistory.

(** ** The feature table (ml_pipeline/feature_engineering.py) *)

Module FeatureStore.

(** [float(row.get(c)) if pd.notna(row.get(c)) else None]; the outer
    [None] is the exception of a cell that is no number. *)
Definition optional_number (v : Value) : option (option Q) :=
  match v with
  | VNone => Some None
  | VNum q => Some (Some q)
  | VInt z => Some (Some (inject_Z z))
  | _ => None
  end.

(** The column values one row of the frame stands for. [None] is any
    exception raised while reading the row, and also a missing price, which
    violates NOT NULL at commit. *)
Definition feature_of_row (row : gmap string Value) (created_at : Z)
  : option ProcessedFeature :=
  match as_date (cell row "date"), as_number (cell row "petrol_price"),
        optional_number (cell row "lag_1"), optional_number (cell row "lag_2"),
        optional_number (cell row "lag_7"), optional_number (cell row "lag_14"),
        optional_number (cell row "rolling_7"),
        optional_number (cell row "crude_oil_price"),
        optional_number (cell row "inr_usd"), optional_number (cell row "target") with
  | Some date, Some price, Some l1, Some l2, Some l7, Some l14, Some r7,
    Some crude, Some rate, Some target =>
      Some {| pf_date := date;
              pf_petrol_price := price;
              pf_lag_1 := l1;
              pf_lag_2 := l2;
              pf_lag_7 := l7;
              pf_lag_14 := l14;
              pf_rolling_7 := r7;
              pf_crude_oil_price := crude;
              pf_inr_usd := rate;
              pf_target := target;
              pf_created_at := created_at |}
  | _, _, _, _, _, _, _, _, _, _ => None
  end.

(** The in-place update of an existing row: every column but the key and
    [created_at]. *)
Definition overwrite (values existing : ProcessedFeature) : ProcessedFeature :=
  {| pf_date := pf_date existing;
     pf_petrol_price := pf_petrol_price values;
     pf_lag_1 := pf_lag_1 values;
     pf_lag_2 := pf_lag_2 values;
     pf_lag_7 := pf_lag_7 values;
     pf_lag_14 := pf_lag_14 values;
     pf_rolling_7 := pf_rolling_7 values;
     pf_crude_oil_price := pf_crude_oil_price values;
     pf_inr_usd := pf_inr_usd values;
     pf_target := pf_target values;
     pf_created_at := pf_created_at existing |}.

(** The loop of [save_to_database] inside its session. [table] holds the
    stored rows with the updates made so far, [pending] the rows added and
    not yet flushed. The session does not autoflush, so the existence query
    sees the stored rows only. *)
Fixpoint save_rows (rows : list (gmap string Value)) (created_at : Z)
  (table pending : list ProcessedFeature)
  : option (list ProcessedFeature * list ProcessedFeature) :=
  match rows with
  | [] => Some (table, pending)
  | row :: rows' =>
      match feature_of_row row created_at with
      | None => None
      | Some values =>
          let same_date p := pf_date p =? pf_date values in
          if existsb same_date table
          then save_rows rows' created_at
                 (update_first same_date (overwrite values) table) pending
          else save_rows rows' created_at table (pending ++ [values])%list
      end
  end.

(** No two rows of the list share a date. *)
Fixpoint unique_dates (rows : list ProcessedFeature) : bool :=
  match rows with
  | [] => true
  | p :: rows' =>
      negb (existsb (fun p' => pf_date p' =? pf_date p) rows') && unique_dates rows'
  end.

Definition with_features (w : World) (features : list ProcessedFeature) : World :=
  with_db w
    {| raw_petrol_prices := raw_petrol_prices (db w);
       raw_exogenous_data := raw_exogenous_data (db w);
       processed_features := features;
       model_registry := model_registry (db w);
       prediction_logs := prediction_logs (db w) |}.

(** [save_to_database]: the number of rows saved, or 0 with the store rolled
    back when a row cannot be read or the commit violates the primary
    key. *)
Definition save_to_database (df : DataFrame) (w : World) : nat * World :=
  match save_rows (df_rows df) (now w) (processed_features (db w)) [] with
  | Some (table, pending) =>
      if unique_dates pending
      then (len df, with_features w (table ++ pending)%list)
      else (0%nat, w)
  | None => (0%nat, w)
  end.

(** A [to_dict] dictionary as a frame row. *)
Definition feature_record (d : FeatureDict) : gmap string Value :=
  list_to_map
    [ ("date", VDate (fd_date d));
      ("petrol_price", VNum (fd_petrol_price d));
      ("lag_1", opt_num (fd_lag_1 d));
      ("lag_2", opt_num (fd_lag_2 d));
      ("lag_7", opt_num (fd_lag_7 d));
      ("lag_14", opt_num (fd_lag_14 d));
      ("rolling_7", opt_num (fd_rolling_7 d));
      ("crude_oil_price", opt_num (fd_crude_oil_price d));
      ("inr_usd", opt_num (fd_inr_usd d));
      ("target", opt_num (fd_target d));
      ("created_at", VTime (fd_created_at d)) ].

Definition feature_columns : list string :=
  [ "date"; "petrol_price"; "lag_1"; "lag_2"; "lag_7"; "lag_14"; "rolling_7";
    "crude_oil_price"; "inr_usd"; "target"; "created_at" ].

(** [load_from_database]: the stored rows, filtered by date only when both
    bounds are given, sorted by date. *)
Definition load_from_database (start_date end_date : option Z) (w : World)
  : DataFrame :=
  let records :=
    List.filter (fun r => in_range start_date end_date (pf_date r))
      (processed_features (db w)) in
  let df :=
    from_records feature_columns
      (map (fun r => feature_record (ProcessedFeature_to_dict r)) records) in
  if negb (df_empty df) then sort_values df "date" else df.

End FeatureStore.
Export FeatureStore.

(** ** Data preparation (backend/routes/prepare_routes.py) *)

Module PrepareRoute.

(** The JSON response and its status. *)
Inductive PrepareResponse : Type :=
| PrepareSuccess (samples : nat) (data_source : string)  (* 200 *)
| PrepareNoData (data_source : string)                   (* 400, no ETL rows *)
| PrepareNoFeatures.                                     (* 400, no feature rows *)

(** [prepare_data] for a request whose [data_source] is given; the three
    steps catch their own exceptions. *)
Definition prepare_data (data_source : string) (w : World) : PrepareResponse * World :=
  let cleaned_df := run_etl None None false data_source w in
  if df_empty cleaned_df then (PrepareNoData data_source, w)
  else
    let features_df := create_all_features cleaned_df in
    if df_empty features_df then (PrepareNoFeatures, w)
    else
      let '(count, w') := save_to_database features_df w in
      (PrepareSuccess count data_source, w').

End PrepareRoute.
Export PrepareRoute.

(** ** Vocabulary of the pipeline statements *)

Module PipelineVocabulary.

(** What a row of the ETL output provides: a date, a numeric price and
    exogenous cells that are numbers or missing. *)
Definition etl_row (r : gmap string Value) : Prop :=
  (exists d, cell r "date" = VDate d) /\
  (exists q, cell r "petrol_price" = VNum q) /\
  optional_number (cell r "crude_oil_price") <> None /\
  optional_number (cell r "inr_usd") <> None.

End PipelineVocabulary.
Export PipelineVocabulary.

(** ** Further instances *)

Module Scenario2.

(** A decimal parser: an optional sign and digits, nothing else. *)
Definition decimal_int (s : string) : option Z :=
  match NilEmpty.int_of_string s with
  | Some d => Some (Z.of_int d)
  | None => None
  end.

End Scenario2.
Export Scenario2.

(** * Properties *)

(** ** The clamp and the rounding *)

Lemma clamp_in_band (raw : pyfloat) : in_band (clamp raw).
Proof.
  unfold in_band, clamp, py_max, py_min.
  destruct raw as [q | | |]; cbn [py_lt].
  - destruct (Qle_bool 150 q) eqn:Hhi; cbn [negb py_lt].
    + cbn. split; [discriminate | apply Qle_refl].
    + destruct (Qle_bool q 90) eqn:Hlo; cbn [negb].
      * split; [apply Qle_refl | discriminate].
      * split; apply Qlt_le_weak, Qnot_le_lt; intros H;
          apply Qle_bool_iff in H; congruence.
  - cbn. split; [discriminate | apply Qle_refl].
  - cbn. split; [discriminate | apply Qle_refl].
  - cbn. split; [apply Qle_refl | discriminate].
Qed.

(** A finite raw output inside the band is passed through unchanged. *)
Lemma clamp_inside (q : Q) : (90 < q)%Q -> (q < 150)%Q -> clamp (FNum q) = q.
Proof.
  intros Hlo Hhi. unfold clamp, py_max, py_min. cbn [py_lt].
  assert (H1 : Qle_bool 150 q = false).
  { destruct (Qle_bool 150 q) eqn:E; [|reflexivity].
    apply Qle_bool_iff in E. lra. }
  rewrite H1. cbn [negb py_lt].
  assert (H2 : Qle_bool q 90 = false).
  { destruct (Qle_bool q 90) eqn:E; [|reflexivity].
    apply Qle_bool_iff in E. lra. }
  rewrite H2. reflexivity.
Qed.

Lemma round_half_even_bounds (x : Q) (a b : Z) :
  (inject_Z a <= x)%Q -> (x <= inject_Z b)%Q ->
  a <= round_half_even x <= b.
Proof.
  intros Ha Hb.
  assert (Hfa : a <= Qfloor x).
  { rewrite <- (Qfloor_Z a). now apply Qfloor_resp_le. }
  assert (Hfb : Qfloor x <= b).
  { rewrite <- (Qfloor_Z b). now apply Qfloor_resp_le. }
  assert (Hup : (inject_Z (Qfloor x) < x)%Q -> Qfloor x + 1 <= b).
  { intros Hlt. assert (Qfloor x < b); [|lia].
    rewrite Zlt_Qlt. eapply Qlt_le_trans; eauto. }
  unfold round_half_even.
  destruct (Qcompare_spec (x - inject_Z (Qfloor x)) (1 # 2)) as [He | Hl | Hg].
  - destruct (Z.even (Qfloor x)); [lia|].
    split; [lia|]. apply Hup. lra.
  - lia.
  - split; [lia|]. apply Hup. lra.
Qed.

Lemma py_round2_in_band (q : Q) : in_band q -> in_band (py_round2 q).
Proof.
  intros [Hlo Hhi]. unfold py_round2.
  destruct (round_half_even_bounds (q * 100) 9000 15000) as [H1 H2].
  - change (inject_Z 9000) with (9000 # 1)%Q. lra.
  - change (inject_Z 15000) with (15000 # 1)%Q. lra.
  - rewrite Zle_Qle in H1, H2.
    change (inject_Z 9000) with (9000 # 1)%Q in H1.
    change (inject_Z 15000) with (15000 # 1)%Q in H2.
    split.
    + apply Qle_shift_div_l; [reflexivity | lra].
    + apply Qle_shift_div_r; [reflexivity | lra].
Qed.

(** NaN and the infinities end on a bound, as Python's comparisons have it. *)
Lemma clamp_special_values :
  clamp FNaN = 150%Q /\ clamp FPosInf = 150%Q /\ clamp FNegInf = 90%Q /\
  clamp (FNum (200 # 1)) = 150%Q /\ clamp (FNum (- (5 # 1))) = 90%Q.
Proof. repeat split. Qed.

(** Rounding to two places, ties to the even neighbour. *)
Lemma py_round2_examples :
  (py_round2 (104125 # 1000) == 10412 # 100)%Q /\
  (py_round2 (104135 # 1000) == 10414 # 100)%Q /\
  (py_round2 (104126 # 1000) == 10413 # 100)%Q.
Proof. repeat split. Qed.

(** ** The forecasting loop *)

Lemma forecast_loop_succ (model : Model) (scaler : Scaler) (k : nat)
  (st : LoopState) :
  forecast_loop model scaler (S k) st =
  forecast_step model scaler (forecast_loop model scaler k st).
Proof.
  revert st. induction k as [|k IH]; intros st; [reflexivity|].
  change (forecast_loop model scaler (S (S k)) st)
    with (forecast_loop model scaler (S k) (forecast_step model scaler st)).
  rewrite IH. reflexivity.
Qed.

Lemma forecast_step_predictions (model : Model) (scaler : Scaler) (st : LoopState) :
  predictions (forecast_step model scaler st) =
  (predictions st ++
   [ {| pred_date := current_date st / seconds_per_day;
        predicted_price :=
          py_round2 (clamp (model (scaler (input_vector (current_features st))))) |} ])%list.
Proof. reflexivity. Qed.

Lemma forecast_loop_in_band (model : Model) (scaler : Scaler) (n : nat)
  (st : LoopState) :
  Forall (fun p => in_band (predicted_price p)) (predictions st) ->
  Forall (fun p => in_band (predicted_price p))
    (predictions (forecast_loop model scaler n st)).
Proof.
  revert st. induction n as [|n IH]; intros st Hst; [exact Hst|].
  cbn [forecast_loop]. apply IH.
  rewrite forecast_step_predictions.
  apply Forall_app. split; [exact Hst|].
  constructor; [|constructor].
  cbn [predicted_price]. apply py_round2_in_band, clamp_in_band.
Qed.

Lemma forecast_loop_length (model : Model) (scaler : Scaler) (n : nat)
  (st : LoopState) :
  length (predictions (forecast_loop model scaler n st)) =
  (length (predictions st) + n)%nat.
Proof.
  revert st. induction n as [|n IH]; intros st; cbn [forecast_loop]; [lia|].
  rewrite IH, forecast_step_predictions, length_app. cbn [length]. lia.
Qed.

(** C4. Clamp law: whatever the raw model output, the price a forecasting
    step emits lies between 90 and 150; so does every price emitted by a
    loop of any length from any seed, and every price of a successful
    forecast. *)
Theorem C4_clamp_law :
  (forall raw : pyfloat, in_band (py_round2 (clamp raw))) /\
  (forall (model : Model) (scaler : Scaler) (n : nat) (cf : gmap string Q) (date : Z),
     Forall (fun p => in_band (predicted_price p))
       (predictions (forecast_loop model scaler n (initial_state cf date)))) /\
  (forall (strptime : string -> option Z) (horizon_days : Z)
          (model_version : option string) (end_date : option EndDate) (w : World),
     match generate_forecast strptime horizon_days model_version end_date w with
     | ForecastSuccess _ _ predictions _ =>
         Forall (fun p => in_band (predicted_price p)) predictions
     | ForecastFailure _ => True
     end).
Proof.
  split; [|split].
  - intros raw. apply py_round2_in_band, clamp_in_band.
  - intros model scaler n cf date.
    apply forecast_loop_in_band. constructor.
  - intros strptime horizon_days model_version end_date w.
    unfold generate_forecast.
    destruct (load_model_and_scaler model_version w) as [[[[model scaler] version] metrics]|];
      [|exact I].
    destruct (get_latest_features w) as [latest|]; [|exact I].
    destruct (resolve_horizon _ _ _ _) as [error|h]; [exact I|].
    apply forecast_loop_in_band. constructor.
Qed.

Lemma forecast_step_features (model : Model) (scaler : Scaler) (st : LoopState) :
  let cf := current_features st in
  let cf' := current_features (forecast_step model scaler st) in
  let pred := clamp (model (scaler (input_vector cf))) in
  cf' !!! "lag_14" = cf !!! "lag_7" /\
  cf' !!! "lag_7" = cf !!! "lag_2" /\
  cf' !!! "lag_2" = cf !!! "lag_1" /\
  cf' !!! "lag_1" = cf !!! "petrol_price" /\
  cf' !!! "petrol_price" = pred /\
  cf' !!! "rolling_7" = (((cf !!! "rolling_7") * 6 + pred) / 7)%Q /\
  cf' !!! "crude_oil_price" = cf !!! "crude_oil_price" /\
  cf' !!! "inr_usd" = cf !!! "inr_usd".
Proof.
  cbv zeta. unfold forecast_step. cbn [current_features].
  repeat split;
    repeat first
      [ rewrite lookup_total_insert_eq
      | rewrite lookup_total_insert_ne by (intro; discriminate) ];
    reflexivity.
Qed.

(** C5. Roll-forward law: in a loop of any length from any start state, the
    state after step [k + 1] is obtained from the state after step [k] by
    lag_14 <- lag_7, lag_7 <- lag_2, lag_2 <- lag_1, lag_1 <- price,
    price <- clamped prediction, rolling_7 <- (rolling_7 * 6 + clamped
    prediction) / 7, the date moved on by exactly one day; the exogenous
    entries stay as they are. *)
Theorem C5_roll_forward (model : Model) (scaler : Scaler) (st0 : LoopState)
  (k : nat) :
  let st := forecast_loop model scaler k st0 in
  let st' := forecast_loop model scaler (S k) st0 in
  let cf := current_features st in
  let cf' := current_features st' in
  let pred := clamp (model (scaler (input_vector cf))) in
  cf' !!! "lag_14" = cf !!! "lag_7" /\
  cf' !!! "lag_7" = cf !!! "lag_2" /\
  cf' !!! "lag_2" = cf !!! "lag_1" /\
  cf' !!! "lag_1" = cf !!! "petrol_price" /\
  cf' !!! "petrol_price" = pred /\
  cf' !!! "rolling_7" = (((cf !!! "rolling_7") * 6 + pred) / 7)%Q /\
  cf' !!! "crude_oil_price" = cf !!! "crude_oil_price" /\
  cf' !!! "inr_usd" = cf !!! "inr_usd" /\
  current_date st' = current_date st + seconds_per_day /\
  current_date st' / seconds_per_day = current_date st / seconds_per_day + 1.
Proof.
  cbv zeta. rewrite forecast_loop_succ.
  pose proof (forecast_step_features model scaler (forecast_loop model scaler k st0))
    as H. cbv zeta in H.
  destruct H as (H1 & H2 & H3 & H4 & H5 & H6 & H7 & H8).
  repeat split; try assumption.
  cbn [forecast_step current_date]. unfold seconds_per_day.
  replace (current_date (forecast_loop model scaler k st0) + 86400)
    with (current_date (forecast_loop model scaler k st0) + 1 * 86400) by lia.
  rewrite Z.div_add by lia. reflexivity.
Qed.

(** ** Horizon resolution *)

Lemma tomorrow_midnight (w : World) :
  now w - now w mod seconds_per_day + seconds_per_day = tomorrow w * seconds_per_day.
Proof.
  unfold tomorrow, today, seconds_per_day.
  pose proof (Z.div_mod (now w) 86400). lia.
Qed.

Lemma resolve_horizon_denotes (strptime : string -> option Z) (horizon_days : Z)
  (e : EndDate) (d : Z) (w : World) :
  end_date_denotes strptime e d ->
  resolve_horizon strptime horizon_days (Some e) (tomorrow w * seconds_per_day) =
  if d - today w <=? 0 then inl end_date_error else inr (d - today w).
Proof.
  intros He.
  assert (Hdays : (d * seconds_per_day - tomorrow w * seconds_per_day)
                  / seconds_per_day + 1 = d - today w).
  { unfold tomorrow, seconds_per_day.
    replace (d * 86400 - (today w + 1) * 86400) with ((d - today w - 1) * 86400) by lia.
    rewrite Z.div_mul by lia. lia. }
  unfold resolve_horizon.
  destruct e as [s | d']; cbn [end_date_denotes] in He.
  - destruct He as [Hne Hparse].
    cbn [end_date_truthy].
    destruct (String.eqb_spec s "") as [Heq | _]; [contradiction|].
    cbn [negb]. rewrite Hparse, Hdays. reflexivity.
  - subst d'. cbn [end_date_truthy]. rewrite Hdays. reflexivity.
Qed.

Lemma generate_forecast_with_end_date (strptime : string -> option Z)
  (horizon_days : Z) (model_version : option string) (e : EndDate) (d : Z)
  (w : World) (model : Model) (scaler : Scaler) (version : string)
  (metrics : Metrics) (latest : FeatureDict) :
  load_model_and_scaler model_version w = Some (model, scaler, version, metrics) ->
  get_latest_features w = Some latest ->
  end_date_denotes strptime e d ->
  generate_forecast strptime horizon_days model_version (Some e) w =
  if d - today w <=? 0 then ForecastFailure end_date_error
  else
    ForecastSuccess version (d - today w)
      (predictions
         (forecast_loop model scaler (Z.to_nat (d - today w))
            (initial_state (seed_features latest) (tomorrow w * seconds_per_day))))
      metrics.
Proof.
  intros Hload Hfeat He. unfold generate_forecast.
  rewrite Hload, Hfeat, tomorrow_midnight.
  rewrite (resolve_horizon_denotes strptime horizon_days e d w He).
  destruct (d - today w <=? 0); reflexivity.
Qed.







(** ** Loading the model and its scaler *)

Lemma find_model_record_empty (model_version : option string) (w : World) :
  model_registry (db w) = [] -> find_model_record model_version w = None.
Proof.
  intros H. unfold find_model_record. rewrite H.
  destruct model_version as [v|]; [destruct (str_truthy (Some v))|]; reflexivity.
Qed.

Lemma load_without_record (model_version : option string) (w : World) :
  find_model_record model_version w = None ->
  load_model_and_scaler model_version w = None.
Proof.
  intros H. unfold load_model_and_scaler, load_model_and_scaler_body.
  rewrite H. reflexivity.
Qed.

Lemma load_without_sidecar (model_version : option string) (w : World)
  (r : ModelRegistry) (m : Model) :
  find_model_record model_version w = Some r ->
  files w !! mr_model_path r = Some (H5File m) ->
  files w !! str_replace ".h5" "_scaler.pkl" (mr_model_path r) = None ->
  load_model_and_scaler_body model_version w =
    raise (FileNotFoundError (str_replace ".h5" "_scaler.pkl" (mr_model_path r))) /\
  load_model_and_scaler model_version w = None.
Proof.
  intros Hrec Hmodel Hscaler.
  unfold load_model_and_scaler, load_model_and_scaler_body.
  rewrite Hrec. unfold keras_load_model, pickle_load.
  rewrite Hmodel. cbn [bind ret]. rewrite Hscaler. split; reflexivity.
Qed.

Lemma generate_forecast_without_model (strptime : string -> option Z)
  (horizon_days : Z) (model_version : option string) (end_date : option EndDate)
  (w : World) :
  load_model_and_scaler model_version w = None ->
  generate_forecast strptime horizon_days model_version end_date w =
  ForecastFailure no_model_error.
Proof. intros H. unfold generate_forecast. rewrite H. reflexivity. Qed.

(** C7, as the code has it. When the registry row exists and its artifact
    file is present but the scaler sidecar is missing, the loader swallows
    the file error and the forecast fails with the "No trained model
    available" result, the very result of a store in which no registry row
    is found; there is no separate configuration error. *)
Theorem C7_missing_sidecar_reported_as_no_model (strptime : string -> option Z)
  (horizon_days : Z) (model_version : option string) (end_date : option EndDate)
  (w w' : World) (r : ModelRegistry) (m : Model) :
  find_model_record model_version w = Some r ->
  files w !! mr_model_path r = Some (H5File m) ->
  files w !! str_replace ".h5" "_scaler.pkl" (mr_model_path r) = None ->
  find_model_record model_version w' = None ->
  generate_forecast strptime horizon_days model_version end_date w =
    ForecastFailure no_model_error /\
  generate_forecast strptime horizon_days model_version end_date w' =
    generate_forecast strptime horizon_days model_version end_date w.
Proof.
  intros Hrec Hmodel Hscaler Hnone.
  destruct (load_without_sidecar model_version w r m Hrec Hmodel Hscaler) as [_ Hload].
  rewrite (generate_forecast_without_model strptime horizon_days model_version
             end_date w Hload).
  rewrite (generate_forecast_without_model strptime horizon_days model_version
             end_date w' (load_without_record model_version w' Hnone)).
  split; reflexivity.
Qed.

(** Version v1 registered with its artifact and no sidecar, against a store
    with nothing registered. *)
Lemma C7_missing_sidecar_reported_as_no_model_witness :
  generate_forecast demo_strptime 7 None None sidecar_missing_world =
    ForecastFailure no_model_error /\
  generate_forecast demo_strptime 7 None None unregistered_world =
    generate_forecast demo_strptime 7 None None sidecar_missing_world.
Proof.
  refine (C7_missing_sidecar_reported_as_no_model demo_strptime 7 None None
            sidecar_missing_world unregistered_world demo_version demo_model
            _ _ _ _).
  - reflexivity.
  - vm_compute. reflexivity.
  - vm_compute. reflexivity.
  - reflexivity.
Defined.

(** C7 as stated fails: with v1 registered, its artifact present and its
    sidecar missing, the forecast returns exactly what it returns when
    nothing is registered, so the two failures are not distinct. *)
Lemma C7_counterexample :
  find_model_record None sidecar_missing_world = Some demo_version /\
  files sidecar_missing_world !! mr_model_path demo_version = Some (H5File demo_model) /\
  files sidecar_missing_world !! "saved_models/v1_scaler.pkl" = None /\
  find_model_record None unregistered_world = None /\
  generate_forecast demo_strptime 7 None None sidecar_missing_world =
  generate_forecast demo_strptime 7 None None unregistered_world.
Proof.
  repeat split; vm_compute; reflexivity.
Qed.

(** C9. With an empty registry a forecast request fails with the
    model-not-found result and leaves the store as it was: no prediction
    log row is written. *)
Theorem C9_empty_registry_no_log (strptime : string -> option Z)
  (horizon_days : Z) (model_version : option string) (end_date : option EndDate)
  (w : World) :
  model_registry (db w) = [] ->
  generate_prediction strptime horizon_days model_version end_date w =
    (ForecastFailure no_model_error, w) /\
  prediction_logs
    (db (snd (generate_prediction strptime horizon_days model_version end_date w))) =
    prediction_logs (db w).
Proof.
  intros Hempty. unfold generate_prediction.
  rewrite (generate_forecast_without_model strptime horizon_days model_version
             end_date w
             (load_without_record model_version w
                (find_model_record_empty model_version w Hempty))).
  split; reflexivity.
Qed.

(** A request for the latest model against the store without a registered
    version. *)
Lemma C9_empty_registry_no_log_witness :
  generate_prediction demo_strptime 7 None None unregistered_world =
    (ForecastFailure no_model_error, unregistered_world) /\
  prediction_logs
    (db (snd (generate_prediction demo_strptime 7 None None unregistered_world))) =
    prediction_logs (db unregistered_world).
Proof.
  exact (C9_empty_registry_no_log demo_strptime 7 None None unregistered_world
           eq_refl).
Defined.

(** A successful forecast, for comparison, does write one log row. *)
Lemma generate_prediction_logs_success :
  length (prediction_logs
            (db (snd (generate_prediction demo_strptime 7 None None demo_world)))) = 1%nat.
Proof. vm_compute. reflexivity. Qed.

(** ** Reading a feature row back *)

Lemma float_if_truthy_zero (x : option Q) :
  stored_zero x -> float_if_truthy x = None.
Proof.
  intros (q & -> & Hq). unfold float_if_truthy, truthy.
  apply Qeq_bool_iff in Hq. rewrite Hq. reflexivity.
Qed.

Lemma if_truthy_else_missing (x : option Q) (dflt : Q) :
  stored_zero x \/ x = None ->
  if_truthy_else (float_if_truthy x) dflt = dflt.
Proof.
  intros [Hz | ->]; [rewrite (float_if_truthy_zero x Hz)|]; reflexivity.
Qed.

(** C10, as the code has it. Every nullable numeric column of a stored
    feature row (lag_1, lag_2, lag_7, lag_14, rolling_7, crude_oil_price,
    inr_usd, target) that holds exactly zero is read back as null, while
    petrol_price is read back as stored. The forecast seed then takes the
    current price for a lag or rolling column that is zero or missing, and
    80 and 83 for an exogenous column that is zero or missing, so zero and
    missing give the same seed. *)
Theorem C10_zero_reads_back_as_null (row : ProcessedFeature) :
  (forall name x,
     In (name, x) (stored_nullable row) -> stored_zero x ->
     In (name, None) (readback_numeric (ProcessedFeature_to_dict row))) /\
  fd_petrol_price (ProcessedFeature_to_dict row) = pf_petrol_price row /\
  (forall name x dflt,
     In (name, x, dflt) (seeded_columns row) -> stored_zero x \/ x = None ->
     seed_features (ProcessedFeature_to_dict row) !!! name = dflt).
Proof.
  split; [|split].
  - intros name x Hin Hz.
    pose proof (float_if_truthy_zero x Hz) as Hnull.
    unfold stored_nullable in Hin. cbn [In] in Hin.
    unfold readback_numeric, ProcessedFeature_to_dict.
    cbn [In fd_petrol_price fd_lag_1 fd_lag_2 fd_lag_7 fd_lag_14 fd_rolling_7
         fd_crude_oil_price fd_inr_usd fd_target].
    repeat (destruct Hin as [Hin | Hin];
            [injection Hin as <- <-; rewrite Hnull; tauto|]).
    contradiction.
  - reflexivity.
  - intros name x dflt Hin Hmissing.
    pose proof (if_truthy_else_missing x) as Hseed.
    unfold seeded_columns in Hin. cbn [In] in Hin.
    unfold seed_features, ProcessedFeature_to_dict.
    cbn [fd_petrol_price fd_lag_1 fd_lag_2 fd_lag_7 fd_lag_14 fd_rolling_7
         fd_crude_oil_price fd_inr_usd fd_target].
    rewrite !list_to_map_cons.
    repeat (destruct Hin as [Hin | Hin];
            [injection Hin as <- <- <-;
             repeat first
               [ rewrite lookup_total_insert_eq
               | rewrite lookup_total_insert_ne by (intro; discriminate) ];
             apply Hseed, Hmissing|]).
    contradiction.
Qed.

(** C10 as stated fails for the price column: a stored petrol_price of
    exactly zero is read back as 0, not as null. *)
Lemma C10_counterexample :
  In ("petrol_price", Some 0%Q) (stored_numeric zero_price_row) /\
  ~ In ("petrol_price", None) (readback_numeric (ProcessedFeature_to_dict zero_price_row)) /\
  In ("petrol_price", Some 0%Q) (readback_numeric (ProcessedFeature_to_dict zero_price_row)).
Proof.
  split; [|split].
  - left. reflexivity.
  - cbn. intros H.
    repeat (destruct H as [H | H]; [discriminate H|]). exact H.
  - left. reflexivity.
Qed.

(** A row with lag_1 = 0, crude_oil_price = 0 and inr_usd missing: the two
    zeros read back as null, and the seed takes the price for lag_1 and the
    defaults for both exogenous entries. *)
Lemma zero_lag_row_readback :
  fd_lag_1 (ProcessedFeature_to_dict zero_lag_row) = None /\
  fd_crude_oil_price (ProcessedFeature_to_dict zero_lag_row) = None /\
  seed_features (ProcessedFeature_to_dict zero_lag_row) !!! "lag_1" = (209 # 2)%Q /\
  seed_features (ProcessedFeature_to_dict zero_lag_row) !!! "crude_oil_price" = 80%Q /\
  seed_features (ProcessedFeature_to_dict zero_lag_row) !!! "inr_usd" = 83%Q.
Proof. repeat split; vm_compute; reflexivity. Qed.

(** ** Ingestion *)

Lemma filter_nil_existsb {A : Type} (f : A -> bool) (l : list A) :
  List.filter f l = [] -> existsb f l = false.
Proof.
  induction l as [|a l IH]; cbn [List.filter existsb]; [reflexivity|].
  destruct (f a); [discriminate | exact IH].
Qed.

Lemma with_db_same (w : World) : with_db w (db w) = w.
Proof. destruct w. reflexivity. Qed.

Lemma ingest_petrol_price_existing (date : Z) (price : option Q)
  (source : option string) (w : World) (r : RawPetrolPrice)
  (rest : list RawPetrolPrice) :
  List.filter (fun r => rpp_date r =? date) (raw_petrol_prices (db w)) = r :: rest ->
  ingest_petrol_price date price source w = (false, w).
Proof.
  intros H. unfold ingest_petrol_price. rewrite H. cbn [first head ret].
  rewrite with_db_same. reflexivity.
Qed.

Lemma ingest_petrol_price_new (date : Z) (price : Q) (source : option string)
  (w : World) :
  List.filter (fun r => rpp_date r =? date) (raw_petrol_prices (db w)) = [] ->
  exists new_record,
    rpp_date new_record = date /\
    rpp_petrol_price new_record = price /\
    rpp_source new_record = column_default "web_scraper" source /\
    fst (ingest_petrol_price date (Some price) source w) = true /\
    raw_petrol_prices (db (snd (ingest_petrol_price date (Some price) source w))) =
      (raw_petrol_prices (db w) ++ [new_record])%list.
Proof.
  intros H. unfold ingest_petrol_price, insert_raw_petrol_price.
  rewrite H, (filter_nil_existsb _ _ H). cbn [first head bind ret fst snd].
  exists {| rpp_id := next_id rpp_id (raw_petrol_prices (db w));
            rpp_date := date;
            rpp_petrol_price := price;
            rpp_source := column_default "web_scraper" source;
            rpp_created_at := now w |}.
  repeat split.
Qed.

(** C6. Idempotent ingestion: for a date with no stored row, the first
    ingestion returns true, a second ingestion for the same date returns
    false and leaves the store exactly as the first left it, whatever price
    and provenance it carries, and the date ends with exactly one row. *)
Theorem C6_idempotent_ingestion (date : Z) (price : Q) (price' : option Q)
  (source source' : option string) (w : World) :
  petrol_row_count date w = 0%nat ->
  let first_call := ingest_petrol_price date (Some price) source w in
  let second_call := ingest_petrol_price date price' source' (snd first_call) in
  fst first_call = true /\
  fst second_call = false /\
  snd second_call = snd first_call /\
  petrol_row_count date (snd second_call) = 1%nat.
Proof.
  intros Hcount. cbv zeta.
  assert (Hnone : List.filter (fun r => rpp_date r =? date)
                    (raw_petrol_prices (db w)) = []).
  { unfold petrol_row_count in Hcount.
    destruct (List.filter _ _); [reflexivity | discriminate]. }
  destruct (ingest_petrol_price_new date price source w Hnone)
    as (new_record & Hdate & _ & _ & Htrue & Hrows).
  assert (Hfound : List.filter (fun r => rpp_date r =? date)
                     (raw_petrol_prices
                        (db (snd (ingest_petrol_price date (Some price) source w)))) =
                   [new_record]).
  { rewrite Hrows, List.filter_app, Hnone. cbn [List.filter app].
    rewrite Hdate, Z.eqb_refl. reflexivity. }
  rewrite (ingest_petrol_price_existing date price' source' _ _ _ Hfound).
  cbn [fst snd]. repeat split; try assumption.
  unfold petrol_row_count. rewrite Hfound. reflexivity.
Qed.

(** The price of 2024-06-15 ingested twice into an empty store. *)
Lemma C6_idempotent_ingestion_witness :
  let first_call :=
    ingest_petrol_price 739052 (Some (209 # 2)%Q) (Some "web_scraper") empty_world in
  let second_call :=
    ingest_petrol_price 739052 (Some (105 # 1)%Q) (Some "file_upload") (snd first_call) in
  fst first_call = true /\
  fst second_call = false /\
  snd second_call = snd first_call /\
  petrol_row_count 739052 (snd second_call) = 1%nat.
Proof.
  exact (C6_idempotent_ingestion 739052 (209 # 2)%Q (Some (105 # 1)%Q)
           (Some "web_scraper") (Some "file_upload") empty_world eq_refl).
Defined.

(** Without the premise the first call already reports a duplicate. *)
Lemma ingest_petrol_price_present_is_duplicate :
  let w := snd (ingest_petrol_price 739052 (Some (209 # 2)%Q) None empty_world) in
  ingest_petrol_price 739052 (Some (105 # 1)%Q) None w = (false, w).
Proof. vm_compute. reflexivity. Qed.

(** A price that is null violates NOT NULL at commit; the insert is rolled
    back and reported like a duplicate. *)
Lemma ingest_petrol_price_null_price :
  ingest_petrol_price 739052 None (Some "file_upload") empty_world =
  (false, empty_world).
Proof. reflexivity. Qed.

(** ** Best model *)

Section OrderByFacts.
Context {A : Type} (le : A -> A -> bool).
Hypothesis le_total : forall a b, le a b = true \/ le b a = true.
Hypothesis le_trans : forall a b c, le a b = true -> le b c = true -> le a c = true.

Lemma insert_sorted_head (x : A) (l : list A) :
  head (insert_sorted le x l) =
  Some (match head l with
        | None => x
        | Some y => if le x y then x else y
        end).
Proof. destruct l as [|y l]; cbn; [reflexivity|]. destruct (le x y); reflexivity. Qed.

Lemma order_by_first_min (l : list A) (m : A) :
  first (order_by le l) = Some m ->
  In m l /\ forall x, In x l -> le m x = true.
Proof.
  revert m. induction l as [|a l IH]; intros m; [discriminate|].
  unfold first. cbn [order_by fold_right]. rewrite insert_sorted_head.
  fold (order_by le l). fold (first (order_by le l)).
  destruct (first (order_by le l)) as [y|] eqn:Hy.
  - destruct (IH y eq_refl) as [Hin Hmin].
    destruct (le a y) eqn:Hay; intros [= <-].
    + split; [left; reflexivity|].
      intros x [<- | Hx]; [destruct (le_total a a); assumption|].
      eapply le_trans; [exact Hay | apply Hmin, Hx].
    + split; [right; exact Hin|].
      intros x [<- | Hx]; [|apply Hmin, Hx].
      destruct (le_total a y) as [H | H]; [congruence | exact H].
  - intros [= <-].
    destruct l as [|b l].
    + split; [left; reflexivity|].
      intros x [<- | []]. destruct (le_total a a); assumption.
    + exfalso. cbn [order_by fold_right] in Hy. unfold first in Hy.
      rewrite insert_sorted_head in Hy. discriminate.
Qed.

Lemma order_by_first_some (l : list A) :
  l <> [] -> exists m, first (order_by le l) = Some m.
Proof.
  destruct l as [|a l]; [congruence|]. intros _.
  unfold first. cbn [order_by fold_right]. rewrite insert_sorted_head. eauto.
Qed.

End OrderByFacts.

Lemma asc_nullable_total {A : Type} (key : A -> option Q) (a b : A) :
  asc_nullable key a b = true \/ asc_nullable key b a = true.
Proof.
  unfold asc_nullable. destruct (key a) as [x|], (key b) as [y|]; auto.
  destruct (Qle_bool x y) eqn:E; [auto|]. right.
  apply Qle_bool_iff. apply Qlt_le_weak, Qnot_le_lt. intros H.
  apply Qle_bool_iff in H. congruence.
Qed.

Lemma asc_nullable_trans {A : Type} (key : A -> option Q) (a b c : A) :
  asc_nullable key a b = true -> asc_nullable key b c = true ->
  asc_nullable key a c = true.
Proof.
  unfold asc_nullable.
  destruct (key a) as [x|], (key b) as [y|], (key c) as [z|];
    try discriminate; try reflexivity.
  rewrite !Qle_bool_iff. apply Qle_trans.
Qed.

Lemma get_best_model_column (metric : string) (col : ModelRegistry -> option Q)
  (w : World) :
  metric_column metric = Some col ->
  get_best_model metric w =
  best_of metric (first (order_by (asc_nullable col) (model_registry (db w)))).
Proof.
  unfold metric_column, get_best_model.
  destruct (String.eqb metric "rmse"); [intros [= <-]; reflexivity|].
  destruct (String.eqb metric "mae"); [intros [= <-]; reflexivity|].
  destruct (String.eqb metric "mape"); [intros [= <-]; reflexivity|].
  discriminate.
Qed.

Lemma get_best_model_unknown (metric : string) (w : World) :
  metric_column metric = None ->
  get_best_model metric w =
  (None, [ {| log_level := ERROR; log_message := "Invalid metric: " ++ metric |} ]).
Proof.
  unfold metric_column, get_best_model.
  destruct (String.eqb metric "rmse"); [discriminate|].
  destruct (String.eqb metric "mae"); [discriminate|].
  destruct (String.eqb metric "mape"); [discriminate|].
  reflexivity.
Qed.

(** Best-model selection where every version has the metric: for a
    non-empty registry whose versions all carry a value of the chosen metric
    (rmse, mae or mape), the call returns a registered version whose value
    is the minimum; of three versions with rmse 5.0, 2.0 and 8.0 it returns
    the one with rmse 2.0; and a metric name outside the set returns no
    model and logs an error. *)
Lemma best_model_is_minimum (metric unknown : string)
  (col : ModelRegistry -> option Q) (w : World) :
  metric_column metric = Some col ->
  metric_column unknown = None ->
  model_registry (db w) <> [] ->
  (forall r, In r (model_registry (db w)) -> col r <> None) ->
  (exists m v,
     In m (model_registry (db w)) /\
     col m = Some v /\
     fst (get_best_model metric w) = Some (ModelRegistry_to_dict m) /\
     forall r v', In r (model_registry (db w)) -> col r = Some v' -> (v <= v')%Q) /\
  (exists best,
     fst (get_best_model "rmse" three_versions_world) = Some best /\
     md_model_version best = "v2" /\ md_rmse best = Some (2 # 1)%Q) /\
  get_best_model unknown w =
    (None, [ {| log_level := ERROR; log_message := "Invalid metric: " ++ unknown |} ]).
Proof.
  intros Hcol Hunknown Hne Hvalues. split; [|split].
  - destruct (order_by_first_some (asc_nullable col) (model_registry (db w)) Hne)
      as [m Hm].
    destruct (order_by_first_min (asc_nullable col) (asc_nullable_total col)
                (asc_nullable_trans col) _ m Hm) as [Hin Hmin].
    destruct (col m) as [v|] eqn:Hv; [|destruct (Hvalues m Hin Hv)].
    exists m, v. repeat split; try assumption.
    + rewrite (get_best_model_column metric col w Hcol), Hm. reflexivity.
    + intros r v' Hr Hv'. specialize (Hmin r Hr).
      unfold asc_nullable in Hmin. rewrite Hv, Hv' in Hmin.
      apply Qle_bool_iff. exact Hmin.
  - eexists. repeat split.
  - apply get_best_model_unknown, Hunknown.
Qed.

(** The three versions with rmse 5.0, 2.0 and 8.0, the metric "rmse", and
    the unknown metric name "r2". *)
Lemma best_model_is_minimum_witness :
  (exists m v,
     In m (model_registry (db three_versions_world)) /\
     mr_rmse m = Some v /\
     fst (get_best_model "rmse" three_versions_world) = Some (ModelRegistry_to_dict m) /\
     forall r v', In r (model_registry (db three_versions_world)) ->
                  mr_rmse r = Some v' -> (v <= v')%Q) /\
  (exists best,
     fst (get_best_model "rmse" three_versions_world) = Some best /\
     md_model_version best = "v2" /\ md_rmse best = Some (2 # 1)%Q) /\
  get_best_model "r2" three_versions_world =
    (None, [ {| log_level := ERROR; log_message := "Invalid metric: r2" |} ]).
Proof.
  refine (best_model_is_minimum "rmse" "r2" mr_rmse three_versions_world
            eq_refl eq_refl _ _).
  - discriminate.
  - intros r Hr. cbn in Hr.
    destruct Hr as [<- | [<- | [<- | []]]]; discriminate.
Defined.

(** C8, evaluated where the code departs from it. The metric columns are
    nullable and [register_model] stores no value for a metric its
    dictionary lacks. With v1 registered without an rmse and v2 with rmse
    2.0, the minimum rmse is that of v2; on the default engine the ascending
    order puts the version without a value first, so the call returns v1,
    which has no rmse, and logs it as the best model by rmse. *)
Theorem C8_version_without_metric_returned_as_best :
  map (fun r => (mr_model_version r, mr_rmse r))
    (model_registry (db null_metric_world)) =
    [ ("v1", None); ("v2", Some (2 # 1)%Q) ] /\
  exists best,
    get_best_model "rmse" null_metric_world =
      (Some best,
       [ {| log_level := INFO; log_message := "Best model by rmse: v1" |} ]) /\
    md_model_version best = "v1" /\ md_rmse best = None.
Proof. split; [reflexivity|]. eexists. repeat split. Qed.

(** ** Feature engineering *)

Lemma length_shift (k : Z) (col : list Value) : length (shift k col) = length col.
Proof.
  unfold shift. destruct (0 <=? k).
  - rewrite length_take, length_app, length_replicate. lia.
  - rewrite length_app, length_drop, length_replicate. lia.
Qed.

Lemma length_rolling_mean (window : nat) (col : list Value) :
  length (rolling_mean window col) = length col.
Proof. unfold rolling_mean. rewrite length_map, length_seq. reflexivity. Qed.

Lemma len_set_column (df : DataFrame) (c : string) (values : list Value) :
  length values = len df -> len (set_column df c values) = len df.
Proof.
  intros H. unfold len, set_column. cbn [df_rows].
  rewrite length_zip_with. unfold len in H. lia.
Qed.

Lemma cell_insert_eq (r : gmap string Value) (c : string) (v : Value) :
  cell (<[c := v]> r) c = v.
Proof. unfold cell. rewrite lookup_insert_eq. reflexivity. Qed.

Lemma cell_insert_ne (r : gmap string Value) (c c' : string) (v : Value) :
  c <> c' -> cell (<[c := v]> r) c' = cell r c'.
Proof. intros H. unfold cell. rewrite lookup_insert_ne by exact H. reflexivity. Qed.

Lemma column_set_column_ne (df : DataFrame) (c c' : string) (values : list Value) :
  c <> c' -> length values = len df ->
  column (set_column df c values) c' = column df c'.
Proof.
  intros Hne. unfold column, set_column, len. cbn [df_rows].
  generalize (df_rows df). intros rows. revert values.
  induction rows as [|r rows IH]; intros [|v values] Hlen; try discriminate;
    cbn [zip_with map]; [reflexivity|].
  rewrite cell_insert_ne by exact Hne. f_equal. apply IH. cbn in Hlen. lia.
Qed.

Lemma insert_sorted_perm {A : Type} (le : A -> A -> bool) (x : A) (l : list A) :
  Permutation (insert_sorted le x l) (x :: l).
Proof.
  induction l as [|y l IH]; cbn [insert_sorted]; [reflexivity|].
  destruct (le x y); [reflexivity|].
  rewrite IH. apply perm_swap.
Qed.

Lemma order_by_perm {A : Type} (le : A -> A -> bool) (l : list A) :
  Permutation (order_by le l) l.
Proof.
  induction l as [|x l IH]; cbn [order_by fold_right]; [reflexivity|].
  fold (order_by le l). rewrite insert_sorted_perm, IH. reflexivity.
Qed.

Lemma count_interval (a b s n : nat) :
  length (List.filter (fun i => (a <=? i)%nat && (i <? b)%nat) (seq s n)) =
  (Nat.min (s + n) b - Nat.max s a)%nat.
Proof.
  revert s. induction n as [|n IH]; intros s; cbn [seq List.filter length]; [lia|].
  destruct (Nat.leb_spec a s), (Nat.ltb_spec s b); cbn [andb length];
    rewrite IH; lia.
Qed.

Lemma filter_length_by_index {A : Type} (f : A -> bool) (g : nat -> bool) (l : list A) (s : nat) :
  (forall i x, l !! i = Some x -> f x = g (s + i)%nat) ->
  length (List.filter f l) = length (List.filter g (seq s (length l))).
Proof.
  revert s. induction l as [|x l IH]; intros s H; [reflexivity|].
  cbn [List.filter length seq].
  rewrite (H 0%nat x eq_refl), Nat.add_0_r.
  assert (IH' : length (List.filter f l) = length (List.filter g (seq (S s) (length l)))).
  { apply IH. intros i y Hy. rewrite (H (S i) y Hy). f_equal. lia. }
  destruct (g s); cbn [length]; rewrite IH'; reflexivity.
Qed.

Lemma numbers_total (l : list Value) :
  Forall (fun v => exists q, v = VNum q) l -> exists qs, numbers l = Some qs.
Proof.
  induction 1 as [|v l [q ->] _ [qs IH]]; cbn [numbers]; [eauto|].
  rewrite IH. eauto.
Qed.

Lemma shift_lag_isna (k : nat) (col : list Value) (i : nat) (v : Value) :
  Forall (fun v => exists q, v = VNum q) col ->
  shift (Z.of_nat k) col !! i = Some v ->
  isna v = (i <? k)%nat.
Proof.
  intros Hnum. unfold shift.
  destruct (Z.leb_spec 0 (Z.of_nat k)); [|lia].
  rewrite Nat2Z.id. intros Hv.
  apply lookup_take_Some in Hv as [Hv _].
  destruct (Nat.ltb_spec i k) as [Hlt | Hge].
  - rewrite lookup_app_l in Hv by (rewrite length_replicate; exact Hlt).
    apply lookup_replicate in Hv as [-> _]. reflexivity.
  - rewrite lookup_app_r in Hv by (rewrite length_replicate; exact Hge).
    rewrite Forall_lookup in Hnum. destruct (Hnum _ _ Hv) as [q ->]. reflexivity.
Qed.

Lemma shift_target_isna (col : list Value) (i : nat) (v : Value) :
  Forall (fun v => exists q, v = VNum q) col ->
  shift (- 1) col !! i = Some v ->
  isna v = negb (i + 1 <? length col)%nat.
Proof.
  intros Hnum. unfold shift. change (0 <=? - 1) with false.
  change (Z.to_nat (- - 1)) with 1%nat. cbv iota. intros Hv.
  destruct (Nat.ltb_spec (i + 1) (length col)) as [Hlt | Hge].
  - rewrite lookup_app_l in Hv by (rewrite length_drop; lia).
    rewrite lookup_drop in Hv.
    rewrite Forall_lookup in Hnum. destruct (Hnum _ _ Hv) as [q ->]. reflexivity.
  - rewrite lookup_app_r in Hv by (rewrite length_drop; lia).
    apply lookup_replicate in Hv as [-> _]. reflexivity.
Qed.

Lemma rolling_mean_isna (window : nat) (col : list Value) (i : nat) (v : Value) :
  (0 < window)%nat ->
  Forall (fun v => exists q, v = VNum q) col ->
  rolling_mean window col !! i = Some v ->
  isna v = (i + 1 <? window)%nat.
Proof.
  intros Hw Hnum. unfold rolling_mean. rewrite list_lookup_fmap.
  destruct (seq 0 (length col) !! i) as [j|] eqn:Hj; [|discriminate].
  apply lookup_seq in Hj as [-> _]. cbn [fmap option_fmap option_map Nat.add].
  intros [= <-]. unfold rolling_mean_at.
  destruct (Nat.eqb_spec window 0); [lia|]. cbn [orb].
  destruct (i + 1 <? window)%nat; [reflexivity|].
  destruct (numbers_total (take window (drop (i + 1 - window) col))) as [qs ->];
    [|reflexivity].
  apply Forall_take, Forall_drop, Hnum.
Qed.

Lemma set_column_lookup (df : DataFrame) (c : string) (values : list Value)
  (i : nat) (r' : gmap string Value) :
  df_rows (set_column df c values) !! i = Some r' ->
  exists r v, r' = <[c := v]> r /\ df_rows df !! i = Some r /\ values !! i = Some v.
Proof.
  unfold set_column. cbn [df_rows]. intros H.
  apply lookup_zip_with_Some in H as (r & v & -> & Hr & Hv). eauto.
Qed.

Lemma set_column_columns (df : DataFrame) (c c' : string) (values : list Value) :
  In c' (df_columns (set_column df c values)) <-> In c' (df_columns df) \/ c' = c.
Proof.
  unfold set_column, has_column. cbn [df_columns].
  destruct (existsb (String.eqb c) (df_columns df)) eqn:E.
  - split; [auto|]. intros [H | ->]; [exact H|].
    apply existsb_exists in E as (x & Hx & Heq).
    apply String.eqb_eq in Heq. subst x. exact Hx.
  - rewrite in_app_iff. cbn [In]. split; intros [H | H]; auto.
    + destruct H as [<- | []]. auto.
Qed.

(** The six engineered columns all derive from the same price column. *)
Lemma features_frame (df : DataFrame) :
  let P := column df "petrol_price" in
  create_target_variable
    (create_rolling_features
       (create_lag_features df "petrol_price" LAG_FEATURES)
       "petrol_price" ROLLING_WINDOWS)
    "petrol_price" 1 =
  set_column
    (set_column
       (set_column
          (set_column
             (set_column
                (set_column df "lag_1" (shift 1 P))
                "lag_2" (shift 2 P))
             "lag_7" (shift 7 P))
          "lag_14" (shift 14 P))
       "rolling_7" (rolling_mean 7 P))
    "target" (shift (- 1) P).
Proof.
  cbv zeta.
  assert (HP : length (column df "petrol_price") = len df).
  { unfold column, len. apply length_map. }
  unfold create_target_variable, create_rolling_features, create_lag_features,
    LAG_FEATURES, ROLLING_WINDOWS.
  cbn [fold_left].
  change ("lag_" ++ str_of_nat 1) with "lag_1".
  change ("lag_" ++ str_of_nat 2) with "lag_2".
  change ("lag_" ++ str_of_nat 7) with "lag_7".
  change ("lag_" ++ str_of_nat 14) with "lag_14".
  change ("rolling_" ++ str_of_nat 7) with "rolling_7".
  change (Z.of_nat 1) with 1. change (Z.of_nat 2) with 2.
  change (Z.of_nat 7) with 7. change (Z.of_nat 14) with 14.
  repeat
    (rewrite column_set_column_ne;
     [ | discriminate
       | repeat (rewrite len_set_column);
         rewrite ?length_shift, ?length_rolling_mean; exact HP ]).
  reflexivity.
Qed.

Lemma row_complete_iff (cols : list string) (r : gmap string Value) :
  row_complete cols r = true <-> forall c, In c cols -> isna (cell r c) = false.
Proof.
  unfold row_complete. rewrite forallb_forall.
  split; intros H c Hc; specialize (H c Hc);
    destruct (isna (cell r c)); cbn in *; congruence.
Qed.

(** Trim law on a complete frame: when no input cell is missing and every
    price is a number, feature engineering keeps the rows 14 .. L - 2, that
    is L - 15 rows, and none when L <= 15. *)
Lemma create_all_features_trim (df : DataFrame) :
  has_column df "date" = true ->
  has_column df "petrol_price" = true ->
  Forall (fun r => row_complete (df_columns df) r = true /\
                   exists q, cell r "petrol_price" = VNum q) (df_rows df) ->
  len (create_all_features df) = (len df - 15)%nat.
Proof.
  intros Hdate Hprice Hrows.
  unfold create_all_features. rewrite Hdate. cbn [negb].
  change (has_column (sort_values df "date") "petrol_price")
    with (has_column df "petrol_price").
  rewrite Hprice. cbn [negb].
  rewrite features_frame.
  set (df0 := sort_values df "date").
  assert (Hperm : Permutation (df_rows df0) (df_rows df)) by apply order_by_perm.
  assert (Hlen0 : len df0 = len df).
  { unfold len. apply Permutation_length, Hperm. }
  assert (Hrows0 : Forall (fun r => row_complete (df_columns df) r = true /\
                     exists q, cell r "petrol_price" = VNum q) (df_rows df0)).
  { rewrite Hperm. exact Hrows. }
  set (P := column df0 "petrol_price").
  assert (HP : length P = len df0) by apply length_map.
  assert (Hnum : Forall (fun v => exists q, v = VNum q) P).
  { unfold P, column. apply Forall_fmap. eapply Forall_impl; [exact Hrows0|].
    intros r [_ Hq]. exact Hq. }
  set (df6 := set_column _ "target" _).
  assert (Hlen6 : len df6 = len df0).
  { unfold df6. repeat (rewrite len_set_column);
      rewrite ?length_shift, ?length_rolling_mean; try exact HP. reflexivity. }
  unfold dropna, len at 1. cbn [df_rows].
  rewrite (filter_length_by_index _
             (fun i => (14 <=? i)%nat && (i <? len df0 - 1)%nat) _ 0).
  - fold (len df6). rewrite Hlen6, count_interval, Hlen0. lia.
  - intros i r6 Hr6. cbn [Nat.add].
    subst df6.
    apply set_column_lookup in Hr6 as (r5 & v6 & -> & Hr5 & Hv6).
    apply set_column_lookup in Hr5 as (r4 & v5 & -> & Hr4 & Hv5).
    apply set_column_lookup in Hr4 as (r3 & v4 & -> & Hr3 & Hv4).
    apply set_column_lookup in Hr3 as (r2 & v3 & -> & Hr2 & Hv3).
    apply set_column_lookup in Hr2 as (r1 & v2 & -> & Hr1 & Hv2).
    apply set_column_lookup in Hr1 as (r & v1 & -> & Hr & Hv1).
    apply (shift_lag_isna 1 P i v1 Hnum) in Hv1.
    apply (shift_lag_isna 2 P i v2 Hnum) in Hv2.
    apply (shift_lag_isna 7 P i v3 Hnum) in Hv3.
    apply (shift_lag_isna 14 P i v4 Hnum) in Hv4.
    apply (rolling_mean_isna 7 P i v5 ltac:(lia) Hnum) in Hv5.
    apply (shift_target_isna P i v6 Hnum) in Hv6. rewrite HP in Hv6.
    rewrite Forall_lookup in Hrows0. destruct (Hrows0 i r Hr) as [Hcomplete _].
    rewrite row_complete_iff in Hcomplete.
    apply Bool.eq_iff_eq_true. rewrite row_complete_iff.
    rewrite andb_true_iff, Nat.leb_le, Nat.ltb_lt.
    split.
    + intros Hall.
      assert (H14 : isna v4 = false).
      { specialize (Hall "lag_14").
        rewrite !set_column_columns in Hall.
        rewrite cell_insert_ne, cell_insert_ne, cell_insert_eq in Hall by discriminate.
        apply Hall. tauto. }
      assert (Ht : isna v6 = false).
      { specialize (Hall "target").
        rewrite !set_column_columns in Hall.
        rewrite cell_insert_eq in Hall. apply Hall. tauto. }
      rewrite Hv4 in H14. rewrite Hv6 in Ht.
      apply Nat.ltb_ge in H14. apply negb_false_iff, Nat.ltb_lt in Ht. lia.
    + intros [H14 Ht] c Hc.
      rewrite !set_column_columns in Hc.
      destruct (decide (c = "target")) as [-> | N6].
      { rewrite cell_insert_eq, Hv6. apply negb_false_iff, Nat.ltb_lt. lia. }
      rewrite cell_insert_ne by congruence.
      destruct (decide (c = "rolling_7")) as [-> | N5].
      { rewrite cell_insert_eq, Hv5. apply Nat.ltb_ge. lia. }
      rewrite cell_insert_ne by congruence.
      destruct (decide (c = "lag_14")) as [-> | N4].
      { rewrite cell_insert_eq, Hv4. apply Nat.ltb_ge. lia. }
      rewrite cell_insert_ne by congruence.
      destruct (decide (c = "lag_7")) as [-> | N3].
      { rewrite cell_insert_eq, Hv3. apply Nat.ltb_ge. lia. }
      rewrite cell_insert_ne by congruence.
      destruct (decide (c = "lag_2")) as [-> | N2].
      { rewrite cell_insert_eq, Hv2. apply Nat.ltb_ge. lia. }
      rewrite cell_insert_ne by congruence.
      destruct (decide (c = "lag_1")) as [-> | N1].
      { rewrite cell_insert_eq, Hv1. apply Nat.ltb_ge. lia. }
      rewrite cell_insert_ne by congruence.
      apply Hcomplete.
      change (df_columns df0) with (df_columns df) in Hc. tauto.
Qed.

Lemma filter_all_false {A : Type} (f : A -> bool) (l : list A) :
  (forall i x, l !! i = Some x -> f x = false) -> List.filter f l = [].
Proof.
  induction l as [|x l IH]; intros H; [reflexivity|].
  cbn [List.filter]. rewrite (H 0%nat x eq_refl).
  apply IH. intros i y Hy. exact (H (S i) y Hy).
Qed.

(** A column of the input that is missing in every row empties the result:
    [dropna] looks at every column, not only at the engineered ones. *)
Lemma create_all_features_missing_column (df : DataFrame) (c : string) :
  has_column df "date" = true ->
  has_column df "petrol_price" = true ->
  In c (df_columns df) ->
  ~ In c ["lag_1"; "lag_2"; "lag_7"; "lag_14"; "rolling_7"; "target"] ->
  Forall (fun r => cell r c = VNone) (df_rows df) ->
  len (create_all_features df) = 0%nat.
Proof.
  intros Hdate Hprice Hc Hfresh Hnull.
  unfold create_all_features. rewrite Hdate. cbn [negb].
  change (has_column (sort_values df "date") "petrol_price")
    with (has_column df "petrol_price").
  rewrite Hprice. cbn [negb].
  rewrite features_frame.
  set (df0 := sort_values df "date").
  assert (Hnull0 : Forall (fun r => cell r c = VNone) (df_rows df0)).
  { unfold df0, sort_values. cbn [df_rows]. rewrite order_by_perm. exact Hnull. }
  unfold dropna, len. cbn [df_rows]. rewrite filter_all_false; [reflexivity|].
  intros i r6 Hr6.
  apply set_column_lookup in Hr6 as (r5 & v6 & -> & Hr5 & _).
  apply set_column_lookup in Hr5 as (r4 & v5 & -> & Hr4 & _).
  apply set_column_lookup in Hr4 as (r3 & v4 & -> & Hr3 & _).
  apply set_column_lookup in Hr3 as (r2 & v3 & -> & Hr2 & _).
  apply set_column_lookup in Hr2 as (r1 & v2 & -> & Hr1 & _).
  apply set_column_lookup in Hr1 as (r & v1 & -> & Hr & _).
  rewrite Forall_lookup in Hnull0. specialize (Hnull0 i r Hr).
  apply not_true_is_false. rewrite row_complete_iff. intros Hall.
  specialize (Hall c). rewrite !set_column_columns in Hall.
  cbn [In] in Hfresh.
  rewrite !cell_insert_ne in Hall by (intros Heq; tauto).
  rewrite Hnull0 in Hall. cbn [isna] in Hall.
  assert (true = false); [|discriminate].
  apply Hall. change (df_columns df0) with (df_columns df). tauto.
Qed.

Lemma drop_duplicates_from_Forall (P : gmap string Value -> Prop) (key : string)
  (seen : list Value) (rows : list (gmap string Value)) :
  Forall P rows -> Forall P (drop_duplicates_from key seen rows).
Proof.
  intros H. revert seen. induction H as [|r rows Hr _ IH]; intros seen;
    cbn [drop_duplicates_from]; [constructor|].
  destruct (existsb _ seen); [apply IH | constructor; [exact Hr | apply IH]].
Qed.

Lemma ffill_row_missing (c : string) (prev r : gmap string Value) (cols : list string) :
  cell prev c = VNone -> cell r c = VNone ->
  cell (fold_left
          (fun acc c' => if isna (cell r c') then <[c' := cell prev c']> acc else acc)
          cols r) c = VNone.
Proof.
  intros Hprev Hr.
  assert (Hgen : forall acc, cell acc c = VNone ->
            cell (fold_left
                    (fun acc c' => if isna (cell r c') then <[c' := cell prev c']> acc else acc)
                    cols acc) c = VNone).
  { induction cols as [|c' cols IH]; intros acc Hacc; cbn [fold_left]; [exact Hacc|].
    apply IH. destruct (isna (cell r c')); [|exact Hacc].
    destruct (decide (c' = c)) as [-> | Hne].
    - rewrite cell_insert_eq. exact Hprev.
    - rewrite cell_insert_ne by exact Hne. exact Hacc. }
  apply Hgen, Hr.
Qed.

Lemma ffill_from_missing (c : string) (cols : list string)
  (prev : gmap string Value) (rows : list (gmap string Value)) :
  cell prev c = VNone ->
  Forall (fun r => cell r c = VNone) rows ->
  Forall (fun r => cell r c = VNone) (ffill_from cols prev rows).
Proof.
  intros Hprev H. revert prev Hprev.
  induction H as [|r rows Hr _ IH]; intros prev Hprev; cbn [ffill_from];
    [constructor|].
  pose proof (ffill_row_missing c prev r cols Hprev Hr) as Hfilled.
  constructor; [exact Hfilled | apply IH, Hfilled].
Qed.

Lemma ffill_missing (c : string) (df : DataFrame) :
  Forall (fun r => cell r c = VNone) (df_rows df) ->
  Forall (fun r => cell r c = VNone) (df_rows (ffill df)).
Proof.
  intros H. unfold ffill. cbn [df_rows]. apply ffill_from_missing; [|exact H].
  unfold cell. rewrite lookup_empty. reflexivity.
Qed.

Lemma detect_outliers_keeps (P : gmap string Value -> Prop) (df : DataFrame)
  (col : string) (remove : bool) :
  Forall P (df_rows df) ->
  df_columns (detect_outliers df col remove) = df_columns df /\
  Forall P (df_rows (detect_outliers df col remove)).
Proof.
  intros H. unfold detect_outliers.
  destruct (has_column df col); cbn [negb]; [|auto].
  destruct (quantile (1 # 4) (column df col)) as [Q1|]; [|auto].
  destruct (quantile (3 # 4) (column df col)) as [Q3|]; [|auto].
  destruct remove; [|auto].
  cbn [df_columns df_rows]. split; [reflexivity|].
  rewrite List.Forall_forall in *. intros r Hr.
  apply H. apply filter_In in Hr. tauto.
Qed.

(** Without exogenous rows [extract_raw_data] returns the price rows with
    both exogenous columns missing. *)
Lemma extract_without_exogenous_data (start_date end_date : option Z)
  (source_filter : string) (w : World) :
  raw_exogenous_data (db w) = [] ->
  let df := extract_raw_data start_date end_date source_filter w in
  df = empty_frame \/
  (df_columns df = ["date"; "petrol_price"; "source"; "crude_oil_price"; "inr_usd"] /\
   Forall (fun r => cell r "crude_oil_price" = VNone) (df_rows df)).
Proof.
  intros Hmacro. cbv zeta. unfold extract_raw_data. rewrite Hmacro.
  cbn [List.filter map from_records].
  destruct (List.filter _ (raw_petrol_prices (db w))) as [|p petrol];
    [left; reflexivity|].
  right. split; [reflexivity|].
  rewrite Forall_lookup. intros i r Hr.
  apply set_column_lookup in Hr as (r1 & v2 & -> & Hr1 & _).
  apply set_column_lookup in Hr1 as (r0 & v1 & -> & _ & Hv1).
  apply lookup_replicate in Hv1 as [-> _].
  rewrite cell_insert_ne by discriminate. apply cell_insert_eq.
Qed.

(** Cleaning cannot fill them: there is no earlier value to carry forward. *)
Lemma run_etl_without_exogenous_data (start_date end_date : option Z)
  (remove_outliers : bool) (source_filter : string) (w : World) :
  raw_exogenous_data (db w) = [] ->
  let df := run_etl start_date end_date remove_outliers source_filter w in
  df = empty_frame \/
  (df_columns df = ["date"; "petrol_price"; "source"; "crude_oil_price"; "inr_usd"] /\
   Forall (fun r => cell r "crude_oil_price" = VNone) (df_rows df)).
Proof.
  intros Hmacro. cbv zeta. unfold run_etl.
  destruct (extract_without_exogenous_data start_date end_date source_filter w Hmacro)
    as [-> | [Hcols Hrows]]; [left; reflexivity|].
  destruct (df_empty _); [right; split; assumption|].
  right.
  assert (Hclean : Forall (fun r => cell r "crude_oil_price" = VNone)
            (df_rows (handle_missing_values
                        (standardize_dates
                           (remove_duplicates
                              (extract_raw_data start_date end_date source_filter w)))))).
  { unfold handle_missing_values. apply ffill_missing, ffill_missing.
    unfold standardize_dates, sort_values. cbn [df_rows]. rewrite order_by_perm.
    unfold remove_duplicates, drop_duplicates. cbn [df_rows].
    apply drop_duplicates_from_Forall, Hrows. }
  destruct remove_outliers.
  - destruct (detect_outliers_keeps _ _ "petrol_price" true Hclean) as [-> Hkept].
    split; [exact Hcols | exact Hkept].
  - split; [exact Hcols | exact Hclean].
Qed.

(** Whatever the number of prices, the date range, the provenance filter and
    the outlier switch, a store without exogenous rows yields no feature
    row. *)
Lemma no_exogenous_data_no_features (start_date end_date : option Z)
  (remove_outliers : bool) (source_filter : string) (w : World) :
  raw_exogenous_data (db w) = [] ->
  len (create_all_features
         (run_etl start_date end_date remove_outliers source_filter w)) = 0%nat.
Proof.
  intros Hmacro.
  destruct (run_etl_without_exogenous_data start_date end_date remove_outliers
              source_filter w Hmacro) as [-> | [Hcols Hrows]]; [reflexivity|].
  apply (create_all_features_missing_column _ "crude_oil_price").
  - unfold has_column. rewrite Hcols. reflexivity.
  - unfold has_column. rewrite Hcols. reflexivity.
  - rewrite Hcols. cbn. tauto.
  - cbn. intros H. repeat (destruct H as [H | H]; [discriminate H|]). exact H.
  - exact Hrows.
Qed.

(** With exogenous data for each of the twenty days the pipeline keeps the
    five rows of 2024-01-15 to 2024-01-19, each with lag_14 and target. *)
Lemma twenty_prices_with_exogenous_data :
  len (run_etl None None false "all" twenty_prices_macro_world) = 20%nat /\
  map (fun r => (cell r "date", isna (cell r "lag_14"), isna (cell r "target")))
    (df_rows (create_all_features
                (run_etl None None false "all" twenty_prices_macro_world))) =
  [ (VDate 738900, false, false); (VDate 738901, false, false);
    (VDate 738902, false, false); (VDate 738903, false, false);
    (VDate 738904, false, false) ].
Proof. split; vm_compute; reflexivity. Qed.

(** C1, evaluated where the code departs from it. Twenty consecutive daily
    prices are ingested and no exogenous data; ETL with the filter 'all'
    returns the twenty rows, with both exogenous columns missing in every
    row; feature engineering then returns no row at all, where five are
    expected, because its [dropna] also discards rows whose only missing
    cells are exogenous. *)
Theorem C1_twenty_prices_without_exogenous_data :
  length (raw_petrol_prices (db twenty_prices_world)) = 20%nat /\
  raw_exogenous_data (db twenty_prices_world) = [] /\
  len (run_etl None None false "all" twenty_prices_world) = 20%nat /\
  column (run_etl None None false "all" twenty_prices_world) "crude_oil_price" =
    replicate 20 VNone /\
  column (run_etl None None false "all" twenty_prices_world) "inr_usd" =
    replicate 20 VNone /\
  len (create_all_features (run_etl None None false "all" twenty_prices_world)) = 0%nat.
Proof. repeat split; vm_compute; reflexivity. Qed.



(** * Further properties *)

(** ** Forecast horizon and dates *)

Lemma forecast_loop_dates (model : Model) (scaler : Scaler) (n : nat)
  (st : LoopState) :
  map pred_date (predictions (forecast_loop model scaler n st)) =
  (map pred_date (predictions st) ++
   map (fun k => (current_date st + Z.of_nat k * seconds_per_day) / seconds_per_day)
     (seq 0 n))%list.
Proof.
  revert st. induction n as [|n IH]; intros st.
  - cbn [forecast_loop seq map]. rewrite app_nil_r. reflexivity.
  - cbn [forecast_loop]. rewrite IH, forecast_step_predictions.
    rewrite map_app, <- app_assoc. f_equal.
    cbn [map pred_date seq app]. rewrite Z.mul_0_l, Z.add_0_r. f_equal.
    rewrite <- seq_shift, map_map. apply map_ext. intros k.
    cbn [forecast_step current_date]. f_equal. lia.
Qed.

Lemma forecast_dates_from_tomorrow (model : Model) (scaler : Scaler) (n : nat)
  (cf : gmap string Q) (w : World) :
  map pred_date
    (predictions
       (forecast_loop model scaler n
          (initial_state cf (tomorrow w * seconds_per_day)))) =
  map (fun k => tomorrow w + Z.of_nat k) (seq 0 n).
Proof.
  rewrite forecast_loop_dates. cbn [initial_state predictions map app current_date].
  apply map_ext. intros k.
  rewrite <- Z.mul_add_distr_r, Z.div_mul by (unfold seconds_per_day; lia).
  reflexivity.
Qed.

Lemma generate_forecast_without_end_date (strptime : string -> option Z)
  (horizon_days : Z) (model_version : option string) (end_date : option EndDate)
  (w : World) (model : Model) (scaler : Scaler) (version : string)
  (metrics : Metrics) (latest : FeatureDict) :
  load_model_and_scaler model_version w = Some (model, scaler, version, metrics) ->
  get_latest_features w = Some latest ->
  end_date_truthy end_date = false ->
  generate_forecast strptime horizon_days model_version end_date w =
  ForecastSuccess version horizon_days
    (predictions
       (forecast_loop model scaler (Z.to_nat horizon_days)
          (initial_state (seed_features latest) (tomorrow w * seconds_per_day))))
    metrics.
Proof.
  intros Hload Hfeat Hend. unfold generate_forecast.
  rewrite Hload, Hfeat, tomorrow_midnight. unfold resolve_horizon.
  destruct end_date as [e|]; [rewrite Hend|]; reflexivity.
Qed.

(** X1. Without an end date (absent, or the empty string) a forecast with a
    loaded model and a seed row succeeds with exactly [horizon_days]
    predictions, none when [horizon_days <= 0], dated on consecutive days
    from tomorrow, and reports the version and the metrics stored with it.
    The clock shows a day a [datetime] can hold, and so is the day the loop
    leaves [current_date] on after its last step, [horizon_days] after
    tomorrow: past 9999-12-31 that step raises. *)
Theorem forecast_covers_horizon (strptime : string -> option Z)
  (horizon_days : Z) (model_version : option string) (end_date : option EndDate)
  (w : World) (model : Model) (scaler : Scaler) (version : string)
  (metrics : Metrics) (latest : FeatureDict) :
  load_model_and_scaler model_version w = Some (model, scaler, version, metrics) ->
  get_latest_features w = Some latest ->
  end_date_truthy end_date = false ->
  1 <= today w ->
  tomorrow w + Z.max 0 horizon_days <= MAXORDINAL ->
  exists predictions,
    generate_forecast strptime horizon_days model_version end_date w =
      ForecastSuccess version horizon_days predictions metrics /\
    length predictions = Z.to_nat horizon_days /\
    map pred_date predictions =
      map (fun k => tomorrow w + Z.of_nat k) (seq 0 (Z.to_nat horizon_days)).
Proof.
  intros Hload Hfeat Hend _ _. eexists. split; [|split].
  - apply (generate_forecast_without_end_date strptime horizon_days model_version
             end_date w model scaler version metrics latest Hload Hfeat Hend).
  - rewrite forecast_loop_length. reflexivity.
  - apply forecast_dates_from_tomorrow.
Qed.

(** A seven-day forecast requested on 2024-06-15 with an empty end date. *)
Lemma forecast_covers_horizon_witness :
  exists predictions,
    generate_forecast demo_strptime 7 None (Some (EndDateStr "")) demo_world =
      ForecastSuccess "v1" 7 predictions demo_metrics /\
    length predictions = 7%nat /\
    map pred_date predictions =
      [739053; 739054; 739055; 739056; 739057; 739058; 739059].
Proof.
  refine (forecast_covers_horizon demo_strptime 7 None (Some (EndDateStr ""))
            demo_world demo_model demo_scaler "v1" demo_metrics
            (ProcessedFeature_to_dict demo_feature_row) eq_refl eq_refl eq_refl _ _).
  - vm_compute. discriminate.
  - vm_compute. discriminate.
Defined.

(** X2. With an end date after the current date and before 9999-12-31 the
    forecast covers every day from tomorrow through the end date: the
    horizon is the day count [end_date - today], whatever [horizon_days]
    was passed. (The loop leaves [current_date] on the day after the end
    date; for the end date 9999-12-31 that step raises.) *)
Theorem forecast_covers_until_end_date (strptime : string -> option Z)
  (horizon_days : Z) (model_version : option string) (e : EndDate) (d : Z)
  (w : World) (model : Model) (scaler : Scaler) (version : string)
  (metrics : Metrics) (latest : FeatureDict) :
  load_model_and_scaler model_version w = Some (model, scaler, version, metrics) ->
  get_latest_features w = Some latest ->
  end_date_denotes strptime e d ->
  1 <= today w ->
  today w < d ->
  d < MAXORDINAL ->
  exists predictions,
    generate_forecast strptime horizon_days model_version (Some e) w =
      ForecastSuccess version (d - today w) predictions metrics /\
    length predictions = Z.to_nat (d - today w) /\
    map pred_date predictions =
      map (fun k => tomorrow w + Z.of_nat k) (seq 0 (Z.to_nat (d - today w))) /\
    (forall p, last predictions = Some p -> pred_date p = d).
Proof.
  intros Hload Hfeat He _ Hd _.
  rewrite (generate_forecast_with_end_date strptime horizon_days model_version e d
             w model scaler version metrics latest Hload Hfeat He).
  destruct (Z.leb_spec (d - today w) 0); [lia|].
  eexists. split; [reflexivity|].
  split; [|split].
  - rewrite forecast_loop_length. reflexivity.
  - apply forecast_dates_from_tomorrow.
  - intros p Hlast.
    assert (Hdates : last (map pred_date
                (predictions
                   (forecast_loop model scaler (Z.to_nat (d - today w))
                      (initial_state (seed_features latest)
                         (tomorrow w * seconds_per_day))))) = Some (pred_date p)).
    { pose proof (fmap_last pred_date
                    (predictions
                       (forecast_loop model scaler (Z.to_nat (d - today w))
                          (initial_state (seed_features latest)
                             (tomorrow w * seconds_per_day))))) as Hf.
      rewrite Hlast in Hf. exact Hf. }
    rewrite forecast_dates_from_tomorrow in Hdates.
    destruct (Z.to_nat (d - today w)) as [|n] eqn:Hn; [lia|].
    rewrite seq_S, map_app in Hdates. cbn [map] in Hdates.
    rewrite last_snoc in Hdates. injection Hdates as <-.
    unfold tomorrow. cbn [Nat.add]. lia.
Qed.

(** On 2024-06-15 the end date 2024-06-17 gives two predictions, for the
    16th and the 17th, although thirty days were requested. *)
Lemma forecast_covers_until_end_date_witness :
  exists predictions,
    generate_forecast demo_strptime 30 None (Some (EndDateStr "2024-06-17")) demo_world =
      ForecastSuccess "v1" (739054 - today demo_world) predictions demo_metrics /\
    length predictions = Z.to_nat (739054 - today demo_world) /\
    map pred_date predictions =
      map (fun k => tomorrow demo_world + Z.of_nat k)
        (seq 0 (Z.to_nat (739054 - today demo_world))) /\
    (forall p, last predictions = Some p -> pred_date p = 739054).
Proof.
  refine (forecast_covers_until_end_date demo_strptime 30 None
            (EndDateStr "2024-06-17") 739054 demo_world demo_model demo_scaler
            "v1" demo_metrics (ProcessedFeature_to_dict demo_feature_row)
            eq_refl eq_refl _ _ _ _).
  - split; [discriminate | reflexivity].
  - vm_compute. discriminate.
  - reflexivity.
  - reflexivity.
Defined.


(** X3. The exogenous inputs never move during a forecast: at every step the
    model input carries the crude oil price and the exchange rate of the
    start state, whatever was predicted before. *)
Theorem forecast_holds_exogenous_inputs (model : Model) (scaler : Scaler)
  (st0 : LoopState) (k : nat) :
  let cf := current_features (forecast_loop model scaler k st0) in
  cf !!! "crude_oil_price" = current_features st0 !!! "crude_oil_price" /\
  cf !!! "inr_usd" = current_features st0 !!! "inr_usd" /\
  nth 6 (input_vector cf) 0%Q = current_features st0 !!! "crude_oil_price" /\
  nth 7 (input_vector cf) 0%Q = current_features st0 !!! "inr_usd".
Proof.
  cbv zeta.
  assert (H : current_features (forecast_loop model scaler k st0) !!! "crude_oil_price" =
              current_features st0 !!! "crude_oil_price" /\
              current_features (forecast_loop model scaler k st0) !!! "inr_usd" =
              current_features st0 !!! "inr_usd").
  { induction k as [|k [IH1 IH2]]; [split; reflexivity|].
    rewrite forecast_loop_succ.
    pose proof (forecast_step_features model scaler (forecast_loop model scaler k st0))
      as Hstep. cbv zeta in Hstep.
    destruct Hstep as (_ & _ & _ & _ & _ & _ & H7 & H8).
    rewrite H7, H8. split; assumption. }
  destruct H as [H1 H2]. repeat split; assumption.
Qed.

(** X4. The price fed back is the clamped prediction, not rounded. After
    each step the price the next step gives the model (the first entry of
    its input) is the clamped model output of the step; the price emitted
    for the day is that value rounded to two decimals; so from the second
    step on the price input lies in the band whatever the seed was. *)
Theorem forecast_feeds_back_clamped_price (model : Model) (scaler : Scaler)
  (st0 : LoopState) (k : nat) :
  let st := forecast_loop model scaler k st0 in
  let st' := forecast_loop model scaler (S k) st0 in
  let pred := clamp (model (scaler (input_vector (current_features st)))) in
  current_features st' !!! "petrol_price" = pred /\
  nth 0 (input_vector (current_features st')) 0%Q = pred /\
  (exists p,
     last (predictions st') = Some p /\
     pred_date p = current_date st / seconds_per_day /\
     predicted_price p = py_round2 pred) /\
  in_band (current_features st' !!! "petrol_price").
Proof.
  cbv zeta. rewrite forecast_loop_succ.
  pose proof (forecast_step_features model scaler (forecast_loop model scaler k st0))
    as Hstep. cbv zeta in Hstep.
  destruct Hstep as (_ & _ & _ & _ & H5 & _).
  split; [exact H5|]. split; [exact H5|]. split.
  - rewrite forecast_step_predictions. eexists. split; [apply last_snoc|].
    split; reflexivity.
  - rewrite H5. apply clamp_in_band.
Qed.

(** ** Logging a forecast *)

(** X5. A successful forecast is logged as one new row holding the version
    and the predictions returned, and the [horizon_days] of the request,
    not the horizon computed from an end date. When the requested
    [horizon_days] does not fit the INTEGER column, the forecast is returned
    all the same and nothing is logged. Nothing else in the store
    changes. *)
Theorem generate_prediction_logs_the_request (strptime : string -> option Z)
  (horizon_days : Z) (model_version : option string) (end_date : option EndDate)
  (w : World) (version : string) (h : Z) (predictions : list Prediction)
  (metrics : Metrics) :
  generate_forecast strptime horizon_days model_version end_date w =
    ForecastSuccess version h predictions metrics ->
  let result := generate_prediction strptime horizon_days model_version end_date w in
  fst result = ForecastSuccess version h predictions metrics /\
  (sqlite_integer horizon_days = true ->
   exists log_entry,
     prediction_logs (db (snd result)) = (prediction_logs (db w) ++ [log_entry])%list /\
     pl_horizon_days log_entry = horizon_days /\
     pl_model_version log_entry = version /\
     pl_predictions_json log_entry = predictions) /\
  (sqlite_integer horizon_days = false ->
   prediction_logs (db (snd result)) = prediction_logs (db w)) /\
  raw_petrol_prices (db (snd result)) = raw_petrol_prices (db w) /\
  raw_exogenous_data (db (snd result)) = raw_exogenous_data (db w) /\
  processed_features (db (snd result)) = processed_features (db w) /\
  model_registry (db (snd result)) = model_registry (db w) /\
  files (snd result) = files w /\ now (snd result) = now w.
Proof.
  intros Hok. cbv zeta. unfold generate_prediction, log_prediction. rewrite Hok.
  destruct (sqlite_integer horizon_days); cbn [fst snd].
  - split; [reflexivity|]. split.
    + intros _. eexists. cbn. repeat split.
    + split; [discriminate|]. cbn. repeat split.
  - split; [reflexivity|]. split; [discriminate|]. repeat split.
Qed.

(** Thirty days requested with the end date 2024-06-17: two predictions are
    returned and logged, under a horizon of 30. *)
Lemma generate_prediction_logs_the_request_witness :
  let result :=
    generate_prediction demo_strptime 30 None (Some (EndDateObj 739054)) demo_world in
  exists predictions log_entry,
    length predictions = 2%nat /\
    fst result = ForecastSuccess "v1" 2 predictions demo_metrics /\
    prediction_logs (db (snd result)) = [log_entry] /\
    pl_horizon_days log_entry = 30 /\
    pl_model_version log_entry = "v1" /\
    pl_predictions_json log_entry = predictions.
Proof.
  cbv zeta.
  assert (Hok : exists predictions,
            length predictions = 2%nat /\
            generate_forecast demo_strptime 30 None (Some (EndDateObj 739054)) demo_world =
            ForecastSuccess "v1" 2 predictions demo_metrics).
  { eexists. split; [|vm_compute; reflexivity]. reflexivity. }
  destruct Hok as (predictions & Hlen & Hok).
  pose proof (generate_prediction_logs_the_request demo_strptime 30 None
                (Some (EndDateObj 739054)) demo_world "v1" 2 predictions
                demo_metrics Hok) as H.
  cbv zeta in H. destruct H as (H1 & H2 & _).
  destruct (H2 eq_refl) as (log_entry & Hlogs & Hh & Hv & Hp).
  exists predictions, log_entry. repeat split; assumption.
Defined.


(** ** Sorted output of [ORDER BY] *)

Section OrderBySorted.
Context {A : Type} (le : A -> A -> bool).
Hypothesis le_total : forall a b, le a b = true \/ le b a = true.
Hypothesis le_trans : forall a b c, le a b = true -> le b c = true -> le a c = true.

Lemma insert_sorted_sorted (x : A) (l : list A) :
  StronglySorted (fun a b => le a b = true) l ->
  StronglySorted (fun a b => le a b = true) (insert_sorted le x l).
Proof.
  induction 1 as [|y l Hs IH Hy]; cbn [insert_sorted].
  - constructor; constructor.
  - destruct (le x y) eqn:Hxy.
    + constructor; [constructor; assumption|].
      constructor; [exact Hxy|].
      eapply Forall_impl; [exact Hy|]. intros z Hz. cbn in Hz.
      eapply le_trans; eassumption.
    + constructor; [exact IH|].
      rewrite insert_sorted_perm. constructor; [|exact Hy].
      destruct (le_total x y) as [H | H]; [congruence | exact H].
Qed.

Lemma order_by_sorted (l : list A) :
  StronglySorted (fun a b => le a b = true) (order_by le l).
Proof.
  induction l as [|x l IH]; cbn [order_by fold_right]; [constructor|].
  apply insert_sorted_sorted, IH.
Qed.

End OrderBySorted.

Lemma StronglySorted_app_inv {A : Type} (R : A -> A -> Prop) (l1 l2 : list A) :
  StronglySorted R (l1 ++ l2) ->
  StronglySorted R l1 /\ StronglySorted R l2 /\
  forall a b, In a l1 -> In b l2 -> R a b.
Proof.
  induction l1 as [|x l1 IH]; cbn [app]; intros H.
  - repeat split; [constructor | exact H | intros a b []].
  - apply StronglySorted_inv in H as [Hs Hx].
    destruct (IH Hs) as (H1 & H2 & H12).
    apply Forall_app in Hx as [Hx1 Hx2].
    repeat split; [constructor; assumption | exact H2 |].
    intros a b [<- | Ha] Hb; [|apply H12; assumption].
    rewrite List.Forall_forall in Hx2. apply Hx2, Hb.
Qed.

Lemma StronglySorted_weaken {A : Type} (R R' : A -> A -> Prop) (l : list A) :
  (forall a b, R a b -> R' a b) -> StronglySorted R l -> StronglySorted R' l.
Proof.
  intros HR. induction 1 as [|x l _ IH Hx]; constructor; [exact IH|].
  eapply Forall_impl; [exact Hx | intros b; apply HR].
Qed.

Lemma desc_total {A : Type} (key : A -> Z) (a b : A) :
  desc key a b = true \/ desc key b a = true.
Proof. unfold desc. destruct (Z.leb_spec (key b) (key a)); [auto|]. right. lia. Qed.

Lemma desc_trans {A : Type} (key : A -> Z) (a b c : A) :
  desc key a b = true -> desc key b c = true -> desc key a c = true.
Proof. unfold desc. rewrite !Z.leb_le. lia. Qed.

(** ** Prediction history *)

(** X6. The history is the newest part of the log: for a [limit] that fits a
    signed 64-bit integer it has [limit] rows, or all of them when there
    are fewer or the limit is negative, and for any other [limit] it is
    empty; it is ordered newest first; and no row left out is newer than a
    row returned. *)
Theorem prediction_history_newest_first (limit : Z) (w : World) :
  let history := get_prediction_history limit w in
  length history =
    (if negb (sqlite_integer limit) then 0%nat
     else if limit <? 0 then length (prediction_logs (db w))
     else Nat.min (Z.to_nat limit) (length (prediction_logs (db w)))) /\
  StronglySorted (fun a b => pl_request_time b <= pl_request_time a) history /\
  exists older,
    Permutation (history ++ older) (prediction_logs (db w)) /\
    forall a b, In a history -> In b older ->
                pl_request_time b <= pl_request_time a.
Proof.
  cbv zeta. unfold get_prediction_history.
  set (logs := order_by (desc pl_request_time) (prediction_logs (db w))).
  assert (Hperm : Permutation logs (prediction_logs (db w))) by apply order_by_perm.
  assert (Hsorted : StronglySorted
                      (fun a b => pl_request_time b <= pl_request_time a) logs).
  { eapply StronglySorted_weaken;
      [|apply (order_by_sorted (desc pl_request_time)
                 (desc_total pl_request_time) (desc_trans pl_request_time))].
    intros a b H. unfold desc in H. apply Z.leb_le, H. }
  pose proof (Permutation_length Hperm) as Hlen.
  destruct (sqlite_integer limit); cbn [negb].
  2: { split; [reflexivity|]. split; [constructor|].
       exists logs. split; [exact Hperm | intros a b []]. }
  destruct (limit <? 0).
  - split; [exact Hlen|].
    split; [exact Hsorted|].
    exists []. rewrite app_nil_r. split; [exact Hperm | intros a b _ []].
  - rewrite <- (take_drop (Z.to_nat limit) logs) in Hsorted, Hperm.
    apply StronglySorted_app_inv in Hsorted as (H1 & _ & H12).
    split; [rewrite length_take, Hlen; reflexivity|].
    split; [exact H1|].
    exists (drop (Z.to_nat limit) logs). split; [exact Hperm | exact H12].
Qed.


(** ** Registry queries *)

Lemma first_order_by_desc_newest {A : Type} (key : A -> Z) (l : list A) (m : A) :
  first (order_by (desc key) l) = Some m ->
  In m l /\ forall x, In x l -> key x <= key m.
Proof.
  intros H.
  destruct (order_by_first_min (desc key) (desc_total key) (desc_trans key) l m H)
    as [Hin Hmin].
  split; [exact Hin|]. intros x Hx. apply Z.leb_le. exact (Hmin x Hx).
Qed.

(** X7. The latest model is the head of the newest-first listing; it is a
    registered version created no earlier than any other, it is the version
    a forecast without a version argument looks up, and it is absent exactly
    when nothing is registered. *)
Theorem latest_model_is_newest (w : World) :
  get_latest_model w = head (get_all_models w) /\
  (get_latest_model w = None <-> model_registry (db w) = []) /\
  (forall d, get_latest_model w = Some d ->
     exists r,
       In r (model_registry (db w)) /\ d = ModelRegistry_to_dict r /\
       find_model_record None w = Some r /\
       forall r', In r' (model_registry (db w)) -> mr_created_at r' <= mr_created_at r).
Proof.
  unfold get_latest_model, get_all_models, find_model_record.
  split; [|split].
  - unfold first. destruct (order_by _ _); reflexivity.
  - split.
    + intros H. destruct (model_registry (db w)) as [|r l] eqn:E; [reflexivity|].
      destruct (order_by_first_some (desc mr_created_at) (r :: l)) as [m Hm];
        [discriminate|].
      rewrite Hm in H. discriminate.
    + intros ->. reflexivity.
  - intros d H.
    destruct (first (order_by (desc mr_created_at) (model_registry (db w))))
      as [r|] eqn:Hr; [|discriminate].
    injection H as <-.
    destruct (first_order_by_desc_newest mr_created_at _ r Hr) as [Hin Hmax].
    exists r. repeat split; assumption.
Qed.

(** X8. Both listings show every registered version exactly once:
    [get_all_models] newest first, [compare_models] in ascending order of
    the stored rmse, versions without an rmse first. *)
Theorem registry_listings_are_sorted (w : World) :
  (exists rows,
     Permutation rows (model_registry (db w)) /\
     StronglySorted (fun a b => mr_created_at b <= mr_created_at a) rows /\
     get_all_models w = map ModelRegistry_to_dict rows) /\
  (exists rows,
     Permutation rows (model_registry (db w)) /\
     StronglySorted (fun a b => asc_nullable mr_rmse a b = true) rows /\
     map cmp_model_version (compare_models w) = map mr_model_version rows /\
     map cmp_rmse (compare_models w) = map (fun r => float_if_truthy (mr_rmse r)) rows).
Proof.
  split.
  - exists (order_by (desc mr_created_at) (model_registry (db w))).
    split; [apply order_by_perm|]. split; [|reflexivity].
    eapply StronglySorted_weaken;
      [|apply (order_by_sorted (desc mr_created_at)
                 (desc_total mr_created_at) (desc_trans mr_created_at))].
    intros a b H. apply Z.leb_le, H.
  - exists (order_by (asc_nullable mr_rmse) (model_registry (db w))).
    split; [apply order_by_perm|].
    split; [apply (order_by_sorted (asc_nullable mr_rmse)
                     (asc_nullable_total mr_rmse) (asc_nullable_trans mr_rmse))|].
    unfold compare_models. rewrite !map_map. split; reflexivity.
Qed.

(** X9. The most recent feature row seeds the forecast: the row returned has
    the greatest stored date, and there is none only when the table is
    empty. *)
Theorem latest_features_are_most_recent (w : World) :
  (get_latest_features w = None <-> processed_features (db w) = []) /\
  (forall d, get_latest_features w = Some d ->
     exists r,
       In r (processed_features (db w)) /\ d = ProcessedFeature_to_dict r /\
       forall r', In r' (processed_features (db w)) -> pf_date r' <= pf_date r).
Proof.
  unfold get_latest_features. split.
  - split.
    + intros H. destruct (processed_features (db w)) as [|r l] eqn:E; [reflexivity|].
      destruct (order_by_first_some (desc pf_date) (r :: l)) as [m Hm];
        [discriminate|].
      rewrite Hm in H. discriminate.
    + intros ->. reflexivity.
  - intros d H.
    destruct (first (order_by (desc pf_date) (processed_features (db w))))
      as [r|] eqn:Hr; [|discriminate].
    injection H as <-.
    destruct (first_order_by_desc_newest pf_date _ r Hr) as [Hin Hmax].
    exists r. repeat split; assumption.
Qed.


(** ** Registry updates *)

Lemma existsb_false_filter_nil {A : Type} (p : A -> bool) (l : list A) :
  existsb p l = false -> List.filter p l = [].
Proof.
  induction l as [|x l IH]; cbn [existsb List.filter]; [reflexivity|].
  destruct (p x); [discriminate | exact IH].
Qed.

Lemma update_first_filter_same {A : Type} (p : A -> bool) (f : A -> A) (l : list A) :
  (forall x, p (f x) = p x) ->
  List.filter p (update_first p f l) =
  match List.filter p l with
  | [] => []
  | y :: ys => f y :: ys
  end.
Proof.
  intros Hf. induction l as [|x l IH]; cbn [update_first List.filter]; [reflexivity|].
  destruct (p x) eqn:Hx; cbn [List.filter].
  - rewrite Hf, Hx. reflexivity.
  - rewrite Hx. exact IH.
Qed.

Lemma update_first_filter_other {A : Type} (p q : A -> bool) (f : A -> A) (l : list A) :
  (forall x, p x = true -> q x = false /\ q (f x) = false) ->
  List.filter q (update_first p f l) = List.filter q l.
Proof.
  intros H. induction l as [|x l IH]; cbn [update_first List.filter]; [reflexivity|].
  destruct (p x) eqn:Hx; cbn [List.filter].
  - destruct (H x Hx) as [-> ->]. reflexivity.
  - rewrite IH. reflexivity.
Qed.

Lemma remove_first_filter_same {A : Type} (p : A -> bool) (l : list A) :
  List.filter p (remove_first p l) = tail (List.filter p l).
Proof.
  induction l as [|x l IH]; cbn [remove_first List.filter]; [reflexivity|].
  destruct (p x) eqn:Hx; cbn [List.filter tail]; [reflexivity|].
  rewrite Hx. exact IH.
Qed.

Lemma remove_first_filter_other {A : Type} (p q : A -> bool) (l : list A) :
  (forall x, p x = true -> q x = false) ->
  List.filter q (remove_first p l) = List.filter q l.
Proof.
  intros H. induction l as [|x l IH]; cbn [remove_first List.filter]; [reflexivity|].
  destruct (p x) eqn:Hx; cbn [List.filter].
  - rewrite (H x Hx). reflexivity.
  - rewrite IH. reflexivity.
Qed.

Lemma remove_first_length {A : Type} (p : A -> bool) (l : list A) :
  length (remove_first p l) =
  (length l - (if existsb p l then 1 else 0))%nat.
Proof.
  induction l as [|x l IH]; cbn [remove_first existsb length]; [reflexivity|].
  destruct (p x); cbn [orb length]; [lia|].
  rewrite IH. destruct (existsb p l) eqn:E; [|lia].
  destruct l; [discriminate | cbn [length]; lia].
Qed.

Lemma remove_first_NoDup {A B : Type} (key : A -> B) (p : A -> bool) (l : list A) :
  List.NoDup (map key l) -> List.NoDup (map key (remove_first p l)).
Proof.
  induction l as [|x l IH]; cbn [remove_first map]; [auto|].
  intros H. apply List.NoDup_cons_iff in H as [Hx Hl].
  destruct (p x); [exact Hl|].
  cbn [map]. apply List.NoDup_cons_iff. split; [|apply IH, Hl].
  intros Hin. apply Hx. clear -Hin.
  induction l as [|y l IH]; cbn [remove_first map] in *; [exact Hin|].
  destruct (p y); [right; exact Hin|].
  destruct Hin as [H | H]; [left; exact H | right; apply IH, H].
Qed.

Lemma update_first_keys {A B : Type} (key : A -> B) (p : A -> bool) (f : A -> A)
  (l : list A) :
  (forall x, key (f x) = key x) ->
  map key (update_first p f l) = map key l.
Proof.
  intros Hf. induction l as [|x l IH]; cbn [update_first map]; [reflexivity|].
  destruct (p x); cbn [map]; [rewrite Hf | rewrite IH]; reflexivity.
Qed.

Lemma update_first_length {A : Type} (p : A -> bool) (f : A -> A) (l : list A) :
  length (update_first p f l) = length l.
Proof.
  induction l as [|x l IH]; cbn [update_first length]; [reflexivity|].
  destruct (p x); cbn [length]; [reflexivity | rewrite IH; reflexivity].
Qed.

Lemma update_first_idempotent {A : Type} (p : A -> bool) (f : A -> A) (l : list A) :
  (forall x, p (f x) = p x) -> (forall x, f (f x) = f x) ->
  update_first p f (update_first p f l) = update_first p f l.
Proof.
  intros Hp Hf. induction l as [|x l IH]; cbn [update_first]; [reflexivity|].
  destruct (p x) eqn:Hx; cbn [update_first].
  - rewrite Hp, Hx, Hf. reflexivity.
  - rewrite Hx, IH. reflexivity.
Qed.

Lemma update_first_app_last {A : Type} (p : A -> bool) (f : A -> A) (l : list A)
  (x : A) :
  List.filter p l = [] -> p x = true ->
  update_first p f (l ++ [x]) = (l ++ [f x])%list.
Proof.
  intros Hl Hx. induction l as [|y l IH]; cbn [app update_first].
  - rewrite Hx. reflexivity.
  - cbn [List.filter] in Hl. destruct (p y); [discriminate|].
    rewrite (IH Hl). reflexivity.
Qed.

Lemma filter_unique_key {A : Type} (key : A -> string) (v : string) (l : list A) :
  List.NoDup (map key l) ->
  (length (List.filter (fun r => String.eqb (key r) v) l) <= 1)%nat.
Proof.
  induction l as [|x l IH]; cbn [map List.filter length]; [lia|].
  intros H. apply List.NoDup_cons_iff in H as [Hx Hl].
  destruct (String.eqb_spec (key x) v) as [Hv | _]; [|apply IH, Hl].
  cbn [length].
  assert (Hnone : List.filter (fun r => String.eqb (key r) v) l = []).
  { apply existsb_false_filter_nil. apply not_true_is_false. intros H.
    apply existsb_exists in H as (y & Hy & Hyv).
    apply String.eqb_eq in Hyv. apply Hx. rewrite Hv, <- Hyv.
    apply in_map, Hy. }
  rewrite Hnone. cbn. lia.
Qed.

Lemma version_eqb_other (v v' : string) (r : ModelRegistry) :
  v' <> v ->
  String.eqb (mr_model_version r) v = true ->
  String.eqb (mr_model_version r) v' = false.
Proof.
  intros Hne H. apply String.eqb_eq in H. apply String.eqb_neq. congruence.
Qed.

(** X10. Register and look up: a version that is not yet registered, with
    metrics of at most four decimals (the scale of their columns) and a
    sample count that fits the INTEGER column, is stored, and is then found
    with the path and source it was registered with and its metrics as
    [to_dict] shows them; the other versions are found as before; and
    registering the version again is refused and changes nothing. *)
Theorem register_then_lookup (model_version model_path : string)
  (metrics : MetricsArg) (training_samples : option Z) (data_source : string)
  (w : World) :
  get_model_by_version model_version w = None ->
  metrics_at_scale metrics = true ->
  optional_sqlite_integer training_samples = true ->
  let result :=
    register_model model_version model_path metrics training_samples data_source w in
  fst result = true /\
  (exists d,
     get_model_by_version model_version (snd result) = Some d /\
     md_model_version d = model_version /\
     md_model_path d = model_path /\
     md_rmse d = float_if_truthy (arg_rmse metrics) /\
     md_mae d = float_if_truthy (arg_mae metrics) /\
     md_mape d = float_if_truthy (arg_mape metrics) /\
     md_r2 d = float_if_truthy (arg_r2 metrics) /\
     md_training_samples d = training_samples /\
     md_data_source d = data_source) /\
  (forall v', v' <> model_version ->
     get_model_by_version v' (snd result) = get_model_by_version v' w) /\
  (forall model_path' metrics' training_samples' data_source',
     register_model model_version model_path' metrics' training_samples'
       data_source' (snd result) = (false, snd result)).
Proof.
  intros Hfresh _ _. cbv zeta.
  assert (Hnone : List.filter (fun r => String.eqb (mr_model_version r) model_version)
                    (model_registry (db w)) = []).
  { unfold get_model_by_version, first in Hfresh.
    destruct (List.filter _ _); [reflexivity | discriminate]. }
  unfold register_model. rewrite (filter_nil_existsb _ _ Hnone).
  cbn [fst snd]. split; [reflexivity|]. split; [|split].
  - unfold get_model_by_version. cbn [db with_db model_registry now].
    rewrite List.filter_app, Hnone. cbn [List.filter app mr_model_version].
    rewrite String.eqb_refl. cbn [first head].
    eexists. split; [reflexivity|]. repeat split.
  - intros v' Hne. unfold get_model_by_version. cbn [db with_db model_registry].
    rewrite List.filter_app. cbn [List.filter mr_model_version].
    assert (Hv : String.eqb model_version v' = false)
      by (apply String.eqb_neq; congruence).
    rewrite Hv, app_nil_r. reflexivity.
  - intros model_path' metrics' training_samples' data_source'.
    cbn [db with_db model_registry].
    rewrite existsb_app. cbn [existsb mr_model_version].
    rewrite String.eqb_refl, orb_true_r. reflexivity.
Qed.

(** v4 registered into the registry of the three versions. *)
Lemma register_then_lookup_witness :
  let result :=
    register_model "v4" "saved_models/v4.h5" (metrics_with_rmse (3 # 1)) (Some 64)
      "file_upload" three_versions_world in
  fst result = true /\
  (exists d,
     get_model_by_version "v4" (snd result) = Some d /\
     md_model_version d = "v4" /\
     md_model_path d = "saved_models/v4.h5" /\
     md_rmse d = float_if_truthy (arg_rmse (metrics_with_rmse (3 # 1))) /\
     md_mae d = float_if_truthy (arg_mae (metrics_with_rmse (3 # 1))) /\
     md_mape d = float_if_truthy (arg_mape (metrics_with_rmse (3 # 1))) /\
     md_r2 d = float_if_truthy (arg_r2 (metrics_with_rmse (3 # 1))) /\
     md_training_samples d = Some 64 /\
     md_data_source d = "file_upload") /\
  (forall v', v' <> "v4" ->
     get_model_by_version v' (snd result) = get_model_by_version v' three_versions_world) /\
  (forall model_path' metrics' training_samples' data_source',
     register_model "v4" model_path' metrics' training_samples'
       data_source' (snd result) = (false, snd result)).
Proof.
  exact (register_then_lookup "v4" "saved_models/v4.h5" (metrics_with_rmse (3 # 1))
           (Some 64) "file_upload" three_versions_world eq_refl eq_refl eq_refl).
Defined.

(** X11. Delete: on a registry with unique versions, deleting a registered
    version returns true and removes exactly that version; deleting an
    unknown version returns false and changes nothing; the other versions
    are found as before. *)
Theorem delete_model_removes_version (model_version : string) (w : World) :
  List.NoDup (map mr_model_version (model_registry (db w))) ->
  let result := delete_model model_version w in
  (fst result = true <-> get_model_by_version model_version w <> None) /\
  (fst result = false -> snd result = w) /\
  get_model_by_version model_version (snd result) = None /\
  (forall v', v' <> model_version ->
     get_model_by_version v' (snd result) = get_model_by_version v' w) /\
  length (model_registry (db (snd result))) =
    (length (model_registry (db w)) - (if fst result then 1 else 0))%nat /\
  List.NoDup (map mr_model_version (model_registry (db (snd result)))).
Proof.
  intros Hunique. cbv zeta. unfold delete_model, get_model_by_version.
  pose proof (filter_unique_key mr_model_version model_version _ Hunique) as Hone.
  destruct (List.filter (fun r => String.eqb (mr_model_version r) model_version)
              (model_registry (db w))) as [|r rest] eqn:Hfound;
    cbn [first head fst snd].
  - rewrite Hfound. cbn [first head].
    split; [split; [discriminate | congruence]|].
    split; [reflexivity|]. split; [reflexivity|].
    split; [reflexivity|]. split; [lia | exact Hunique].
  - cbn [db with_db with_registry model_registry].
    split; [split; [discriminate | reflexivity]|].
    split; [discriminate|].
    split.
    { rewrite remove_first_filter_same, Hfound. cbn [tail].
      destruct rest; [reflexivity | cbn [length] in Hone; lia]. }
    split.
    { intros v' Hne. rewrite remove_first_filter_other; [reflexivity|].
      intros x. apply version_eqb_other, Hne. }
    split.
    { rewrite remove_first_length.
      destruct (existsb _ (model_registry (db w))) eqn:E; [reflexivity|].
      rewrite (existsb_false_filter_nil _ _ E) in Hfound. discriminate. }
    apply remove_first_NoDup, Hunique.
Qed.

(** v2 deleted from the registry of the three versions. *)
Lemma delete_model_removes_version_witness :
  let result := delete_model "v2" three_versions_world in
  (fst result = true <-> get_model_by_version "v2" three_versions_world <> None) /\
  (fst result = false -> snd result = three_versions_world) /\
  get_model_by_version "v2" (snd result) = None /\
  (forall v', v' <> "v2" ->
     get_model_by_version v' (snd result) = get_model_by_version v' three_versions_world) /\
  length (model_registry (db (snd result))) =
    (length (model_registry (db three_versions_world)) - (if fst result then 1 else 0))%nat /\
  List.NoDup (map mr_model_version (model_registry (db (snd result)))).
Proof.
  refine (delete_model_removes_version "v2" three_versions_world _).
  repeat constructor; cbn; intuition discriminate.
Defined.


(** ** Saving metrics *)


Lemma NoDup_snoc {A : Type} (l : list A) (x : A) :
  List.NoDup l -> ~ In x l -> List.NoDup (l ++ [x]).
Proof.
  induction 1 as [|y l Hy Hl IH]; cbn [app]; intros Hx.
  - constructor; [intros [] | constructor].
  - constructor.
    + rewrite in_app_iff. cbn [In]. intros [H | [H | []]]; [tauto|].
      apply Hx. left. symmetry. exact H.
    + apply IH. intros H. apply Hx. right. exact H.
Qed.

Lemma save_metrics_registry (model_version : string) (metrics : MetricsArg)
  (model_path : string) (training_samples : option Z) (w : World) :
  let result :=
    save_metrics_to_database model_version metrics model_path training_samples w in
  fst result = true /\
  files (snd result) = files w /\ now (snd result) = now w /\
  exists r rest,
    List.filter (fun r => String.eqb (mr_model_version r) model_version)
      (model_registry (db (snd result))) = r :: rest /\
    mr_model_version r = model_version /\
    mr_model_path r = model_path /\
    mr_rmse r = arg_rmse metrics /\ mr_mae r = arg_mae metrics /\
    mr_mape r = arg_mape metrics /\ mr_r2 r = arg_r2 metrics /\
    mr_training_samples r = training_samples.
Proof.
  cbv zeta. unfold save_metrics_to_database.
  destruct (List.filter (fun r => String.eqb (mr_model_version r) model_version)
              (model_registry (db w))) as [|r rest] eqn:Hfound;
    cbn [first head fst snd with_registry with_db db files now model_registry].
  - repeat split. rewrite List.filter_app, Hfound.
    cbn [List.filter app mr_model_version]. rewrite String.eqb_refl.
    eexists _, _. split; [reflexivity|]. repeat split.
  - repeat split. rewrite update_first_filter_same by (intros x; reflexivity).
    rewrite Hfound. eexists _, _. split; [reflexivity|].
    cbn [mr_model_version mr_model_path mr_rmse mr_mae mr_mape mr_r2
         mr_training_samples].
    repeat split.
    assert (Hin : In r (List.filter
                          (fun r => String.eqb (mr_model_version r) model_version)
                          (model_registry (db w))))
      by (rewrite Hfound; left; reflexivity).
    apply filter_In in Hin as [_ Hv]. apply String.eqb_eq, Hv.
Qed.

(** X12. Saving metrics is an upsert keyed by the version. For a dictionary
    that gives each of the four metrics a value of at most four decimals
    (the scale of their columns) and a sample count that fits the INTEGER
    column: the call returns true, afterwards the version is found with the
    metrics, path and sample count just saved, every other version is found
    as before, the registry grew by one row only if the version was new,
    unique versions stay unique, and saving the same values again changes
    nothing. *)
Theorem save_metrics_is_idempotent_upsert (model_version : string)
  (metrics : MetricsArg) (model_path : string) (training_samples : option Z)
  (w : World) :
  metrics_complete metrics = true ->
  metrics_at_scale metrics = true ->
  optional_sqlite_integer training_samples = true ->
  let result :=
    save_metrics_to_database model_version metrics model_path training_samples w in
  fst result = true /\
  (exists d,
     get_model_by_version model_version (snd result) = Some d /\
     md_model_version d = model_version /\
     md_model_path d = model_path /\
     md_rmse d = float_if_truthy (arg_rmse metrics) /\
     md_mae d = float_if_truthy (arg_mae metrics) /\
     md_mape d = float_if_truthy (arg_mape metrics) /\
     md_r2 d = float_if_truthy (arg_r2 metrics) /\
     md_training_samples d = training_samples) /\
  (forall v', v' <> model_version ->
     get_model_by_version v' (snd result) = get_model_by_version v' w) /\
  length (model_registry (db (snd result))) =
    (length (model_registry (db w)) +
     match get_model_by_version model_version w with
     | Some _ => 0
     | None => 1
     end)%nat /\
  (List.NoDup (map mr_model_version (model_registry (db w))) ->
   List.NoDup (map mr_model_version (model_registry (db (snd result))))) /\
  save_metrics_to_database model_version metrics model_path training_samples
    (snd result) = (true, snd result).
Proof.
  intros _ _ _. cbv zeta.
  destruct (save_metrics_registry model_version metrics model_path training_samples w)
    as (Hok & _ & _ & r' & rest' & Hfound' & Hv & Hpath & H1 & H2 & H3 & H4 & H5).
  split; [exact Hok|]. split.
  { unfold get_model_by_version. rewrite Hfound'. cbn [first head].
    eexists. split; [reflexivity|].
    cbn [ModelRegistry_to_dict md_model_version md_model_path md_rmse md_mae
         md_mape md_r2 md_training_samples].
    rewrite Hv, Hpath, H1, H2, H3, H4, H5. repeat split. }
  clear r' rest' Hfound' Hv Hpath H1 H2 H3 H4 H5.
  unfold save_metrics_to_database, get_model_by_version.
  destruct (List.filter (fun r => String.eqb (mr_model_version r) model_version)
              (model_registry (db w))) as [|r rest] eqn:Hfound;
    cbn [first head fst snd with_registry with_db db model_registry].
  - split.
    { intros v' Hne. rewrite List.filter_app. cbn [List.filter mr_model_version].
      assert (Hv : String.eqb model_version v' = false)
        by (apply String.eqb_neq; congruence).
      rewrite Hv, app_nil_r. reflexivity. }
    split; [rewrite length_app; reflexivity|].
    split.
    { intros Hunique. rewrite map_app. cbn [map mr_model_version].
      apply NoDup_snoc; [exact Hunique|].
      intros Hx. apply in_map_iff in Hx as (y & Hy & Hin).
      assert (Hyin : In y (List.filter
                             (fun r => String.eqb (mr_model_version r) model_version)
                             (model_registry (db w)))).
      { apply filter_In. split; [exact Hin | apply String.eqb_eq, Hy]. }
      rewrite Hfound in Hyin. destruct Hyin. }
    rewrite List.filter_app, Hfound. cbn [List.filter app mr_model_version].
    rewrite String.eqb_refl. cbn [first head].
    rewrite update_first_app_last;
      [reflexivity | exact Hfound | cbn; apply String.eqb_refl].
  - split.
    { intros v' Hne. rewrite update_first_filter_other; [reflexivity|].
      intros x Hx. cbn [mr_model_version].
      split; apply (version_eqb_other model_version v' x Hne Hx). }
    split; [rewrite update_first_length; lia|].
    split.
    { intros Hunique. rewrite update_first_keys; [exact Hunique|].
      intros x. reflexivity. }
    rewrite update_first_filter_same by (intros x; reflexivity).
    rewrite Hfound. cbn [first head].
    rewrite update_first_idempotent;
      [reflexivity | intros x; reflexivity | intros x; reflexivity].
Qed.

(** The metrics of v2 saved again with an rmse of 1.5, on the registry of
    the three versions. *)
Lemma save_metrics_is_idempotent_upsert_witness :
  let result :=
    save_metrics_to_database "v2" (metrics_with_rmse (3 # 2)) "saved_models/v2.h5"
      (Some 96) three_versions_world in
  fst result = true /\
  (exists d,
     get_model_by_version "v2" (snd result) = Some d /\
     md_model_version d = "v2" /\
     md_model_path d = "saved_models/v2.h5" /\
     md_rmse d = float_if_truthy (arg_rmse (metrics_with_rmse (3 # 2))) /\
     md_mae d = float_if_truthy (arg_mae (metrics_with_rmse (3 # 2))) /\
     md_mape d = float_if_truthy (arg_mape (metrics_with_rmse (3 # 2))) /\
     md_r2 d = float_if_truthy (arg_r2 (metrics_with_rmse (3 # 2))) /\
     md_training_samples d = Some 96) /\
  (forall v', v' <> "v2" ->
     get_model_by_version v' (snd result) =
     get_model_by_version v' three_versions_world) /\
  length (model_registry (db (snd result))) =
    (length (model_registry (db three_versions_world)) +
     match get_model_by_version "v2" three_versions_world with
     | Some _ => 0
     | None => 1
     end)%nat /\
  (List.NoDup (map mr_model_version (model_registry (db three_versions_world))) ->
   List.NoDup (map mr_model_version (model_registry (db (snd result))))) /\
  save_metrics_to_database "v2" (metrics_with_rmse (3 # 2)) "saved_models/v2.h5"
    (Some 96) (snd result) = (true, snd result).
Proof.
  exact (save_metrics_is_idempotent_upsert "v2" (metrics_with_rmse (3 # 2))
           "saved_models/v2.h5" (Some 96) three_versions_world
           eq_refl eq_refl eq_refl).
Defined.



(** ** The next version *)

Lemma prefix_empty (s : string) : String.prefix "" s = true.
Proof. destruct s; reflexivity. Qed.

Lemma replace_v_other (c : Ascii.ascii) (s : string) :
  c <> Ascii.ascii_of_nat 118 ->
  str_replace "v" "" (String c s) = String c (str_replace "v" "" s).
Proof.
  intros Hc. unfold str_replace. cbn [replace_from].
  change (String.prefix "v" (String c s))
    with (match Ascii.ascii_dec (Ascii.ascii_of_nat 118) c with
          | left _ => String.prefix "" s
          | right _ => false
          end).
  destruct (Ascii.ascii_dec (Ascii.ascii_of_nat 118) c); [congruence | reflexivity].
Qed.

Lemma replace_v_first (s : string) :
  str_replace "v" "" ("v" ++ s) = str_replace "v" "" s.
Proof.
  unfold str_replace.
  change ("v" ++ s) with (String (Ascii.ascii_of_nat 118) s).
  cbn [replace_from].
  change (String.prefix "v" (String (Ascii.ascii_of_nat 118) s))
    with (String.prefix "" s).
  rewrite prefix_empty. reflexivity.
Qed.

Lemma replace_v_digits (d : Decimal.uint) :
  str_replace "v" "" (NilEmpty.string_of_uint d) = NilEmpty.string_of_uint d.
Proof.
  induction d as [|d IH|d IH|d IH|d IH|d IH|d IH|d IH|d IH|d IH|d IH];
    cbn [NilEmpty.string_of_uint]; [reflexivity|..];
    rewrite replace_v_other by discriminate; rewrite IH; reflexivity.
Qed.

Lemma replace_v_py_str (n : Z) : str_replace "v" "" ("v" ++ py_str n) = py_str n.
Proof.
  rewrite replace_v_first. unfold py_str.
  destruct (Z.to_int n) as [d | d]; cbn [NilEmpty.string_of_int].
  - apply replace_v_digits.
  - rewrite replace_v_other by discriminate. rewrite replace_v_digits. reflexivity.
Qed.

Lemma max_of_upper (n : Z) (ns : list Z) :
  n <= max_of n ns /\ forall x, In x ns -> x <= max_of n ns.
Proof.
  unfold max_of. revert n. induction ns as [|y ns IH]; intros n; cbn [fold_left].
  - split; [lia | intros x []].
  - destruct (IH (Z.max n y)) as [H1 H2]. split; [lia|].
    intros x [<- | Hx]; [lia | apply H2, Hx].
Qed.

Lemma version_numbers_In (py_int : string -> option Z) (versions : list string)
  (v : string) (n : Z) :
  In v versions -> py_int (str_replace "v" "" v) = Some n ->
  In n (version_numbers py_int versions).
Proof.
  intros Hin Hn. induction versions as [|x versions IH]; [destruct Hin|].
  cbn [version_numbers]. destruct Hin as [-> | Hin].
  - rewrite Hn. left. reflexivity.
  - destruct (py_int (str_replace "v" "" x)); [right|]; apply IH, Hin.
Qed.

(** X14. The next version is new. For an integer parser that reads back what
    [str] prints, the version returned is "v1" for an empty registry, is
    never a version already registered, and carries a number greater than
    the number of every registered version that parses. *)
Theorem next_version_is_fresh (py_int : string -> option Z) (w : World) :
  (forall n, py_int (py_str n) = Some n) ->
  (model_registry (db w) = [] -> get_next_version py_int w = "v1") /\
  (forall r, In r (model_registry (db w)) ->
             mr_model_version r <> get_next_version py_int w) /\
  (forall r n,
     In r (model_registry (db w)) ->
     py_int (str_replace "v" "" (mr_model_version r)) = Some n ->
     exists m, n < m /\ get_next_version py_int w = "v" ++ py_str m).
Proof.
  intros Hround.
  assert (Hnum : forall r n,
            In r (model_registry (db w)) ->
            py_int (str_replace "v" "" (mr_model_version r)) = Some n ->
            exists m, n < m /\ get_next_version py_int w = "v" ++ py_str m).
  { intros r n Hr Hn. unfold get_next_version.
    destruct (model_registry (db w)) as [|r0 l] eqn:E; [destruct Hr|].
    pose proof (version_numbers_In py_int (map mr_model_version (r0 :: l))
                  (mr_model_version r) n (in_map _ _ _ Hr) Hn) as Hin.
    destruct (version_numbers py_int (map mr_model_version (r0 :: l)))
      as [|k ks]; [destruct Hin|].
    destruct (max_of_upper k ks) as [H1 H2].
    exists (max_of k ks + 1). split; [|reflexivity].
    destruct Hin as [<- | Hin]; [lia|]. specialize (H2 n Hin). lia. }
  split; [|split; [|exact Hnum]].
  - intros H. unfold get_next_version. rewrite H. reflexivity.
  - intros r Hr Heq.
    assert (Hparse : exists n, py_int (str_replace "v" "" (mr_model_version r)) = Some n).
    { rewrite Heq. unfold get_next_version.
      destruct (model_registry (db w)) as [|r0 l]; [destruct Hr|].
      destruct (version_numbers py_int (map mr_model_version (r0 :: l))) as [|k ks].
      - exists 1. exact (Hround 1).
      - exists (max_of k ks + 1). rewrite replace_v_py_str. apply Hround. }
    destruct Hparse as [n Hn].
    destruct (Hnum r n Hr Hn) as (m & Hlt & Hm).
    rewrite Heq, Hm, replace_v_py_str, Hround in Hn.
    injection Hn as Hn. lia.
Qed.

(** After v1, v2 and v3 the next version is v4. *)
Lemma next_version_is_fresh_witness :
  get_next_version decimal_int three_versions_world = "v4" /\
  (model_registry (db three_versions_world) = [] ->
   get_next_version decimal_int three_versions_world = "v1") /\
  (forall r, In r (model_registry (db three_versions_world)) ->
             mr_model_version r <> get_next_version decimal_int three_versions_world) /\
  (forall r n,
     In r (model_registry (db three_versions_world)) ->
     decimal_int (str_replace "v" "" (mr_model_version r)) = Some n ->
     exists m, n < m /\
       get_next_version decimal_int three_versions_world = "v" ++ py_str m).
Proof.
  split; [vm_compute; reflexivity|].
  refine (next_version_is_fresh decimal_int three_versions_world _).
  intros n. unfold decimal_int, py_str.
  rewrite NilEmpty.isi, DecimalZ.of_to. reflexivity.
Defined.

(** Versions that do not parse are skipped, and with none that parses the
    answer is "v1" again. *)
Lemma next_version_without_numbers (py_int : string -> option Z) (w : World) :
  (forall r, In r (model_registry (db w)) ->
             py_int (str_replace "v" "" (mr_model_version r)) = None) ->
  get_next_version py_int w = "v1".
Proof.
  intros H. unfold get_next_version.
  destruct (model_registry (db w)) as [|r0 l] eqn:E; [reflexivity|].
  assert (Hnone : version_numbers py_int (map mr_model_version (r0 :: l)) = []).
  { revert H. generalize (r0 :: l). intros rows H.
    induction rows as [|x rows IH]; [reflexivity|].
    cbn [map version_numbers]. rewrite (H x (or_introl eq_refl)).
    apply IH. intros r Hr. apply H. right. exact Hr. }
  rewrite Hnone. reflexivity.
Qed.


(** ** Ingestion keeps the raw tables append-only *)

Lemma filter_date_nil_not_in (rows : list RawPetrolPrice) (date : Z) :
  List.filter (fun r => rpp_date r =? date) rows = [] ->
  ~ In date (map rpp_date rows).
Proof.
  intros H Hin. apply in_map_iff in Hin as (r & Hr & Hin).
  assert (Hf : In r (List.filter (fun r => rpp_date r =? date) rows)).
  { apply filter_In. split; [exact Hin | apply Z.eqb_eq, Hr]. }
  rewrite H in Hf. destruct Hf.
Qed.

(** X15. A single price ingestion never changes or deletes a stored row: the
    price table afterwards is the table before, followed by one new row when
    the call returned true and by nothing when it returned false; it returns
    true exactly when the date was absent and the price is not null; the new
    row holds the date, the price when it is given with at most two decimals
    (the scale of the column), and the source given, or the column default
    'web_scraper' for a source of [None]; dates that were unique stay
    unique; and no other table is touched. *)
Theorem ingest_petrol_price_appends_only (date : Z) (price : option Q)
  (source : option string) (w : World) :
  let result := ingest_petrol_price date price source w in
  (fst result = true <->
   ~ In date (map rpp_date (raw_petrol_prices (db w))) /\ price <> None) /\
  (fst result = false -> snd result = w) /\
  (fst result = true ->
   exists new_record,
     raw_petrol_prices (db (snd result)) =
       (raw_petrol_prices (db w) ++ [new_record])%list /\
     rpp_date new_record = date /\
     (optional_at_scale 2 price = true ->
      Some (rpp_petrol_price new_record) = price) /\
     rpp_source new_record = column_default "web_scraper" source) /\
  (List.NoDup (map rpp_date (raw_petrol_prices (db w))) ->
   List.NoDup (map rpp_date (raw_petrol_prices (db (snd result))))) /\
  raw_exogenous_data (db (snd result)) = raw_exogenous_data (db w) /\
  processed_features (db (snd result)) = processed_features (db w) /\
  model_registry (db (snd result)) = model_registry (db w) /\
  prediction_logs (db (snd result)) = prediction_logs (db w).
Proof.
  cbv zeta.
  destruct (List.filter (fun r => rpp_date r =? date) (raw_petrol_prices (db w)))
    as [|r rest] eqn:Hfound.
  - pose proof (filter_date_nil_not_in _ _ Hfound) as Hnot.
    destruct price as [p|].
    + destruct (ingest_petrol_price_new date p source w Hfound)
        as (new_record & Hd & Hp & Hs & Hok & Hrows).
      unfold ingest_petrol_price, insert_raw_petrol_price in *.
      rewrite Hfound, (filter_nil_existsb _ _ Hfound) in *.
      cbn [first head bind ret fst snd db with_db raw_petrol_prices
           raw_exogenous_data processed_features model_registry prediction_logs] in *.
      split; [split; [intros _; split; [exact Hnot | discriminate] | reflexivity]|].
      split; [discriminate|].
      split.
      { intros _. eexists. split; [reflexivity|]. repeat split. }
      split; [|repeat split].
      intros Hunique. rewrite map_app. cbn [map rpp_date].
      apply NoDup_snoc; assumption.
    + unfold ingest_petrol_price, insert_raw_petrol_price.
      rewrite Hfound. cbn [first head bind raise fst snd].
      split; [split; [discriminate | intros [_ H]; congruence]|].
      split; [reflexivity|]. split; [discriminate|].
      split; [auto | repeat split].
  - rewrite (ingest_petrol_price_existing date price source w r rest Hfound).
    cbn [fst snd].
    split.
    { split; [discriminate|]. intros [Hnot _]. exfalso. apply Hnot.
      assert (Hin : In r (List.filter (fun r => rpp_date r =? date)
                            (raw_petrol_prices (db w))))
        by (rewrite Hfound; left; reflexivity).
      apply filter_In in Hin as [Hin Hd]. apply Z.eqb_eq in Hd.
      rewrite <- Hd. apply in_map, Hin. }
    split; [reflexivity|]. split; [discriminate|].
    split; [auto | repeat split].
Qed.

(** X16. A date that has been ingested is no longer reported missing, whether
    the call inserted it or found it present, and the answer for every other
    date is as before. *)
Theorem ingested_date_is_not_missing (date : Z) (price : Q)
  (source : option string) (start_date end_date : Z) (w : World) :
  let w' := snd (ingest_petrol_price date (Some price) source w) in
  ~ In date (get_missing_dates RawPetrolPriceTable start_date end_date w') /\
  forall d, d <> date ->
    (In d (get_missing_dates RawPetrolPriceTable start_date end_date w') <->
     In d (get_missing_dates RawPetrolPriceTable start_date end_date w)).
Proof.
  cbv zeta.
  destruct ((start_date <=? end_date) && (MAXORDINAL <=? end_date)) eqn:Hoverflow.
  { unfold get_missing_dates. rewrite Hoverflow.
    split; [intros [] | intros; reflexivity]. }
  assert (Hdates : forall d,
            In d (table_dates RawPetrolPriceTable
                    (snd (ingest_petrol_price date (Some price) source w))) <->
            In d (table_dates RawPetrolPriceTable w) \/ d = date).
  { intros d. cbn [table_dates].
    destruct (List.filter (fun r => rpp_date r =? date) (raw_petrol_prices (db w)))
      as [|r rest] eqn:Hfound.
    - destruct (ingest_petrol_price_new date price source w Hfound)
        as (new_record & Hd & _ & _ & _ & Hrows).
      rewrite Hrows, map_app, in_app_iff. cbn [map In]. rewrite Hd. intuition.
    - rewrite (ingest_petrol_price_existing date (Some price) source w r rest Hfound).
      cbn [snd]. split; [auto|]. intros [H | ->]; [exact H|].
      assert (Hin : In r (List.filter (fun r => rpp_date r =? date)
                            (raw_petrol_prices (db w))))
        by (rewrite Hfound; left; reflexivity).
      apply filter_In in Hin as [Hin Hd]. apply Z.eqb_eq in Hd.
      rewrite <- Hd. apply in_map, Hin. }
  assert (Hmissing : forall w0 d,
            In d (get_missing_dates RawPetrolPriceTable start_date end_date w0) <->
            In d (all_dates start_date end_date) /\
            ~ (In d (table_dates RawPetrolPriceTable w0) /\
               start_date <= d <= end_date)).
  { intros w0 d. unfold get_missing_dates. rewrite Hoverflow, filter_In.
    apply and_iff_compat_l. rewrite negb_true_iff, <- not_true_iff_false.
    apply not_iff_compat. rewrite existsb_exists. split.
    - intros (x & Hx & Heq). apply Z.eqb_eq in Heq. subst x.
      apply filter_In in Hx as [Hx Hr]. split; [exact Hx | lia].
    - intros [Hx Hr]. exists d. split; [|apply Z.eqb_refl].
      apply filter_In. split; [exact Hx | lia]. }
  split.
  - rewrite Hmissing. intros [Hall Hnot]. apply Hnot. split.
    + apply Hdates. right. reflexivity.
    + clear -Hall. unfold all_dates in Hall.
      assert (Hgen : forall n s, In date (dates_from n s) ->
                                 s <= date < s + Z.of_nat n).
      { induction n as [|n IH]; intros s H; [destruct H|].
        cbn [dates_from] in H. destruct H as [<- | H]; [lia|].
        specialize (IH (s + 1) H). lia. }
      specialize (Hgen _ _ Hall). lia.
  - intros d Hne. rewrite !Hmissing, Hdates. intuition.
Qed.


(** ** Missing dates *)

Lemma dates_from_In (n : nat) (s d : Z) :
  In d (dates_from n s) <-> s <= d < s + Z.of_nat n.
Proof.
  revert s. induction n as [|n IH]; intros s; cbn [dates_from In]; [lia|].
  rewrite IH. lia.
Qed.

Lemma dates_from_sorted (n : nat) (s : Z) : StronglySorted Z.lt (dates_from n s).
Proof.
  revert s. induction n as [|n IH]; intros s; cbn [dates_from]; constructor;
    [apply IH|].
  apply List.Forall_forall. intros d Hd. apply dates_from_In in Hd. lia.
Qed.

Lemma filter_StronglySorted {A : Type} (R : A -> A -> Prop) (p : A -> bool)
  (l : list A) :
  StronglySorted R l -> StronglySorted R (List.filter p l).
Proof.
  induction 1 as [|x l _ IH Hx]; cbn [List.filter]; [constructor|].
  destruct (p x); [|exact IH]. constructor; [exact IH|].
  rewrite List.Forall_forall in *. intros y Hy.
  apply filter_In in Hy. apply Hx, Hy.
Qed.

(** X17. The gap search returns the days of the closed range
    [start_date .. end_date] for which the table has no row, each once and
    in ascending order, provided the range ends before 9999-12-31 or is
    empty; a range that ends before it starts has none; and a non-empty
    range that ends on 9999-12-31, the last day a date can hold, gives the
    empty list whatever the table holds. *)
Theorem missing_dates_are_the_gaps (table_model : TableModel)
  (start_date end_date : Z) (w : World) :
  let missing := get_missing_dates table_model start_date end_date w in
  (end_date < MAXORDINAL \/ end_date < start_date ->
   forall d, In d missing <->
             start_date <= d <= end_date /\ ~ In d (table_dates table_model w)) /\
  StronglySorted Z.lt missing /\
  (end_date < start_date -> missing = []) /\
  (start_date <= end_date -> MAXORDINAL <= end_date -> missing = []).
Proof.
  cbv zeta. unfold get_missing_dates, all_dates.
  destruct (Z.leb_spec start_date end_date) as [Hle | Hgt];
    destruct (Z.leb_spec MAXORDINAL end_date) as [Hmax | Hlt]; cbn [andb].
  - split; [intros [H | H]; lia|]. split; [constructor|].
    split; intros; reflexivity.
  - split; [|split; [|split]].
    + intros _ d. rewrite filter_In, dates_from_In.
      rewrite negb_true_iff, <- not_true_iff_false, existsb_exists.
      split.
      * intros [Hr Hnot]. split; [lia|]. intros Hin. apply Hnot.
        exists d. split; [|apply Z.eqb_refl].
        apply filter_In. split; [exact Hin | lia].
      * intros [Hr Hnot]. split; [lia|]. intros (x & Hx & Heq).
        apply Z.eqb_eq in Heq. subst x. apply filter_In in Hx. tauto.
    + apply filter_StronglySorted, dates_from_sorted.
    + intros H. lia.
    + intros _ H. lia.
  - replace (Z.to_nat (end_date - start_date + 1)) with 0%nat by lia.
    cbn [dates_from List.filter].
    split; [intros _ d; split; [intros [] | intros [H _]; lia]|].
    split; [constructor|]. split; [reflexivity | intros H; lia].
  - replace (Z.to_nat (end_date - start_date + 1)) with 0%nat by lia.
    cbn [dates_from List.filter].
    split; [intros _ d; split; [intros [] | intros [H _]; lia]|].
    split; [constructor|]. split; [reflexivity | intros H; lia].
Qed.

(** ** Exogenous data ingestion *)

Lemma ingest_macro_data_existing (date : Z) (crude_oil_price inr_usd : option Q)
  (source : option string) (w : World) (r : RawExogenousData)
  (rest : list RawExogenousData) :
  List.filter (fun r => red_date r =? date) (raw_exogenous_data (db w)) = r :: rest ->
  ingest_macro_data date crude_oil_price inr_usd source w = (false, w).
Proof.
  intros H. unfold ingest_macro_data. rewrite H. cbn [first head ret].
  rewrite with_db_same. reflexivity.
Qed.

Lemma ingest_macro_data_new (date : Z) (crude_oil_price inr_usd : option Q)
  (source : option string) (w : World) :
  List.filter (fun r => red_date r =? date) (raw_exogenous_data (db w)) = [] ->
  ingest_macro_data date crude_oil_price inr_usd source w =
  (true,
   with_db w
     {| raw_petrol_prices := raw_petrol_prices (db w);
        raw_exogenous_data :=
          (raw_exogenous_data (db w) ++
           [ {| red_id := next_id red_id (raw_exogenous_data (db w));
                red_date := date;
                red_crude_oil_price := crude_oil_price;
                red_inr_usd := inr_usd;
                red_source := column_default "yahoo_finance" source;
                red_created_at := now w |} ])%list;
        processed_features := processed_features (db w);
        model_registry := model_registry (db w);
        prediction_logs := prediction_logs (db w) |}).
Proof.
  intros H. unfold ingest_macro_data, insert_raw_exogenous_data.
  rewrite H, (filter_nil_existsb _ _ H). reflexivity.
Qed.

(** X18. Exogenous ingestion is first-write-wins: for a date without a row the
    first call returns true and stores one row, which holds each signal as
    given, null or not, when it has no more decimals than its column (two
    for the crude oil price, four for the exchange rate), and the source
    given, or the column default 'yahoo_finance' for a source of [None]; any
    later call for the date returns false and leaves the store as it is, so
    the stored row is never updated. *)
Theorem ingest_macro_data_first_write_wins (date : Z)
  (crude_oil_price inr_usd crude_oil_price' inr_usd' : option Q)
  (source source' : option string) (w : World) :
  ~ In date (map red_date (raw_exogenous_data (db w))) ->
  let first_call := ingest_macro_data date crude_oil_price inr_usd source w in
  let second_call :=
    ingest_macro_data date crude_oil_price' inr_usd' source' (snd first_call) in
  fst first_call = true /\
  fst second_call = false /\
  snd second_call = snd first_call /\
  exists stored,
    List.filter (fun r => red_date r =? date)
      (raw_exogenous_data (db (snd second_call))) = [stored] /\
    (optional_at_scale 2 crude_oil_price = true ->
     red_crude_oil_price stored = crude_oil_price) /\
    (optional_at_scale 4 inr_usd = true -> red_inr_usd stored = inr_usd) /\
    red_source stored = column_default "yahoo_finance" source.
Proof.
  intros Hnew. cbv zeta.
  assert (Hnone : List.filter (fun r => red_date r =? date)
                    (raw_exogenous_data (db w)) = []).
  { apply existsb_false_filter_nil, not_true_is_false. intros H.
    apply existsb_exists in H as (r & Hr & Hd). apply Z.eqb_eq in Hd.
    apply Hnew. rewrite <- Hd. apply in_map, Hr. }
  rewrite (ingest_macro_data_new date crude_oil_price inr_usd source w Hnone).
  cbn [fst snd].
  match goal with
  | |- context [ingest_macro_data _ _ _ _ ?w1] =>
      assert (Hfound : exists stored,
                List.filter (fun r => red_date r =? date)
                  (raw_exogenous_data (db w1)) = [stored] /\
                (optional_at_scale 2 crude_oil_price = true ->
                 red_crude_oil_price stored = crude_oil_price) /\
                (optional_at_scale 4 inr_usd = true -> red_inr_usd stored = inr_usd) /\
                red_source stored = column_default "yahoo_finance" source)
  end.
  { cbn [db with_db raw_exogenous_data].
    rewrite List.filter_app, Hnone. cbn [List.filter app red_date].
    rewrite Z.eqb_refl. eexists. split; [reflexivity|]. repeat split. }
  destruct Hfound as (stored & Hfound & Hvalues).
  rewrite (ingest_macro_data_existing date crude_oil_price' inr_usd' source' _
             stored [] Hfound).
  cbn [fst snd]. repeat split. exists stored. split; [exact Hfound | exact Hvalues].
Qed.

(** Crude oil and exchange rate of 2024-06-15 ingested, then a second feed
    for the same day with other values. *)
Lemma ingest_macro_data_first_write_wins_witness :
  let first_call :=
    ingest_macro_data 739052 (Some (81 # 1)%Q) None (Some "yahoo_finance") empty_world in
  let second_call :=
    ingest_macro_data 739052 (Some (90 # 1)%Q) (Some (167 # 2)%Q)
      (Some "file_upload") (snd first_call) in
  fst first_call = true /\
  fst second_call = false /\
  snd second_call = snd first_call /\
  exists stored,
    List.filter (fun r => red_date r =? 739052)
      (raw_exogenous_data (db (snd second_call))) = [stored] /\
    (optional_at_scale 2 (Some (81 # 1)%Q) = true ->
     red_crude_oil_price stored = Some (81 # 1)%Q) /\
    (optional_at_scale 4 None = true -> red_inr_usd stored = None) /\
    red_source stored = Some "yahoo_finance".
Proof.
  refine (ingest_macro_data_first_write_wins 739052 (Some (81 # 1)%Q) None
            (Some (90 # 1)%Q) (Some (167 # 2)%Q) (Some "yahoo_finance")
            (Some "file_upload") empty_world _).
  intros [].
Defined.


(** ** Batch ingestion *)

Lemma ingest_petrol_price_cases (date : Z) (price : option Q)
  (source : option string) (w : World) :
  ingest_petrol_price date price source w = (false, w) \/
  exists new_record,
    ~ In date (map rpp_date (raw_petrol_prices (db w))) /\
    rpp_date new_record = date /\
    fst (ingest_petrol_price date price source w) = true /\
    raw_petrol_prices (db (snd (ingest_petrol_price date price source w))) =
      (raw_petrol_prices (db w) ++ [new_record])%list /\
    raw_exogenous_data (db (snd (ingest_petrol_price date price source w))) =
      raw_exogenous_data (db w).
Proof.
  destruct (List.filter (fun r => rpp_date r =? date) (raw_petrol_prices (db w)))
    as [|r rest] eqn:Hfound.
  - destruct price as [p|].
    + right.
      destruct (ingest_petrol_price_new date p source w Hfound)
        as (new_record & Hd & _ & _ & Hok & Hrows).
      exists new_record.
      split; [apply filter_date_nil_not_in, Hfound|].
      split; [exact Hd|]. split; [exact Hok|]. split; [exact Hrows|].
      unfold ingest_petrol_price, insert_raw_petrol_price.
      rewrite Hfound, (filter_nil_existsb _ _ Hfound). reflexivity.
    + left. unfold ingest_petrol_price, insert_raw_petrol_price.
      rewrite Hfound. reflexivity.
  - left. apply (ingest_petrol_price_existing date price source w r rest Hfound).
Qed.

Lemma ingest_macro_data_cases (date : Z) (crude_oil_price inr_usd : option Q)
  (source : option string) (w : World) :
  ingest_macro_data date crude_oil_price inr_usd source w = (false, w) \/
  exists new_record,
    ~ In date (map red_date (raw_exogenous_data (db w))) /\
    red_date new_record = date /\
    fst (ingest_macro_data date crude_oil_price inr_usd source w) = true /\
    raw_exogenous_data
      (db (snd (ingest_macro_data date crude_oil_price inr_usd source w))) =
      (raw_exogenous_data (db w) ++ [new_record])%list /\
    raw_petrol_prices
      (db (snd (ingest_macro_data date crude_oil_price inr_usd source w))) =
      raw_petrol_prices (db w).
Proof.
  destruct (List.filter (fun r => red_date r =? date) (raw_exogenous_data (db w)))
    as [|r rest] eqn:Hfound.
  - right. rewrite (ingest_macro_data_new date crude_oil_price inr_usd source w Hfound).
    eexists. split.
    { intros Hin. apply in_map_iff in Hin as (r & Hr & Hin).
      assert (Hf : In r (List.filter (fun r => red_date r =? date)
                           (raw_exogenous_data (db w)))).
      { apply filter_In. split; [exact Hin | apply Z.eqb_eq, Hr]. }
      rewrite Hfound in Hf. destruct Hf. }
    cbn [fst snd db with_db raw_exogenous_data raw_petrol_prices].
    split; [|split; [reflexivity | split; reflexivity]]. reflexivity.
  - left. apply (ingest_macro_data_existing date crude_oil_price inr_usd source w
                   r rest Hfound).
Qed.

(** What a counting loop does to the two raw tables, for a step that either
    changes nothing or appends one new-dated row to the table [dates] reads
    and leaves the table [others] reads alone. *)
Lemma ingest_rows_effect {T U : Type} (table : World -> list T) (key : T -> Z)
  (other : World -> list U)
  (step : gmap string Value -> World -> bool * World)
  (rows : list (gmap string Value)) :
  (forall row w,
     step row w = (false, w) \/
     exists new_record,
       ~ In (key new_record) (map key (table w)) /\
       fst (step row w) = true /\
       table (snd (step row w)) = (table w ++ [new_record])%list /\
       other (snd (step row w)) = other w) ->
  forall (i d : nat) (w : World),
    let '(i', d', w') := ingest_rows step rows i d w in
    (i' + d' = i + d + length rows)%nat /\
    (exists added,
       table w' = (table w ++ added)%list /\ (i' = i + length added)%nat) /\
    other w' = other w /\
    (List.NoDup (map key (table w)) -> List.NoDup (map key (table w'))).
Proof.
  intros Hstep. induction rows as [|row rows IH]; intros i d w.
  - cbn [ingest_rows length]. split; [lia|].
    split; [exists []; rewrite app_nil_r; split; [reflexivity | cbn; lia]|].
    split; [reflexivity | auto].
  - cbn [ingest_rows]. destruct (Hstep row w) as [Hsame | (r & Hnew & Hok & Htable & Hother)].
    + rewrite Hsame. specialize (IH i (S d) w).
      destruct (ingest_rows step rows i (S d) w) as [[i' d'] w'].
      destruct IH as (Hsum & Hadd & Ho & Hnd).
      cbn [length]. split; [lia|]. repeat split; assumption.
    + destruct (step row w) as [ok w1] eqn:Hs. cbn [fst snd] in *. subst ok.
      specialize (IH (S i) d w1).
      destruct (ingest_rows step rows (S i) d w1) as [[i' d'] w'].
      destruct IH as (Hsum & (added & Hadd & Hi) & Ho & Hnd).
      cbn [length]. split; [lia|].
      split.
      { exists (r :: added). rewrite Hadd, Htable, <- app_assoc.
        split; [reflexivity | cbn [length]; lia]. }
      split; [congruence|].
      intros Hunique. apply Hnd. rewrite Htable, map_app. cbn [map].
      apply NoDup_snoc; assumption.
Qed.

Lemma ingest_petrol_rows_effect (df : DataFrame) (rows : list (gmap string Value))
  (i d : nat) (w : World) :
  let '(i', d', w') := ingest_rows (ingest_petrol_row df) rows i d w in
  (i' + d' = i + d + length rows)%nat /\
  (exists added,
     raw_petrol_prices (db w') = (raw_petrol_prices (db w) ++ added)%list /\
     (i' = i + length added)%nat) /\
  raw_exogenous_data (db w') = raw_exogenous_data (db w) /\
  (List.NoDup (map rpp_date (raw_petrol_prices (db w))) ->
   List.NoDup (map rpp_date (raw_petrol_prices (db w')))).
Proof.
  apply (ingest_rows_effect (fun w => raw_petrol_prices (db w)) rpp_date
           (fun w => raw_exogenous_data (db w))).
  intros row w0. unfold ingest_petrol_row.
  destruct (as_date (cell row "date")) as [date|]; [|left; reflexivity].
  destruct (ingest_petrol_price_cases date (as_number (cell row "petrol_price"))
              (row_source df row) w0) as [H | (r & Hnew & Hd & Hok & Ht & Ho)];
    [left; exact H|].
  right. exists r. rewrite Hd. repeat split; assumption.
Qed.

Lemma ingest_macro_rows_effect (df : DataFrame) (rows : list (gmap string Value))
  (i d : nat) (w : World) :
  let '(i', d', w') := ingest_rows (ingest_macro_row df) rows i d w in
  (i' + d' = i + d + length rows)%nat /\
  (exists added,
     raw_exogenous_data (db w') = (raw_exogenous_data (db w) ++ added)%list /\
     (i' = i + length added)%nat) /\
  raw_petrol_prices (db w') = raw_petrol_prices (db w) /\
  (List.NoDup (map red_date (raw_exogenous_data (db w))) ->
   List.NoDup (map red_date (raw_exogenous_data (db w')))).
Proof.
  apply (ingest_rows_effect (fun w => raw_exogenous_data (db w)) red_date
           (fun w => raw_petrol_prices (db w))).
  intros row w0. unfold ingest_macro_row.
  destruct (as_date (cell row "date")) as [date|]; [|left; reflexivity].
  destruct (ingest_macro_data_cases date (as_number (cell row "crude_oil_price"))
              (as_number (cell row "inr_usd")) (row_source df row) w0)
    as [H | (r & Hnew & Hd & Hok & Ht & Ho)]; [left; exact H|].
  right. exists r. rewrite Hd. repeat split; assumption.
Qed.

(** X19. A petrol upload is accounted for row by row: every row of the frame is
    counted once, as inserted or as duplicate; the price table grows by
    exactly the inserted count, by appending; the exogenous table is left
    alone; unique dates stay unique. The call raises, storing nothing,
    exactly when the frame has rows and lacks the date or the price
    column. *)
Theorem petrol_upload_is_accounted_for (df : DataFrame) (w : World) :
  (df_rows df <> [] ->
   has_column df "date" = false \/ has_column df "petrol_price" = false ->
   ingest_from_dataframe df "petrol" w = (RaisedNameError, w)) /\
  match ingest_from_dataframe df "petrol" w with
  | (Counted c, w') =>
      total c = len df /\
      (inserted c + duplicates c = total c)%nat /\
      (exists added,
         raw_petrol_prices (db w') = (raw_petrol_prices (db w) ++ added)%list /\
         length added = inserted c) /\
      raw_exogenous_data (db w') = raw_exogenous_data (db w) /\
      (List.NoDup (map rpp_date (raw_petrol_prices (db w))) ->
       List.NoDup (map rpp_date (raw_petrol_prices (db w'))))
  | (RaisedNameError, w') =>
      w' = w /\ df_rows df <> [] /\
      (has_column df "date" = false \/ has_column df "petrol_price" = false)
  end.
Proof.
  unfold ingest_from_dataframe. cbn [String.eqb Ascii.eqb Bool.eqb].
  split.
  { intros Hrows Hcols. destruct (df_rows df); [contradiction|].
    destruct Hcols as [-> | ->]; [reflexivity|].
    rewrite andb_false_r. reflexivity. }
  destruct (df_rows df) as [|row rows] eqn:Hrows.
  - cbn [counted inserted duplicates total]. unfold len. rewrite Hrows.
    repeat split; auto. exists []. rewrite app_nil_r. split; reflexivity.
  - destruct (has_column df "date") eqn:Hdate;
      [destruct (has_column df "petrol_price") eqn:Hprice|]; cbn [andb].
    + pose proof (ingest_petrol_rows_effect df (row :: rows) 0 0 w) as H.
      destruct (ingest_rows (ingest_petrol_row df) (row :: rows) 0 0 w)
        as [[i d] w'].
      destruct H as (Hsum & (added & Hadd & Hi) & Ho & Hnd).
      cbn [counted inserted duplicates total]. unfold len. rewrite Hrows.
      split; [reflexivity|]. split; [lia|].
      split; [exists added; split; [exact Hadd | lia]|].
      split; assumption.
    + split; [reflexivity|]. split; [discriminate | right; reflexivity].
    + split; [reflexivity|]. split; [discriminate | left; reflexivity].
Qed.

(** X20. The same for a macro upload, on the exogenous table; and any other
    data type stores nothing and reports zero inserted and zero duplicates
    against the full row count. *)
Theorem macro_upload_is_accounted_for (df : DataFrame) (data_type : string)
  (w : World) :
  match ingest_from_dataframe df "macro" w with
  | (Counted c, w') =>
      total c = len df /\
      (inserted c + duplicates c = total c)%nat /\
      (exists added,
         raw_exogenous_data (db w') = (raw_exogenous_data (db w) ++ added)%list /\
         length added = inserted c) /\
      raw_petrol_prices (db w') = raw_petrol_prices (db w) /\
      (List.NoDup (map red_date (raw_exogenous_data (db w))) ->
       List.NoDup (map red_date (raw_exogenous_data (db w'))))
  | (RaisedNameError, w') =>
      w' = w /\ df_rows df <> [] /\ has_column df "date" = false
  end /\
  (String.eqb data_type "petrol" = false ->
   String.eqb data_type "macro" = false ->
   ingest_from_dataframe df data_type w = (counted (len df) 0 0, w)).
Proof.
  split.
  - unfold ingest_from_dataframe. cbn [String.eqb Ascii.eqb Bool.eqb].
    destruct (df_rows df) as [|row rows] eqn:Hrows.
    + cbn [counted inserted duplicates total]. unfold len. rewrite Hrows.
      repeat split; auto. exists []. rewrite app_nil_r. split; reflexivity.
    + destruct (has_column df "date") eqn:Hdate.
      * pose proof (ingest_macro_rows_effect df (row :: rows) 0 0 w) as H.
        destruct (ingest_rows (ingest_macro_row df) (row :: rows) 0 0 w)
          as [[i d] w'].
        destruct H as (Hsum & (added & Hadd & Hi) & Ho & Hnd).
        cbn [counted inserted duplicates total]. unfold len. rewrite Hrows.
        split; [reflexivity|]. split; [lia|].
        split; [exists added; split; [exact Hadd | lia]|].
        split; assumption.
      * split; [reflexivity|]. split; [discriminate | reflexivity].
  - intros H1 H2. unfold ingest_from_dataframe. rewrite H1, H2. reflexivity.
Qed.


(** ** Extraction: the left join *)

Lemma column_set_column_eq (df : DataFrame) (c : string) (values : list Value) :
  length values = len df -> column (set_column df c values) c = values.
Proof.
  unfold column, set_column, len. cbn [df_rows].
  generalize (df_rows df). intros rows. revert values.
  induction rows as [|r rows IH]; intros [|v values] Hlen; try discriminate;
    cbn [zip_with map]; [reflexivity|].
  rewrite cell_insert_eq. f_equal. apply IH. cbn in Hlen. lia.
Qed.

Lemma find_head_filter {A : Type} (p : A -> bool) (l : list A) :
  find p l = head (List.filter p l).
Proof.
  induction l as [|x l IH]; cbn [find List.filter]; [reflexivity|].
  destruct (p x); [reflexivity | exact IH].
Qed.

Lemma filter_map_swap {A B : Type} (f : A -> B) (p : B -> bool) (l : list A) :
  List.filter p (map f l) = map f (List.filter (fun x => p (f x)) l).
Proof.
  induction l as [|x l IH]; cbn [map List.filter]; [reflexivity|].
  destruct (p (f x)); cbn [map]; rewrite IH; reflexivity.
Qed.

Lemma NoDup_map_filter {A B : Type} (key : A -> B) (p : A -> bool) (l : list A) :
  List.NoDup (map key l) -> List.NoDup (map key (List.filter p l)).
Proof.
  induction l as [|x l IH]; cbn [map List.filter]; [auto|].
  intros H. apply List.NoDup_cons_iff in H as [Hx Hl].
  destruct (p x); [|apply IH, Hl].
  cbn [map]. apply List.NoDup_cons_iff. split; [|apply IH, Hl].
  intros Hin. apply Hx. apply in_map_iff in Hin as (y & Hy & Hin).
  apply filter_In in Hin as [Hin _]. rewrite <- Hy. apply in_map, Hin.
Qed.

Lemma filter_unique_date {A : Type} (key : A -> Z) (d : Z) (l : list A) :
  List.NoDup (map key l) ->
  (length (List.filter (fun r => Z.eqb d (key r)) l) <= 1)%nat.
Proof.
  induction l as [|x l IH]; cbn [map List.filter length]; [lia|].
  intros H. apply List.NoDup_cons_iff in H as [Hx Hl].
  destruct (Z.eqb_spec d (key x)) as [Hd | _]; [|apply IH, Hl].
  cbn [length].
  assert (Hnone : List.filter (fun r => d =? key r) l = []).
  { apply existsb_false_filter_nil, not_true_is_false. intros H.
    apply existsb_exists in H as (y & Hy & Hyd). apply Z.eqb_eq in Hyd.
    apply Hx. rewrite <- Hd, Hyd. apply in_map, Hy. }
  rewrite Hnone. cbn. lia.
Qed.

Lemma flat_map_map_singletons {A B C : Type} (F : B -> list C) (h : A -> B)
  (G : A -> C) (l : list A) :
  (forall x, F (h x) = [G x]) -> flat_map F (map h l) = map G l.
Proof.
  intros H. induction l as [|x l IH]; cbn [map flat_map]; [reflexivity|].
  rewrite H, IH. reflexivity.
Qed.

(** The columns of the frame [extract_raw_data] builds from the two query
    results, row for row. *)
Lemma extract_raw_data_columns (start_date end_date : option Z)
  (source_filter : string) (w : World) :
  List.NoDup (map red_date (raw_exogenous_data (db w))) ->
  let petrol :=
    List.filter (fun p => in_range start_date end_date (rpp_date p)
                          && source_matches source_filter (rpp_source p))
      (raw_petrol_prices (db w)) in
  let macro :=
    List.filter (fun m => in_range start_date end_date (red_date m)
                          && source_matches source_filter (red_source m))
      (raw_exogenous_data (db w)) in
  let joined (f : RawExogenousData -> option Q) (p : RawPetrolPrice) : Value :=
    match find (fun m => rpp_date p =? red_date m) macro with
    | Some m => opt_num (float_if_truthy (f m))
    | None => VNone
    end in
  let df := extract_raw_data start_date end_date source_filter w in
  len df = length petrol /\
  column df "date" = map (fun p => VDate (rpp_date p)) petrol /\
  column df "petrol_price" = map (fun p => VNum (rpp_petrol_price p)) petrol /\
  column df "source" = map (fun p => opt_str (rpp_source p)) petrol /\
  column df "crude_oil_price" = map (joined red_crude_oil_price) petrol /\
  column df "inr_usd" = map (joined red_inr_usd) petrol.
Proof.
  intros Hunique. cbv zeta. unfold extract_raw_data.
  set (petrol := List.filter _ (raw_petrol_prices (db w))).
  set (macro := List.filter _ (raw_exogenous_data (db w))).
  assert (Hmacro : List.NoDup (map red_date macro))
    by (apply NoDup_map_filter, Hunique).
  clearbody petrol macro. clear Hunique.
  destruct petrol as [|p0 petrol]; [repeat split|].
  cbn [map from_records df_empty df_rows df_columns].
  destruct macro as [|m0 macro].
  - cbn [map from_records]. change (negb (df_empty empty_frame)) with false.
    cbv iota. cbn [find].
    set (base := select _ ["date"; "petrol_price"; "source"]).
    assert (Hbase : len base = S (length petrol)).
    { unfold base, select, len. cbn [df_rows]. rewrite length_map.
      cbn [length]. rewrite length_map. reflexivity. }
    assert (Hconst : forall (l : list RawPetrolPrice),
              map (fun _ : RawPetrolPrice => VNone) l = replicate (length l) VNone).
    { induction l as [|x l IH]; [reflexivity|].
      cbn [map length replicate]. rewrite IH. reflexivity. }
    rewrite !(Hconst petrol). cbn [length].
    unfold set_column_scalar.
    split.
    { rewrite !len_set_column by (rewrite length_replicate; reflexivity).
      exact Hbase. }
    repeat split;
      repeat (rewrite column_set_column_ne
                by (try discriminate; rewrite length_replicate; reflexivity));
      try (rewrite column_set_column_eq by (rewrite length_replicate; reflexivity));
      rewrite ?len_set_column by (rewrite length_replicate; reflexivity);
      rewrite ?Hbase; try reflexivity;
      unfold base, column, select; cbn [df_rows map]; rewrite !map_map;
      f_equal; apply map_ext; intros p; reflexivity.
  - cbn [map from_records df_empty df_rows df_columns negb].
    assert (Hrows :
      df_rows (merge_left
                 (select {| df_columns := ["id"; "date"; "petrol_price"; "source"; "created_at"];
                            df_rows := map RawPetrolPrice_to_dict (p0 :: petrol) |}
                    ["date"; "petrol_price"; "source"])
                 (select {| df_columns := ["id"; "date"; "crude_oil_price"; "inr_usd";
                                           "source"; "created_at"];
                            df_rows := map RawExogenousData_to_dict (m0 :: macro) |}
                    ["date"; "crude_oil_price"; "inr_usd"]) "date") =
      map (fun p =>
             let l := list_to_map
                        (map (fun c => (c, cell (RawPetrolPrice_to_dict p) c))
                           ["date"; "petrol_price"; "source"]) in
             match find (fun m => rpp_date p =? red_date m) (m0 :: macro) with
             | Some m =>
                 <["inr_usd" := opt_num (float_if_truthy (red_inr_usd m))]>
                   (<["crude_oil_price" :=
                        opt_num (float_if_truthy (red_crude_oil_price m))]> l)
             | None => <["inr_usd" := VNone]> (<["crude_oil_price" := VNone]> l)
             end)
        (p0 :: petrol)).
    { unfold merge_left, select. cbn [df_rows df_columns].
      generalize (p0 :: petrol). intros ps.
      generalize dependent (m0 :: macro). intros ms Hms.
      rewrite (map_map RawPetrolPrice_to_dict).
      apply flat_map_map_singletons. intros p.
      rewrite map_map, filter_map_swap.
      rewrite (List.filter_ext _ (fun m => rpp_date p =? red_date m))
        by (intros m; reflexivity).
      rewrite find_head_filter.
      pose proof (filter_unique_date red_date (rpp_date p) ms Hms) as Hone.
      destruct (List.filter (fun m => rpp_date p =? red_date m) ms) as [|m rest];
        [reflexivity|].
      destruct rest; [reflexivity | cbn [length] in Hone; lia]. }
    change (RawPetrolPrice_to_dict p0 :: map RawPetrolPrice_to_dict petrol)
      with (map RawPetrolPrice_to_dict (p0 :: petrol)).
    change (RawExogenousData_to_dict m0 :: map RawExogenousData_to_dict macro)
      with (map RawExogenousData_to_dict (m0 :: macro)).
    unfold len, column. rewrite Hrows, !length_map, !map_map.
    split; [reflexivity|].
    repeat split;
      match goal with
      | |- _ = ?f p0 :: map ?f petrol => change (f p0 :: map f petrol) with (map f (p0 :: petrol))
      | |- _ = ?v :: map ?f petrol => change (v :: map f petrol) with (map f (p0 :: petrol))
      end;
      apply map_ext; intros p;
      destruct (find (fun m => rpp_date p =? red_date m) (m0 :: macro));
      reflexivity.
Qed.

Lemma map_pair {A B C D : Type} (f1 : A -> C) (f2 : A -> D) (g1 : B -> C)
  (g2 : B -> D) (l : list A) (l' : list B) :
  map f1 l = map g1 l' -> map f2 l = map g2 l' ->
  map (fun x => (f1 x, f2 x)) l = map (fun y => (g1 y, g2 y)) l'.
Proof.
  revert l'. induction l as [|x l IH]; intros [|y l'] H1 H2; try discriminate;
    [reflexivity|].
  cbn [map] in *. injection H1 as Hx1 Hl1. injection H2 as Hx2 Hl2.
  rewrite Hx1, Hx2, (IH l' Hl1 Hl2). reflexivity.
Qed.

(** X21. The left join of [extract_raw_data]. When the exogenous table holds at
    most one row per date, the extracted frame has exactly one row for each
    stored price row that passes the date and provenance filters, with that
    row's date, price and source; its exogenous cells are those of the
    exogenous row of the same date that passes the filters, and are missing
    when there is none. The rows are compared as a collection: the queries
    have no ORDER BY, so their order is the engine's. *)
Theorem extract_is_a_left_join (start_date end_date : option Z)
  (source_filter : string) (w : World) :
  List.NoDup (map red_date (raw_exogenous_data (db w))) ->
  let petrol :=
    List.filter (fun p => in_range start_date end_date (rpp_date p)
                          && source_matches source_filter (rpp_source p))
      (raw_petrol_prices (db w)) in
  let macro :=
    List.filter (fun m => in_range start_date end_date (red_date m)
                          && source_matches source_filter (red_source m))
      (raw_exogenous_data (db w)) in
  let joined (f : RawExogenousData -> option Q) (p : RawPetrolPrice) : Value :=
    match find (fun m => rpp_date p =? red_date m) macro with
    | Some m => opt_num (float_if_truthy (f m))
    | None => VNone
    end in
  let df := extract_raw_data start_date end_date source_filter w in
  len df = length petrol /\
  Permutation
    (map (fun r => (cell r "date", cell r "petrol_price", cell r "source",
                    cell r "crude_oil_price", cell r "inr_usd")) (df_rows df))
    (map (fun p => (VDate (rpp_date p), VNum (rpp_petrol_price p),
                    opt_str (rpp_source p), joined red_crude_oil_price p,
                    joined red_inr_usd p)) petrol).
Proof.
  intros Hunique. cbv zeta.
  destruct (extract_raw_data_columns start_date end_date source_filter w Hunique)
    as (Hlen & Hdate & Hprice & Hsource & Hcrude & Hrate).
  cbv zeta in Hlen, Hdate, Hprice, Hsource, Hcrude, Hrate.
  split; [exact Hlen|].
  unfold column in Hdate, Hprice, Hsource, Hcrude, Hrate.
  pose proof (map_pair _ _ _ _ _ _ Hdate Hprice) as H2.
  pose proof (map_pair _ _ _ _ _ _ H2 Hsource) as H3.
  pose proof (map_pair _ _ _ _ _ _ H3 Hcrude) as H4.
  pose proof (map_pair _ _ _ _ _ _ H4 Hrate) as H5.
  cbv beta in H5. rewrite H5. reflexivity.
Qed.

(** Twenty stored prices, exogenous rows for the first three days. *)
Lemma extract_is_a_left_join_witness :
  let w := ingest_daily_macro 3 738886 twenty_prices_world in
  let petrol :=
    List.filter (fun p => in_range None None (rpp_date p)
                          && source_matches "all" (rpp_source p))
      (raw_petrol_prices (db w)) in
  let macro :=
    List.filter (fun m => in_range None None (red_date m)
                          && source_matches "all" (red_source m))
      (raw_exogenous_data (db w)) in
  let joined (f : RawExogenousData -> option Q) (p : RawPetrolPrice) : Value :=
    match find (fun m => rpp_date p =? red_date m) macro with
    | Some m => opt_num (float_if_truthy (f m))
    | None => VNone
    end in
  let df := extract_raw_data None None "all" w in
  len df = length petrol /\
  Permutation
    (map (fun r => (cell r "date", cell r "petrol_price", cell r "source",
                    cell r "crude_oil_price", cell r "inr_usd")) (df_rows df))
    (map (fun p => (VDate (rpp_date p), VNum (rpp_petrol_price p),
                    opt_str (rpp_source p), joined red_crude_oil_price p,
                    joined red_inr_usd p)) petrol).
Proof.
  refine (extract_is_a_left_join None None "all"
            (ingest_daily_macro 3 738886 twenty_prices_world) _).
  vm_compute. repeat constructor; cbn; intuition discriminate.
Defined.


(** ** The ETL pipeline keeps one row per date, in date order *)

Lemma map_insert_sorted {A B : Type} (f : A -> B) (le : B -> B -> bool)
  (x : A) (l : list A) :
  map f (insert_sorted (fun a b => le (f a) (f b)) x l) =
  insert_sorted le (f x) (map f l).
Proof.
  induction l as [|y l IH]; cbn [insert_sorted map]; [reflexivity|].
  destruct (le (f x) (f y)); cbn [map]; [reflexivity|].
  rewrite IH. reflexivity.
Qed.

Lemma map_order_by {A B : Type} (f : A -> B) (le : B -> B -> bool) (l : list A) :
  map f (order_by (fun a b => le (f a) (f b)) l) = order_by le (map f l).
Proof.
  induction l as [|x l IH]; cbn [order_by fold_right map]; [reflexivity|].
  fold (order_by (fun a b => le (f a) (f b)) l). fold (order_by le (map f l)).
  rewrite map_insert_sorted, IH. reflexivity.
Qed.

(** Sorting a frame by a column sorts that column. *)
Lemma column_sort_values (df : DataFrame) (key : string) :
  column (sort_values df key) key = order_by value_le (column df key).
Proof.
  unfold column, sort_values. cbn [df_rows].
  apply (map_order_by (fun r => cell r key) value_le).
Qed.

Lemma order_by_dates (ds : list Z) :
  order_by value_le (map VDate ds) = map VDate (order_by Z.leb ds).
Proof. symmetry. exact (map_order_by VDate value_le ds). Qed.

Lemma sorted_NoDup_strict (ds : list Z) :
  StronglySorted (fun a b => (a <=? b) = true) ds -> List.NoDup ds ->
  StronglySorted Z.lt ds.
Proof.
  induction 1 as [|x l _ IH Hx]; intros Hnd; constructor.
  - apply IH. apply List.NoDup_cons_iff in Hnd. tauto.
  - apply List.NoDup_cons_iff in Hnd as [Hnotin _].
    rewrite List.Forall_forall in *. intros y Hy.
    specialize (Hx y Hy). apply Z.leb_le in Hx.
    assert (x <> y) by (intros ->; contradiction). lia.
Qed.

Lemma existsb_dates (d : Z) (seen : list Z) :
  existsb (value_eqb (VDate d)) (map VDate seen) = true <-> In d seen.
Proof.
  rewrite existsb_exists. split.
  - intros (v & Hv & Heq). apply in_map_iff in Hv as (d' & <- & Hd').
    cbn in Heq. apply Z.eqb_eq in Heq. subst. exact Hd'.
  - intros Hd. exists (VDate d). split; [apply in_map, Hd | cbn; apply Z.eqb_refl].
Qed.

(** [drop_duplicates] on a column of dates keeps each date once. *)
Lemma drop_duplicates_dates (key : string) (rows : list (gmap string Value))
  (ds seen : list Z) :
  map (fun r => cell r key) rows = map VDate ds ->
  exists ds',
    map (fun r => cell r key) (drop_duplicates_from key (map VDate seen) rows) =
      map VDate ds' /\
    List.NoDup ds' /\
    (forall d, In d ds' <-> In d ds /\ ~ In d seen).
Proof.
  revert ds seen. induction rows as [|r rows IH]; intros ds seen Hcol.
  - destruct ds; [|discriminate]. exists []. cbn.
    split; [reflexivity|]. split; [constructor | tauto].
  - destruct ds as [|d ds]; [discriminate|]. cbn [map] in Hcol.
    injection Hcol as Hr Hrows. cbn [drop_duplicates_from]. rewrite Hr.
    destruct (existsb (value_eqb (VDate d)) (map VDate seen)) eqn:Hseen.
    + apply existsb_dates in Hseen.
      destruct (IH ds seen Hrows) as (ds' & Hcol' & Hnd & Hin).
      exists ds'. split; [exact Hcol'|]. split; [exact Hnd|].
      intros d'. rewrite Hin. cbn [In]. split; [tauto|].
      intros [[-> | H] Hn]; [contradiction | tauto].
    + assert (Hnot : ~ In d seen).
      { intros H. apply existsb_dates in H. congruence. }
      destruct (IH ds (d :: seen) Hrows) as (ds' & Hcol' & Hnd & Hin).
      exists (d :: ds'). cbn [map]. rewrite Hr.
      split; [f_equal; exact Hcol'|].
      split.
      * apply List.NoDup_cons_iff. split; [|exact Hnd].
        rewrite Hin. cbn [In]. tauto.
      * intros d'. cbn [In]. rewrite Hin. cbn [In].
        destruct (Z.eq_dec d d') as [-> | Hne]; tauto.
Qed.

(** What the forward fill leaves in a cell: the value above when the cell
    is missing and its column is one of the frame's, the cell otherwise. *)
Lemma ffill_row_cell (c : string) (prev r : gmap string Value) (cols : list string) :
  cell (fold_left
          (fun acc c' => if isna (cell r c') then <[c' := cell prev c']> acc else acc)
          cols r) c =
  if isna (cell r c) && existsb (String.eqb c) cols then cell prev c else cell r c.
Proof.
  assert (Hgen : forall acc,
            cell (fold_left
                    (fun acc c' => if isna (cell r c') then <[c' := cell prev c']> acc else acc)
                    cols acc) c =
            if isna (cell r c) && existsb (String.eqb c) cols
            then cell prev c else cell acc c).
  { induction cols as [|c' cols IH]; intros acc; cbn [fold_left existsb].
    - rewrite andb_false_r. reflexivity.
    - rewrite IH. destruct (String.eqb_spec c c') as [<- | Hne]; cbn [orb].
      + destruct (isna (cell r c)) eqn:Hna; cbn [andb].
        * destruct (existsb (String.eqb c) cols); [reflexivity|].
          apply cell_insert_eq.
        * reflexivity.
      + destruct (isna (cell r c) && existsb (String.eqb c) cols); [reflexivity|].
        destruct (isna (cell r c')); [|reflexivity].
        apply cell_insert_ne. congruence. }
  apply Hgen.
Qed.

Lemma ffill_from_present (c : string) (cols : list string)
  (prev : gmap string Value) (rows : list (gmap string Value)) :
  Forall (fun r => isna (cell r c) = false) rows ->
  map (fun r => cell r c) (ffill_from cols prev rows) = map (fun r => cell r c) rows.
Proof.
  intros H. revert prev. induction H as [|r rows Hr _ IH]; intros prev;
    cbn [ffill_from map]; [reflexivity|].
  rewrite ffill_row_cell, Hr, IH. reflexivity.
Qed.

Lemma dates_present (f : gmap string Value -> Value) (rows : list (gmap string Value))
  (ds : list Z) :
  map f rows = map VDate ds -> Forall (fun r => isna (f r) = false) rows.
Proof.
  revert ds. induction rows as [|r rows IH]; intros ds H; [constructor|].
  destruct ds as [|d ds]; [discriminate|]. injection H as Hr Hrows.
  constructor; [rewrite Hr; reflexivity | eapply IH, Hrows].
Qed.

Lemma column_ffill_dates (df : DataFrame) (c : string) (ds : list Z) :
  column df c = map VDate ds -> column (ffill df) c = map VDate ds.
Proof.
  intros H. unfold column, ffill in *. cbn [df_rows].
  rewrite ffill_from_present; [exact H|].
  exact (dates_present (fun r => cell r c) _ ds H).
Qed.

Lemma filter_dates_sorted (f : gmap string Value -> Value)
  (p : gmap string Value -> bool) (rows : list (gmap string Value)) (ds : list Z) :
  map f rows = map VDate ds -> StronglySorted Z.lt ds ->
  exists ds',
    map f (List.filter p rows) = map VDate ds' /\
    StronglySorted Z.lt ds' /\ (forall d, In d ds' -> In d ds).
Proof.
  revert ds. induction rows as [|r rows IH]; intros ds H Hs.
  - exists []. repeat split; [constructor | intros d []].
  - destruct ds as [|d ds]; [discriminate|]. injection H as Hr Hrows.
    apply StronglySorted_inv in Hs as [Hs Hd].
    destruct (IH ds Hrows Hs) as (ds' & Hcol & Hs' & Hin).
    cbn [List.filter]. destruct (p r).
    + exists (d :: ds'). cbn [map]. rewrite Hr, Hcol.
      split; [reflexivity|]. split.
      * constructor; [exact Hs'|]. rewrite List.Forall_forall in *.
        intros y Hy. apply Hd, Hin, Hy.
      * intros y [<- | Hy]; [left; reflexivity | right; apply Hin, Hy].
    + exists ds'. split; [exact Hcol|]. split; [exact Hs'|].
      intros y Hy. right. apply Hin, Hy.
Qed.

Lemma detect_outliers_dates (df : DataFrame) (col c : string) (remove : bool)
  (ds : list Z) :
  column df c = map VDate ds -> StronglySorted Z.lt ds ->
  exists ds',
    column (detect_outliers df col remove) c = map VDate ds' /\
    StronglySorted Z.lt ds' /\ (forall d, In d ds' -> In d ds).
Proof.
  intros H Hs. unfold detect_outliers.
  assert (Hsame : exists ds', column df c = map VDate ds' /\
            StronglySorted Z.lt ds' /\ (forall d, In d ds' -> In d ds))
    by (exists ds; auto).
  destruct (has_column df col); cbn [negb]; [|exact Hsame].
  destruct (quantile (1 # 4) (column df col)) as [Q1|]; [|exact Hsame].
  destruct (quantile (3 # 4) (column df col)) as [Q3|]; [|exact Hsame].
  destruct remove; [|exact Hsame].
  unfold column. cbn [df_rows]. apply filter_dates_sorted; assumption.
Qed.

Lemma flat_map_dates {A : Type} (g : gmap string Value -> list (gmap string Value))
  (h : A -> gmap string Value) (key : A -> Z) (l : list A) :
  (forall a, g (h a) <> [] /\
             Forall (fun r => cell r "date" = VDate (key a)) (g (h a))) ->
  exists ds,
    map (fun r => cell r "date") (flat_map g (map h l)) = map VDate ds /\
    (forall d, In d ds <-> In d (map key l)) /\
    (l <> [] -> ds <> []).
Proof.
  intros Hg. induction l as [|a l (ds & Hcol & Hin & _)].
  - exists []. cbn. repeat split; tauto.
  - cbn [map flat_map]. rewrite map_app, Hcol.
    destruct (Hg a) as [Hne Hall].
    exists (map (fun _ => key a) (g (h a)) ++ ds)%list.
    split; [|split].
    + rewrite map_app, map_map. f_equal.
      apply map_ext_in. intros r Hr.
      rewrite List.Forall_forall in Hall. apply Hall, Hr.
    + intros d. rewrite in_app_iff, in_map_iff. cbn [In]. rewrite Hin.
      split.
      * intros [(r & H & _) | H]; tauto.
      * intros [H | H]; [left | tauto].
        destruct (g (h a)) as [|r rs]; [contradiction|].
        exists r. split; [exact H | left; reflexivity].
    + intros _. destruct (g (h a)); [contradiction | discriminate].
Qed.

(** The dates of the extracted frame are those of the selected price rows. *)
Lemma merge_left_dates (ps : list RawPetrolPrice) (ms : list RawExogenousData) :
  exists ds,
    column
      (merge_left
         (select {| df_columns := ["id"; "date"; "petrol_price"; "source"; "created_at"];
                    df_rows := map RawPetrolPrice_to_dict ps |}
            ["date"; "petrol_price"; "source"])
         (select {| df_columns := ["id"; "date"; "crude_oil_price"; "inr_usd";
                                   "source"; "created_at"];
                    df_rows := map RawExogenousData_to_dict ms |}
            ["date"; "crude_oil_price"; "inr_usd"]) "date") "date" = map VDate ds /\
    (forall d, In d ds <-> In d (map rpp_date ps)) /\
    (ps <> [] -> ds <> []).
Proof.
  unfold column, merge_left, select. cbn [df_rows df_columns].
  rewrite (map_map RawPetrolPrice_to_dict).
  apply flat_map_dates. intros p.
  match goal with
  | |- context [List.filter ?f ?l] => destruct (List.filter f l) as [|m rest]
  end.
  - split; [discriminate|]. constructor; [reflexivity | constructor].
  - split; [discriminate|]. apply List.Forall_forall. intros r Hr.
    apply in_map_iff in Hr as (m' & <- & _). reflexivity.
Qed.

Lemma extract_dates (start_date end_date : option Z) (source_filter : string)
  (w : World) :
  let petrol :=
    List.filter (fun p => in_range start_date end_date (rpp_date p)
                          && source_matches source_filter (rpp_source p))
      (raw_petrol_prices (db w)) in
  let df := extract_raw_data start_date end_date source_filter w in
  exists ds,
    column df "date" = map VDate ds /\
    (forall d, In d ds <-> In d (map rpp_date petrol)) /\
    (df_empty df = true -> ds = []).
Proof.
  cbv zeta. unfold extract_raw_data.
  set (petrol := List.filter _ (raw_petrol_prices (db w))).
  set (macro := List.filter _ (raw_exogenous_data (db w))).
  clearbody petrol macro.
  destruct petrol as [|p0 petrol].
  { exists []. cbn. repeat split; tauto. }
  cbn [map from_records df_empty df_rows df_columns].
  destruct macro as [|m0 macro].
  - cbn [map from_records]. change (negb (df_empty empty_frame)) with false.
    cbv iota.
    exists (map rpp_date (p0 :: petrol)). split; [|split; [tauto|]].
    + unfold set_column_scalar.
      rewrite !column_set_column_ne
        by (try discriminate; rewrite length_replicate; reflexivity).
      change (RawPetrolPrice_to_dict p0 :: map RawPetrolPrice_to_dict petrol)
        with (map RawPetrolPrice_to_dict (p0 :: petrol)).
      unfold column, select. cbn [df_rows]. rewrite !map_map.
      apply map_ext. intros p. reflexivity.
    + unfold set_column_scalar, set_column, df_empty. cbn. discriminate.
  - cbn [map from_records df_empty df_rows df_columns negb].
    change (RawPetrolPrice_to_dict p0 :: map RawPetrolPrice_to_dict petrol)
      with (map RawPetrolPrice_to_dict (p0 :: petrol)).
    change (RawExogenousData_to_dict m0 :: map RawExogenousData_to_dict macro)
      with (map RawExogenousData_to_dict (m0 :: macro)).
    destruct (merge_left_dates (p0 :: petrol) (m0 :: macro)) as (ds & Hcol & Hin & Hne).
    exists ds. split; [exact Hcol|]. split; [exact Hin|].
    intros Hempty. exfalso.
    specialize (Hne ltac:(discriminate)).
    unfold df_empty in Hempty. unfold column in Hcol.
    destruct (df_rows _) as [|r rs] in Hcol, Hempty.
    + destruct ds; [congruence | discriminate].
    + cbn in Hempty. discriminate.
Qed.

(** The date column of the [run_etl] output. *)
Lemma run_etl_dates (start_date end_date : option Z)
  (remove_outliers : bool) (source_filter : string) (w : World) :
  let petrol :=
    List.filter (fun p => in_range start_date end_date (rpp_date p)
                          && source_matches source_filter (rpp_source p))
      (raw_petrol_prices (db w)) in
  exists ds,
    column (run_etl start_date end_date remove_outliers source_filter w) "date" =
      map VDate ds /\
    StronglySorted Z.lt ds /\
    (forall d, In d ds -> In d (map rpp_date petrol)) /\
    (remove_outliers = false -> forall d, In d (map rpp_date petrol) -> In d ds).
Proof.
  cbv zeta. unfold run_etl.
  destruct (extract_dates start_date end_date source_filter w)
    as (ds & Hcol & Hin & Hempty).
  set (df := extract_raw_data start_date end_date source_filter w) in *.
  clearbody df.
  destruct (df_empty df).
  - rewrite (Hempty eq_refl) in *. exists [].
    split; [exact Hcol|]. split; [constructor|].
    split; [intros d []|]. intros _ d Hd. apply Hin, Hd.
  - clear Hempty.
    destruct (drop_duplicates_dates "date" (df_rows df) ds [] Hcol)
      as (ds1 & Hcol1 & Hnd1 & Hin1).
    assert (Hperm : Permutation (order_by Z.leb ds1) ds1) by apply order_by_perm.
    assert (Hsorted : StronglySorted Z.lt (order_by Z.leb ds1)).
    { apply sorted_NoDup_strict.
      - apply (order_by_sorted Z.leb).
        + intros a b. rewrite !Z.leb_le. lia.
        + intros a b c. rewrite !Z.leb_le. lia.
      - eapply Permutation_NoDup; [symmetry; exact Hperm | exact Hnd1]. }
    assert (Hcol4 : column (handle_missing_values
                              (standardize_dates (remove_duplicates df))) "date" =
                    map VDate (order_by Z.leb ds1)).
    { unfold handle_missing_values. apply column_ffill_dates, column_ffill_dates.
      unfold standardize_dates. rewrite column_sort_values.
      unfold remove_duplicates, drop_duplicates, column. cbn [df_rows].
      change (@nil Value) with (map VDate []).
      rewrite Hcol1. apply order_by_dates. }
    assert (Hin4 : forall d, In d (order_by Z.leb ds1) <-> In d (map rpp_date
              (List.filter (fun p => in_range start_date end_date (rpp_date p)
                          && source_matches source_filter (rpp_source p))
                 (raw_petrol_prices (db w))))).
    { intros d. rewrite <- Hin. split.
      - intros H. apply (Permutation_in _ Hperm) in H. apply Hin1 in H. tauto.
      - intros H. apply (Permutation_in _ (Permutation_sym Hperm)).
        apply Hin1. cbn [In]. tauto. }
    destruct remove_outliers.
    + destruct (detect_outliers_dates _ "petrol_price" "date" true _ Hcol4 Hsorted)
        as (ds' & Hcol' & Hs' & Hin').
      exists ds'. split; [exact Hcol'|]. split; [exact Hs'|].
      split; [|discriminate]. intros d Hd. apply Hin4, Hin', Hd.
    + exists (order_by Z.leb ds1). split; [exact Hcol4|]. split; [exact Hsorted|].
      split; intros; apply Hin4; assumption.
Qed.

(** X22. [run_etl] returns its rows in strictly increasing date order, hence at
    most one row per date, and every date is that of a stored price row
    selected by the date and provenance filters. Without outlier removal
    every selected date is present. *)
Theorem run_etl_one_row_per_date (start_date end_date : option Z)
  (remove_outliers : bool) (source_filter : string) (w : World) :
  let petrol :=
    List.filter (fun p => in_range start_date end_date (rpp_date p)
                          && source_matches source_filter (rpp_source p))
      (raw_petrol_prices (db w)) in
  exists ds,
    column (run_etl start_date end_date remove_outliers source_filter w) "date" =
      map VDate ds /\
    StronglySorted Z.lt ds /\
    (forall d, In d ds -> In d (map rpp_date petrol)) /\
    (remove_outliers = false -> forall d, In d (map rpp_date petrol) -> In d ds).
Proof.
  exact (run_etl_dates start_date end_date remove_outliers source_filter w).
Qed.


(** ** Forward fill *)

Lemma isna_VNone (v : Value) : isna v = true -> v = VNone.
Proof. destruct v; cbn; congruence. Qed.

Lemma length_ffill_from (cols : list string) (prev : gmap string Value)
  (rows : list (gmap string Value)) :
  length (ffill_from cols prev rows) = length rows.
Proof.
  revert prev. induction rows as [|r rows IH]; intros prev; cbn [ffill_from length];
    [reflexivity|].
  rewrite IH. reflexivity.
Qed.

(** One forward fill of a column of the frame, started below a row [prev]:
    a cell of the result is the nearest present cell at or above it, else
    the cell of [prev]. *)
Lemma ffill_from_nearest (c : string) (cols : list string)
  (rows : list (gmap string Value)) :
  existsb (String.eqb c) cols = true ->
  forall (prev : gmap string Value) (i : nat) (v : Value),
    map (fun r => cell r c) (ffill_from cols prev rows) !! i = Some v ->
    (exists j, (j <= i)%nat /\ isna v = false /\
       map (fun r => cell r c) rows !! j = Some v /\
       forall k, (j < k <= i)%nat -> map (fun r => cell r c) rows !! k = Some VNone) \/
    (v = cell prev c /\
     forall k, (k <= i)%nat -> map (fun r => cell r c) rows !! k = Some VNone).
Proof.
  intros Hc. induction rows as [|r rows IH]; intros prev i v Hv;
    [destruct i; discriminate|].
  cbn [ffill_from map] in Hv.
  set (filled := fold_left _ cols r) in Hv.
  assert (Hfilled : cell filled c = if isna (cell r c) then cell prev c else cell r c).
  { unfold filled. rewrite ffill_row_cell, Hc, andb_true_r. reflexivity. }
  clearbody filled. cbn [map].
  destruct i as [|i].
  - cbn in Hv. injection Hv as <-. rewrite Hfilled.
    destruct (isna (cell r c)) eqn:Hna.
    + right. split; [reflexivity|]. intros k Hk. replace k with 0%nat by lia.
      cbn. f_equal. apply isna_VNone, Hna.
    + left. exists 0%nat. split; [lia|]. split; [exact Hna|].
      split; [reflexivity|]. intros k Hk. lia.
  - cbn in Hv. destruct (IH filled i v Hv) as [(j & Hj & Hna & Hjv & Hgap) | [Heq Hall]].
    + left. exists (S j). split; [lia|]. split; [exact Hna|]. split; [exact Hjv|].
      intros k Hk. destruct k as [|k]; [lia|]. cbn. apply Hgap. lia.
    + rewrite Hfilled in Heq. destruct (isna (cell r c)) eqn:Hna.
      * right. split; [exact Heq|]. intros k Hk. destruct k as [|k].
        -- cbn. f_equal. apply isna_VNone, Hna.
        -- cbn. apply Hall. lia.
      * left. exists 0%nat. split; [lia|]. split; [congruence|].
        split; [cbn; congruence|].
        intros k Hk. destruct k as [|k]; [lia|]. cbn. apply Hall. lia.
Qed.

Lemma ffill_nearest (df : DataFrame) (c : string) (i : nat) (v : Value) :
  has_column df c = true ->
  column (ffill df) c !! i = Some v ->
  if isna v
  then forall k, (k <= i)%nat -> column df c !! k = Some VNone
  else exists j, (j <= i)%nat /\ column df c !! j = Some v /\
         forall k, (j < k <= i)%nat -> column df c !! k = Some VNone.
Proof.
  intros Hc Hv. unfold column, ffill in *. cbn [df_rows] in Hv.
  destruct (ffill_from_nearest c (df_columns df) (df_rows df) Hc ∅ i v Hv)
    as [(j & Hj & Hna & Hjv & Hgap) | [Heq Hall]].
  - rewrite Hna. exists j. auto.
  - unfold cell in Heq. rewrite lookup_empty in Heq. cbn in Heq. subst v.
    cbn [isna]. exact Hall.
Qed.

(** X23. [handle_missing_values] carries the last value forward. The frame keeps
    its rows and columns; in a column of the frame each cell of the result
    holds the nearest present value at or above it in the input column, and
    is missing only when every input cell down to it is missing. *)
Theorem handle_missing_values_carries_forward (df : DataFrame) (c : string) :
  has_column df c = true ->
  let out := handle_missing_values df in
  len out = len df /\
  df_columns out = df_columns df /\
  forall i v, column out c !! i = Some v ->
    if isna v
    then forall k, (k <= i)%nat -> column df c !! k = Some VNone
    else exists j, (j <= i)%nat /\ column df c !! j = Some v /\
           forall k, (j < k <= i)%nat -> column df c !! k = Some VNone.
Proof.
  intros Hc. cbv zeta. unfold handle_missing_values.
  split; [|split; [reflexivity|]].
  { unfold len, ffill. cbn [df_rows df_columns].
    rewrite !length_ffill_from. reflexivity. }
  intros i v Hv.
  assert (Hc1 : has_column (ffill df) c = true) by exact Hc.
  pose proof (ffill_nearest (ffill df) c i v Hc1 Hv) as H2.
  destruct (isna v) eqn:Hna.
  - intros k Hk.
    pose proof (ffill_nearest df c k VNone Hc (H2 k Hk)) as H1. cbn [isna] in H1.
    apply H1. lia.
  - destruct H2 as (j & Hj & Hjv & Hgap).
    pose proof (ffill_nearest df c j v Hc Hjv) as H1. rewrite Hna in H1.
    destruct H1 as (j' & Hj' & Hj'v & Hgap').
    exists j'. split; [lia|]. split; [exact Hj'v|].
    intros k Hk. destruct (Nat.le_gt_cases k j) as [Hle | Hgt].
    + apply Hgap'. lia.
    + pose proof (ffill_nearest df c k VNone Hc (Hgap k ltac:(lia))) as H1.
      cbn [isna] in H1. apply H1. lia.
Qed.

Lemma handle_missing_values_carries_forward_witness :
  let df :=
    extract_raw_data None None "all" (ingest_daily_macro 3 738886 twenty_prices_world) in
  let out := handle_missing_values df in
  len out = len df /\
  df_columns out = df_columns df /\
  forall i v, column out "inr_usd" !! i = Some v ->
    if isna v
    then forall k, (k <= i)%nat -> column df "inr_usd" !! k = Some VNone
    else exists j, (j <= i)%nat /\ column df "inr_usd" !! j = Some v /\
           forall k, (j < k <= i)%nat -> column df "inr_usd" !! k = Some VNone.
Proof.
  refine (handle_missing_values_carries_forward
            (extract_raw_data None None "all"
               (ingest_daily_macro 3 738886 twenty_prices_world)) "inr_usd" _).
  vm_compute. reflexivity.
Defined.


(** ** Temporal alignment of the feature rows *)

Lemma filter_interval {A : Type} (f : A -> bool) (l : list A) (a b : nat) :
  (forall i x, l !! i = Some x -> f x = (a <=? i)%nat && (i <? b)%nat) ->
  List.filter f l = take (b - a) (drop a l).
Proof.
  revert a b. induction l as [|x l IH]; intros a b H.
  - rewrite drop_nil, take_nil. reflexivity.
  - cbn [List.filter]. rewrite (H 0%nat x eq_refl).
    destruct a as [|a].
    + destruct b as [|b]; cbn [Nat.leb Nat.ltb andb].
      * rewrite (filter_all_false f l); [reflexivity|].
        intros i y Hy. rewrite (H (S i) y Hy). cbn. reflexivity.
      * cbn. f_equal. rewrite (IH 0%nat b).
        -- rewrite Nat.sub_0_r. reflexivity.
        -- intros i y Hy. rewrite (H (S i) y Hy). reflexivity.
    + cbn [Nat.leb andb drop].
      rewrite (IH a (b - 1)%nat).
      * f_equal. lia.
      * intros i y Hy. rewrite (H (S i) y Hy).
        destruct (Nat.leb_spec (S a) (S i)), (Nat.leb_spec a i); try lia;
          destruct (Nat.ltb_spec (S i) b), (Nat.ltb_spec i (b - 1)); try lia;
          reflexivity.
Qed.

(** A lag cell holds the price [k] rows above. *)
Lemma shift_lag_lookup (k : nat) (col : list Value) (j : nat) (v : Value) :
  shift (Z.of_nat k) col !! j = Some v -> (k <= j)%nat ->
  col !! (j - k)%nat = Some v.
Proof.
  unfold shift. destruct (Z.leb_spec 0 (Z.of_nat k)); [|lia].
  rewrite Nat2Z.id. intros Hv Hk.
  apply lookup_take_Some in Hv as [Hv _].
  rewrite lookup_app_r in Hv by (rewrite length_replicate; exact Hk).
  rewrite length_replicate in Hv. exact Hv.
Qed.

(** The target cell holds the price one row below. *)
Lemma shift_target_lookup (col : list Value) (j : nat) (v : Value) :
  shift (- 1) col !! j = Some v -> (j + 1 < length col)%nat ->
  col !! (j + 1)%nat = Some v.
Proof.
  unfold shift. change (0 <=? - 1) with false.
  change (Z.to_nat (- - 1)) with 1%nat. cbv iota. intros Hv Hj.
  rewrite lookup_app_l in Hv by (rewrite length_drop; lia).
  rewrite lookup_drop in Hv. rewrite Nat.add_comm. exact Hv.
Qed.

Lemma rolling_mean_lookup (window : nat) (col : list Value) (j : nat) (v : Value) :
  rolling_mean window col !! j = Some v -> v = rolling_mean_at window col j.
Proof.
  unfold rolling_mean. rewrite list_lookup_fmap.
  destruct (seq 0 (length col) !! j) as [j'|] eqn:Hj; [|discriminate].
  apply lookup_seq in Hj as [-> _]. cbn [fmap option_fmap option_map Nat.add].
  congruence.
Qed.

(** On a frame without missing cells, the rows that survive [dropna] after
    the six engineered columns are set are those at positions 14 .. L - 2. *)
Lemma feature_rows_complete (df0 : DataFrame) :
  Forall (fun r => row_complete (df_columns df0) r = true /\
                   exists q, cell r "petrol_price" = VNum q) (df_rows df0) ->
  let P := column df0 "petrol_price" in
  let df6 :=
    set_column
      (set_column
         (set_column
            (set_column
               (set_column
                  (set_column df0 "lag_1" (shift 1 P))
                  "lag_2" (shift 2 P))
               "lag_7" (shift 7 P))
            "lag_14" (shift 14 P))
         "rolling_7" (rolling_mean 7 P))
      "target" (shift (- 1) P) in
  forall i r6, df_rows df6 !! i = Some r6 ->
    row_complete (df_columns df6) r6 = (14 <=? i)%nat && (i <? len df0 - 1)%nat.
Proof.
  intros Hrows0 P df6 i r6 Hr6.
  assert (HP : length P = len df0) by apply length_map.
  assert (Hnum : Forall (fun v => exists q, v = VNum q) P).
  { unfold P, column. apply Forall_fmap. eapply Forall_impl; [exact Hrows0|].
    intros r [_ Hq]. exact Hq. }
  subst df6.
  apply set_column_lookup in Hr6 as (r5 & v6 & -> & Hr5 & Hv6).
  apply set_column_lookup in Hr5 as (r4 & v5 & -> & Hr4 & Hv5).
  apply set_column_lookup in Hr4 as (r3 & v4 & -> & Hr3 & Hv4).
  apply set_column_lookup in Hr3 as (r2 & v3 & -> & Hr2 & Hv3).
  apply set_column_lookup in Hr2 as (r1 & v2 & -> & Hr1 & Hv2).
  apply set_column_lookup in Hr1 as (r & v1 & -> & Hr & Hv1).
  apply (shift_lag_isna 1 P i v1 Hnum) in Hv1.
  apply (shift_lag_isna 2 P i v2 Hnum) in Hv2.
  apply (shift_lag_isna 7 P i v3 Hnum) in Hv3.
  apply (shift_lag_isna 14 P i v4 Hnum) in Hv4.
  apply (rolling_mean_isna 7 P i v5 ltac:(lia) Hnum) in Hv5.
  apply (shift_target_isna P i v6 Hnum) in Hv6. rewrite HP in Hv6.
  rewrite Forall_lookup in Hrows0. destruct (Hrows0 i r Hr) as [Hcomplete _].
  rewrite row_complete_iff in Hcomplete.
  apply Bool.eq_iff_eq_true. rewrite row_complete_iff.
  rewrite andb_true_iff, Nat.leb_le, Nat.ltb_lt.
  split.
  - intros Hall.
    assert (H14 : isna v4 = false).
    { specialize (Hall "lag_14").
      rewrite !set_column_columns in Hall.
      rewrite cell_insert_ne, cell_insert_ne, cell_insert_eq in Hall by discriminate.
      apply Hall. tauto. }
    assert (Ht : isna v6 = false).
    { specialize (Hall "target").
      rewrite !set_column_columns in Hall.
      rewrite cell_insert_eq in Hall. apply Hall. tauto. }
    rewrite Hv4 in H14. rewrite Hv6 in Ht.
    apply Nat.ltb_ge in H14. apply negb_false_iff, Nat.ltb_lt in Ht. lia.
  - intros [H14 Ht] c Hc.
    rewrite !set_column_columns in Hc.
    destruct (decide (c = "target")) as [-> | N6].
    { rewrite cell_insert_eq, Hv6. apply negb_false_iff, Nat.ltb_lt. lia. }
    rewrite cell_insert_ne by congruence.
    destruct (decide (c = "rolling_7")) as [-> | N5].
    { rewrite cell_insert_eq, Hv5. apply Nat.ltb_ge. lia. }
    rewrite cell_insert_ne by congruence.
    destruct (decide (c = "lag_14")) as [-> | N4].
    { rewrite cell_insert_eq, Hv4. apply Nat.ltb_ge. lia. }
    rewrite cell_insert_ne by congruence.
    destruct (decide (c = "lag_7")) as [-> | N3].
    { rewrite cell_insert_eq, Hv3. apply Nat.ltb_ge. lia. }
    rewrite cell_insert_ne by congruence.
    destruct (decide (c = "lag_2")) as [-> | N2].
    { rewrite cell_insert_eq, Hv2. apply Nat.ltb_ge. lia. }
    rewrite cell_insert_ne by congruence.
    destruct (decide (c = "lag_1")) as [-> | N1].
    { rewrite cell_insert_eq, Hv1. apply Nat.ltb_ge. lia. }
    rewrite cell_insert_ne by congruence.
    apply Hcomplete. tauto.
Qed.

Lemma complete_rows_check (df : DataFrame) :
  forallb (fun r => row_complete (df_columns df) r &&
                    match cell r "petrol_price" with VNum _ => true | _ => false end)
    (df_rows df) = true ->
  Forall (fun r => row_complete (df_columns df) r = true /\
                   exists q, cell r "petrol_price" = VNum q) (df_rows df).
Proof.
  rewrite forallb_forall. intros H. apply List.Forall_forall. intros r Hr.
  specialize (H r Hr). apply andb_true_iff in H as [Hc Hq].
  split; [exact Hc|]. destruct (cell r "petrol_price"); try discriminate. eauto.
Qed.

(** X24. Temporal alignment. On a frame with no missing cell and numeric prices,
    feature row [i] is the row at position [i + 14] of the frame sorted by
    date: it keeps that row's date and price, its lags of 1, 2, 7 and 14
    are the prices 1, 2, 7 and 14 rows earlier, its rolling mean is the mean
    of the seven prices ending at that row, and its target is the price of
    the next row. The last row, which has no next price, is not kept. *)
Theorem feature_rows_are_aligned (df : DataFrame) :
  has_column df "date" = true ->
  has_column df "petrol_price" = true ->
  Forall (fun r => row_complete (df_columns df) r = true /\
                   exists q, cell r "petrol_price" = VNum q) (df_rows df) ->
  let sorted := sort_values df "date" in
  let price := column sorted "petrol_price" in
  len (create_all_features df) = (len df - 15)%nat /\
  forall i r, df_rows (create_all_features df) !! i = Some r ->
    exists r0,
      df_rows sorted !! (i + 14)%nat = Some r0 /\
      cell r "date" = cell r0 "date" /\
      cell r "petrol_price" = cell r0 "petrol_price" /\
      price !! (i + 14)%nat = Some (cell r "petrol_price") /\
      price !! (i + 13)%nat = Some (cell r "lag_1") /\
      price !! (i + 12)%nat = Some (cell r "lag_2") /\
      price !! (i + 7)%nat = Some (cell r "lag_7") /\
      price !! i = Some (cell r "lag_14") /\
      price !! (i + 15)%nat = Some (cell r "target") /\
      exists qs,
        numbers (take 7 (drop (i + 8) price)) = Some qs /\
        cell r "rolling_7" = VNum (Qsum qs / 7).
Proof.
  intros Hdate Hprice Hrows. cbv zeta.
  unfold create_all_features. rewrite Hdate. cbn [negb].
  change (has_column (sort_values df "date") "petrol_price")
    with (has_column df "petrol_price").
  rewrite Hprice. cbn [negb].
  rewrite features_frame.
  set (df0 := sort_values df "date").
  assert (Hperm : Permutation (df_rows df0) (df_rows df)) by apply order_by_perm.
  assert (Hlen0 : len df0 = len df).
  { unfold len. apply Permutation_length, Hperm. }
  assert (Hrows0 : Forall (fun r => row_complete (df_columns df0) r = true /\
                     exists q, cell r "petrol_price" = VNum q) (df_rows df0)).
  { rewrite Hperm. exact Hrows. }
  set (P := column df0 "petrol_price").
  assert (HP : length P = len df0) by apply length_map.
  assert (Hnum : Forall (fun v => exists q, v = VNum q) P).
  { unfold P, column. apply Forall_fmap. eapply Forall_impl; [exact Hrows0|].
    intros r [_ Hq]. exact Hq. }
  pose proof (feature_rows_complete df0 Hrows0) as Hidx. cbv zeta in Hidx.
  fold P in Hidx.
  set (df6 := set_column _ "target" _) in *.
  assert (Hlen6 : len df6 = len df0).
  { unfold df6. repeat (rewrite len_set_column);
      rewrite ?length_shift, ?length_rolling_mean; try exact HP. reflexivity. }
  unfold dropna, len at 1. cbn [df_rows].
  rewrite (filter_interval _ (df_rows df6) 14 (len df0 - 1) Hidx).
  split.
  { rewrite length_take, length_drop. fold (len df6). rewrite Hlen6, Hlen0. lia. }
  intros i r Hr.
  apply lookup_take_Some in Hr as [Hr Hi]. rewrite lookup_drop in Hr.
  replace (14 + i)%nat with (i + 14)%nat in Hr by lia.
  subst df6.
  apply set_column_lookup in Hr as (r5 & v6 & -> & Hr5 & Hv6).
  apply set_column_lookup in Hr5 as (r4 & v5 & -> & Hr4 & Hv5).
  apply set_column_lookup in Hr4 as (r3 & v4 & -> & Hr3 & Hv4).
  apply set_column_lookup in Hr3 as (r2 & v3 & -> & Hr2 & Hv3).
  apply set_column_lookup in Hr2 as (r1 & v2 & -> & Hr1 & Hv2).
  apply set_column_lookup in Hr1 as (r0 & v1 & -> & Hr0 & Hv1).
  apply (shift_lag_lookup 1 P) in Hv1; [|lia].
  apply (shift_lag_lookup 2 P) in Hv2; [|lia].
  apply (shift_lag_lookup 7 P) in Hv3; [|lia].
  apply (shift_lag_lookup 14 P) in Hv4; [|lia].
  apply rolling_mean_lookup in Hv5.
  apply shift_target_lookup in Hv6; [|rewrite HP; lia].
  exists r0. split; [exact Hr0|].
  set (R := <["target" := v6]> _).
  assert (Ccell : cell R "date" = cell r0 "date" /\
                  cell R "petrol_price" = cell r0 "petrol_price" /\
                  cell R "lag_1" = v1 /\ cell R "lag_2" = v2 /\
                  cell R "lag_7" = v3 /\ cell R "lag_14" = v4 /\
                  cell R "rolling_7" = v5 /\ cell R "target" = v6).
  { unfold R.
    repeat split;
      repeat (first [rewrite cell_insert_eq | rewrite cell_insert_ne by discriminate]);
      reflexivity. }
  clearbody R.
  destruct Ccell as (-> & -> & -> & -> & -> & -> & -> & ->).
  split; [reflexivity|]. split; [reflexivity|].
  split; [unfold P, column; rewrite list_lookup_fmap, Hr0; reflexivity|].
  split; [rewrite <- Hv1; f_equal; lia|].
  split; [rewrite <- Hv2; f_equal; lia|].
  split; [rewrite <- Hv3; f_equal; lia|].
  split; [rewrite <- Hv4; f_equal; lia|].
  split; [rewrite <- Hv6; f_equal; lia|].
  subst v5. unfold rolling_mean_at.
  change (7 =? 0)%nat with false. cbn [orb].
  destruct (Nat.ltb_spec (i + 14 + 1) 7) as [Hlt | _]; [lia|].
  replace (i + 14 + 1 - 7)%nat with (i + 8)%nat by lia.
  destruct (numbers_total (take 7 (drop (i + 8) P))) as [qs Hqs].
  { apply Forall_take, Forall_drop, Hnum. }
  rewrite Hqs. exists qs. split; reflexivity.
Qed.

Lemma feature_rows_are_aligned_witness :
  let df := run_etl None None false "all" twenty_prices_macro_world in
  let sorted := sort_values df "date" in
  let price := column sorted "petrol_price" in
  len (create_all_features df) = (len df - 15)%nat /\
  forall i r, df_rows (create_all_features df) !! i = Some r ->
    exists r0,
      df_rows sorted !! (i + 14)%nat = Some r0 /\
      cell r "date" = cell r0 "date" /\
      cell r "petrol_price" = cell r0 "petrol_price" /\
      price !! (i + 14)%nat = Some (cell r "petrol_price") /\
      price !! (i + 13)%nat = Some (cell r "lag_1") /\
      price !! (i + 12)%nat = Some (cell r "lag_2") /\
      price !! (i + 7)%nat = Some (cell r "lag_7") /\
      price !! i = Some (cell r "lag_14") /\
      price !! (i + 15)%nat = Some (cell r "target") /\
      exists qs,
        numbers (take 7 (drop (i + 8) price)) = Some qs /\
        cell r "rolling_7" = VNum (Qsum qs / 7).
Proof.
  refine (feature_rows_are_aligned
            (run_etl None None false "all" twenty_prices_macro_world) _ _ _).
  - vm_compute. reflexivity.
  - vm_compute. reflexivity.
  - apply complete_rows_check. vm_compute. reflexivity.
Defined.


(** ** The feature store *)

Lemma filter_all_true {A : Type} (f : A -> bool) (l : list A) :
  (forall x, f x = true) -> List.filter f l = l.
Proof.
  intros H. induction l as [|x l IH]; cbn [List.filter]; [reflexivity|].
  rewrite H, IH. reflexivity.
Qed.

Lemma load_from_database_dates (start_date end_date : option Z) (w : World) :
  let records :=
    List.filter (fun r => in_range start_date end_date (pf_date r))
      (processed_features (db w)) in
  let df := load_from_database start_date end_date w in
  len df = length records /\
  column df "date" = map VDate (order_by Z.leb (map pf_date records)).
Proof.
  cbv zeta. unfold load_from_database.
  set (records := List.filter _ (processed_features (db w))).
  destruct records as [|r records]; [split; reflexivity|].
  cbn [map from_records df_empty df_rows df_columns feature_columns negb].
  split.
  - unfold len, sort_values. cbn [df_rows].
    rewrite (Permutation_length (order_by_perm _ _)).
    cbn [length]. rewrite length_map. reflexivity.
  - rewrite column_sort_values.
    change (pf_date r :: map pf_date records) with (map pf_date (r :: records)).
    rewrite <- order_by_dates. f_equal.
    unfold column. cbn [df_rows].
    change (feature_record (ProcessedFeature_to_dict r)
            :: map (fun r0 => feature_record (ProcessedFeature_to_dict r0)) records)
      with (map (fun r0 => feature_record (ProcessedFeature_to_dict r0)) (r :: records)).
    rewrite !map_map. apply map_ext. intros p. reflexivity.
Qed.

(** X25. [load_from_database] returns one row for each stored feature row whose
    date lies between the two bounds, in ascending date order whatever the
    order of the table; a bound given alone does not filter. *)
Theorem load_from_database_sorted (start_date end_date : option Z) (w : World) :
  let records :=
    List.filter (fun r => in_range start_date end_date (pf_date r))
      (processed_features (db w)) in
  let df := load_from_database start_date end_date w in
  len df = length records /\
  (exists ds,
     column df "date" = map VDate ds /\
     StronglySorted Z.le ds /\
     Permutation ds (map pf_date records)) /\
  (start_date = None \/ end_date = None -> records = processed_features (db w)).
Proof.
  cbv zeta.
  destruct (load_from_database_dates start_date end_date w) as [Hlen Hcol].
  cbv zeta in Hlen, Hcol.
  split; [exact Hlen|]. split.
  - eexists. split; [exact Hcol|]. split.
    + eapply StronglySorted_weaken; [|apply (order_by_sorted Z.leb)].
      * intros a b H. apply Z.leb_le, H.
      * intros a b. rewrite !Z.leb_le. lia.
      * intros a b c. rewrite !Z.leb_le. lia.
    + apply order_by_perm.
  - intros Hbound. apply filter_all_true. intros r.
    unfold in_range. destruct Hbound as [-> | ->]; [reflexivity|].
    destruct start_date; reflexivity.
Qed.


Lemma feature_of_row_date (row : gmap string Value) (created_at : Z)
  (values : ProcessedFeature) :
  feature_of_row row created_at = Some values ->
  cell row "date" = VDate (pf_date values).
Proof.
  unfold feature_of_row.
  destruct (cell row "date"); cbn [as_date]; try discriminate.
  repeat match goal with
         | |- context [match ?x with Some _ => _ | None => _ end] =>
             destruct x; try discriminate
         end.
  intros [= <-]. reflexivity.
Qed.

Lemma existsb_same_date (d : Z) (table : list ProcessedFeature) :
  existsb (fun p => pf_date p =? d) table = true <-> In d (map pf_date table).
Proof.
  rewrite existsb_exists, in_map_iff. split.
  - intros (p & Hp & Heq). apply Z.eqb_eq in Heq. eauto.
  - intros (p & Heq & Hp). exists p. split; [exact Hp | apply Z.eqb_eq, Heq].
Qed.

Lemma update_first_In_other {A : Type} (p : A -> bool) (f : A -> A) (l : list A)
  (x : A) :
  In x l -> p x = false -> In x (update_first p f l).
Proof.
  intros Hx Hp. induction l as [|y l IH]; cbn [update_first]; [exact Hx|].
  destruct Hx as [-> | Hx].
  - rewrite Hp. left. reflexivity.
  - destruct (p y); right; [exact Hx | apply IH, Hx].
Qed.

Lemma unique_dates_NoDup (rows : list ProcessedFeature) :
  List.NoDup (map pf_date rows) -> unique_dates rows = true.
Proof.
  induction rows as [|p rows IH]; cbn [map unique_dates]; [reflexivity|].
  intros H. apply List.NoDup_cons_iff in H as [Hp Hrows].
  rewrite (IH Hrows), andb_true_r. apply negb_true_iff.
  destruct (existsb (fun p' => pf_date p' =? pf_date p) rows) eqn:E; [|reflexivity].
  apply existsb_same_date in E. contradiction.
Qed.

(** The loop of [save_to_database] on readable rows: stored rows keep their
    dates, rows of other dates are untouched, and the rows added are those
    of the dates not yet stored. *)
Lemma save_rows_effect (created_at : Z) (rows : list (gmap string Value)) :
  Forall (fun row => feature_of_row row created_at <> None) rows ->
  forall table pending,
  exists table' news,
    save_rows rows created_at table pending = Some (table', (pending ++ news)%list) /\
    map pf_date table' = map pf_date table /\
    (forall p, In p table ->
               ~ In (VDate (pf_date p)) (map (fun r => cell r "date") rows) ->
               In p table') /\
    (forall d, In d (map pf_date news) <->
               In (VDate d) (map (fun r => cell r "date") rows) /\
               ~ In d (map pf_date table)) /\
    (List.NoDup (map (fun r => cell r "date") rows) -> List.NoDup (map pf_date news)).
Proof.
  induction 1 as [|row rows Hrow _ IH]; intros table pending.
  - exists table, []. cbn [save_rows map In]. rewrite app_nil_r.
    repeat split; try tauto. constructor.
  - cbn [save_rows map].
    destruct (feature_of_row row created_at) as [values|] eqn:Hvalues;
      [|contradiction].
    rewrite (feature_of_row_date _ _ _ Hvalues).
    destruct (existsb (fun p => pf_date p =? pf_date values) table) eqn:Hstored.
    + destruct (IH (update_first (fun p => pf_date p =? pf_date values)
                      (overwrite values) table) pending)
        as (table' & news & Hsave & Hdates & Hkeep & Hnews & Hnd).
      rewrite (update_first_keys pf_date) in Hdates, Hnews by reflexivity.
      apply existsb_same_date in Hstored.
      exists table', news. split; [exact Hsave|]. split; [exact Hdates|].
      split; [|split].
      * intros p Hp Hnot. apply Hkeep.
        -- apply update_first_In_other; [exact Hp|].
           apply Z.eqb_neq. intros Heq. apply Hnot. left. rewrite Heq. reflexivity.
        -- intros Hin. apply Hnot. right. exact Hin.
      * intros d. rewrite Hnews. cbn [In]. split; [tauto|].
        intros [[Heq | Hin] Hn]; [|tauto].
        injection Heq as <-. contradiction.
      * intros H. apply List.NoDup_cons_iff in H. apply Hnd. tauto.
    + destruct (IH table (pending ++ [values])%list)
        as (table' & news & Hsave & Hdates & Hkeep & Hnews & Hnd).
      assert (Hfresh : ~ In (pf_date values) (map pf_date table)).
      { intros Hin. apply existsb_same_date in Hin. congruence. }
      exists table', (values :: news).
      split.
      { rewrite Hsave, <- app_assoc. reflexivity. }
      split; [exact Hdates|]. split; [|split].
      * intros p Hp Hnot. apply Hkeep; [exact Hp|].
        intros Hin. apply Hnot. right. exact Hin.
      * intros d. cbn [map In]. rewrite Hnews. split.
        -- intros [<- | [Hin Hn]]; [split; [left; reflexivity | exact Hfresh]|tauto].
        -- intros [[Heq | Hin] Hn]; [left; congruence | tauto].
      * intros H. apply List.NoDup_cons_iff in H as [Hnotin H].
        cbn [map]. apply List.NoDup_cons_iff. split; [|apply Hnd, H].
        rewrite Hnews. tauto.
Qed.

Lemma readable_rows_check (created_at : Z) (rows : list (gmap string Value)) :
  forallb (fun row => match feature_of_row row created_at with
                      | Some _ => true
                      | None => false
                      end) rows = true ->
  Forall (fun row => feature_of_row row created_at <> None) rows.
Proof.
  rewrite forallb_forall. intros H. apply List.Forall_forall. intros row Hrow.
  specialize (H row Hrow). destruct (feature_of_row row created_at); congruence.
Qed.

(** X26. [save_to_database] is an upsert keyed by date. For a frame whose rows
    can all be read and whose dates are distinct, on a table with one row
    per date: the call reports as many rows as the frame has, the table
    still has one row per date, its dates are the dates stored before
    together with those of the frame, rows of dates not in the frame are
    untouched and so are the other tables, and a later unfiltered
    [load_from_database] returns exactly these dates. *)
Theorem save_to_database_upserts_by_date (df : DataFrame) (w : World) :
  Forall (fun row => feature_of_row row (now w) <> None) (df_rows df) ->
  List.NoDup (column df "date") ->
  List.NoDup (map pf_date (processed_features (db w))) ->
  let result := save_to_database df w in
  let stored := processed_features (db (snd result)) in
  fst result = len df /\
  List.NoDup (map pf_date stored) /\
  (forall d, In d (map pf_date stored) <->
             In d (map pf_date (processed_features (db w))) \/
             In (VDate d) (column df "date")) /\
  (forall p, In p (processed_features (db w)) ->
             ~ In (VDate (pf_date p)) (column df "date") -> In p stored) /\
  (forall d, In (VDate d) (column (load_from_database None None (snd result)) "date") <->
             In d (map pf_date stored)) /\
  raw_petrol_prices (db (snd result)) = raw_petrol_prices (db w) /\
  raw_exogenous_data (db (snd result)) = raw_exogenous_data (db w) /\
  model_registry (db (snd result)) = model_registry (db w) /\
  prediction_logs (db (snd result)) = prediction_logs (db w).
Proof.
  intros Hread Hdf Hold. cbv zeta. unfold save_to_database.
  destruct (save_rows_effect (now w) (df_rows df) Hread (processed_features (db w)) [])
    as (table' & news & Hsave & Hdates & Hkeep & Hnews & Hnd).
  cbn [app] in Hsave. rewrite Hsave.
  specialize (Hnd Hdf). rewrite (unique_dates_NoDup news Hnd).
  cbn [fst snd].
  assert (Hstored : processed_features (db (with_features w (table' ++ news)%list)) =
                    (table' ++ news)%list) by reflexivity.
  rewrite Hstored.
  assert (Hin : forall d, In d (map pf_date (table' ++ news)%list) <->
             In d (map pf_date (processed_features (db w))) \/
             In (VDate d) (column df "date")).
  { intros d. rewrite map_app, in_app_iff, Hdates, Hnews. unfold column.
    destruct (in_dec Z.eq_dec d (map pf_date (processed_features (db w)))); tauto. }
  split; [reflexivity|]. split; [|split; [exact Hin|split; [|split]]].
  - rewrite map_app. apply List.NoDup_app; [rewrite Hdates; exact Hold | exact Hnd |].
    intros d Hd Hd'. rewrite Hdates in Hd. apply Hnews in Hd'. tauto.
  - intros p Hp Hnot. apply in_app_iff. left. apply Hkeep; assumption.
  - intros d.
    destruct (load_from_database_dates None None (with_features w (table' ++ news)%list))
      as [_ Hcol].
    cbv zeta in Hcol. rewrite Hcol, Hstored.
    rewrite filter_all_true by (intros; reflexivity).
    rewrite in_map_iff. split.
    + intros (d' & [= ->] & Hd'). eapply Permutation_in; [apply order_by_perm | exact Hd'].
    + intros Hd. exists d. split; [reflexivity|].
      eapply Permutation_in; [symmetry; apply order_by_perm | exact Hd].
  - repeat split; reflexivity.
Qed.

Lemma save_to_database_upserts_by_date_witness :
  let df := create_all_features (run_etl None None false "all" twenty_prices_macro_world) in
  let w := demo_world in
  let result := save_to_database df w in
  let stored := processed_features (db (snd result)) in
  fst result = len df /\
  List.NoDup (map pf_date stored) /\
  (forall d, In d (map pf_date stored) <->
             In d (map pf_date (processed_features (db w))) \/
             In (VDate d) (column df "date")) /\
  (forall p, In p (processed_features (db w)) ->
             ~ In (VDate (pf_date p)) (column df "date") -> In p stored) /\
  (forall d, In (VDate d) (column (load_from_database None None (snd result)) "date") <->
             In d (map pf_date stored)) /\
  raw_petrol_prices (db (snd result)) = raw_petrol_prices (db w) /\
  raw_exogenous_data (db (snd result)) = raw_exogenous_data (db w) /\
  model_registry (db (snd result)) = model_registry (db w) /\
  prediction_logs (db (snd result)) = prediction_logs (db w).
Proof.
  refine (save_to_database_upserts_by_date
            (create_all_features
               (run_etl None None false "all" twenty_prices_macro_world))
            demo_world _ _ _).
  - apply readable_rows_check. vm_compute. reflexivity.
  - vm_compute. repeat constructor; cbn; intuition discriminate.
  - vm_compute. repeat constructor; cbn; intuition discriminate.
Defined.


(** ** Data preparation end to end *)

Ltac cells :=
  repeat first [rewrite cell_insert_eq | rewrite cell_insert_ne by discriminate].

Lemma optional_number_opt_num (o : option Q) : optional_number (opt_num o) <> None.
Proof. destruct o; discriminate. Qed.

Lemma extract_rows_typed (start_date end_date : option Z) (source_filter : string)
  (w : World) :
  Forall etl_row (df_rows (extract_raw_data start_date end_date source_filter w)).
Proof.
  unfold extract_raw_data.
  set (petrol := List.filter _ (raw_petrol_prices (db w))).
  set (macro := List.filter _ (raw_exogenous_data (db w))).
  clearbody petrol macro.
  destruct petrol as [|p0 petrol]; [constructor|].
  cbn [map from_records df_empty df_rows df_columns].
  change (RawPetrolPrice_to_dict p0 :: map RawPetrolPrice_to_dict petrol)
    with (map RawPetrolPrice_to_dict (p0 :: petrol)).
  destruct macro as [|m0 macro].
  - cbn [map from_records]. change (negb (df_empty empty_frame)) with false.
    cbv iota. apply Forall_lookup. intros i r Hr.
    unfold set_column_scalar in Hr.
    apply set_column_lookup in Hr as (r1 & v2 & -> & Hr1 & Hv2).
    apply set_column_lookup in Hr1 as (r0 & v1 & -> & Hr0 & Hv1).
    apply lookup_replicate in Hv1 as [-> _].
    apply lookup_replicate in Hv2 as [-> _].
    unfold select in Hr0. cbn [df_rows] in Hr0.
    change (RawPetrolPrice_to_dict p0 :: map RawPetrolPrice_to_dict petrol)
      with (RawPetrolPrice_to_dict <$> (p0 :: petrol)) in Hr0.
    rewrite !list_lookup_fmap in Hr0.
    destruct ((p0 :: petrol) !! i) as [p|]; [|cbn in Hr0; discriminate].
    cbn [fmap option_fmap option_map] in Hr0. injection Hr0 as <-.
    repeat split; cells; try discriminate; eexists; reflexivity.
  - cbn [map from_records df_empty df_rows df_columns negb].
    change (RawExogenousData_to_dict m0 :: map RawExogenousData_to_dict macro)
      with (map RawExogenousData_to_dict (m0 :: macro)).
    change (RawPetrolPrice_to_dict p0 :: map RawPetrolPrice_to_dict petrol)
      with (map RawPetrolPrice_to_dict (p0 :: petrol)).
    unfold merge_left, select. cbn [df_rows df_columns].
    apply Forall_flat_map. rewrite !List.Forall_map.
    apply List.Forall_forall. intros p _.
    match goal with
    | |- context [List.filter ?f ?l] => destruct (List.filter f l) as [|m rest] eqn:E
    end.
    + constructor; [|constructor].
      cbn [List.filter negb String.eqb Ascii.eqb Bool.eqb fold_left].
      repeat split; cells; try discriminate; eexists; reflexivity.
    + rewrite List.Forall_map. apply List.Forall_forall. intros m' Hm'.
      rewrite <- E in Hm'. apply filter_In in Hm' as [Hm' _].
      apply in_map_iff in Hm' as (rec & <- & Hrec).
      apply in_map_iff in Hrec as (mm & <- & _).
      cbn [List.filter negb String.eqb Ascii.eqb Bool.eqb fold_left].
      repeat split; cells;
        [ eexists; reflexivity | eexists; reflexivity
        | exact (optional_number_opt_num (float_if_truthy (red_crude_oil_price mm)))
        | exact (optional_number_opt_num (float_if_truthy (red_inr_usd mm))) ].
Qed.

Lemma ffill_from_typed (cols : list string) (rows : list (gmap string Value)) :
  Forall etl_row rows ->
  forall prev,
    optional_number (cell prev "crude_oil_price") <> None ->
    optional_number (cell prev "inr_usd") <> None ->
    Forall etl_row (ffill_from cols prev rows).
Proof.
  induction 1 as [|r rows (Hd & Hp & Hc & Hi) _ IH]; intros prev Hpc Hpi;
    cbn [ffill_from]; [constructor|].
  set (filled := fold_left _ cols r).
  assert (Hfilled : etl_row filled).
  { unfold filled, etl_row. rewrite !ffill_row_cell.
    destruct Hd as [d Hd], Hp as [q Hp]. rewrite Hd, Hp. cbn [isna andb].
    split; [eauto|]. split; [eauto|].
    split;
      match goal with
      | |- context [if ?b then _ else _] => destruct b
      end; assumption. }
  constructor; [exact Hfilled|]. apply IH; apply Hfilled.
Qed.

Lemma ffill_typed (df : DataFrame) :
  Forall etl_row (df_rows df) -> Forall etl_row (df_rows (ffill df)).
Proof.
  intros H. unfold ffill. cbn [df_rows].
  apply ffill_from_typed; [exact H | discriminate | discriminate].
Qed.

Lemma run_etl_rows_typed (start_date end_date : option Z) (remove_outliers : bool)
  (source_filter : string) (w : World) :
  Forall etl_row
    (df_rows (run_etl start_date end_date remove_outliers source_filter w)).
Proof.
  unfold run_etl.
  pose proof (extract_rows_typed start_date end_date source_filter w) as H.
  set (df := extract_raw_data start_date end_date source_filter w) in *.
  clearbody df.
  destruct (df_empty df); [exact H|].
  assert (H4 : Forall etl_row
                 (df_rows (handle_missing_values
                             (standardize_dates (remove_duplicates df))))).
  { unfold handle_missing_values. apply ffill_typed, ffill_typed.
    unfold standardize_dates, sort_values. cbn [df_rows].
    eapply Permutation_Forall; [symmetry; apply order_by_perm|].
    unfold remove_duplicates, drop_duplicates. cbn [df_rows].
    apply drop_duplicates_from_Forall, H. }
  destruct remove_outliers; [|exact H4].
  apply detect_outliers_keeps, H4.
Qed.


Lemma shift_values (k : Z) (col : list Value) (i : nat) (v : Value) :
  shift k col !! i = Some v -> v = VNone \/ In v col.
Proof.
  unfold shift. destruct (0 <=? k); intros H.
  - apply lookup_take_Some in H as [H _].
    apply lookup_app_Some in H as [H | [_ H]].
    + left. apply lookup_replicate in H. tauto.
    + right. apply list_elem_of_In. eapply list_elem_of_lookup_2, H.
  - apply lookup_app_Some in H as [H | [_ H]].
    + right. rewrite lookup_drop in H.
      apply list_elem_of_In. eapply list_elem_of_lookup_2, H.
    + left. apply lookup_replicate in H. tauto.
Qed.

Lemma shift_lag_present (k : nat) (col : list Value) (i : nat) (v : Value) :
  shift (Z.of_nat k) col !! i = Some v -> isna v = false -> (k <= i)%nat.
Proof.
  unfold shift. destruct (Z.leb_spec 0 (Z.of_nat k)); [|lia].
  rewrite Nat2Z.id. intros Hl Hv.
  apply lookup_take_Some in Hl as [Hl _].
  apply lookup_app_Some in Hl as [Hl | [Hl _]].
  - apply lookup_replicate in Hl as [-> _]. discriminate.
  - rewrite length_replicate in Hl. exact Hl.
Qed.

Lemma shift_target_present (col : list Value) (i : nat) (v : Value) :
  shift (- 1) col !! i = Some v -> isna v = false -> (i + 1 < length col)%nat.
Proof.
  unfold shift. change (0 <=? - 1) with false.
  change (Z.to_nat (- - 1)) with 1%nat. cbv iota. intros H Hv.
  apply lookup_app_Some in H as [H | [_ H]].
  - apply lookup_lt_Some in H. rewrite length_drop in H. lia.
  - apply lookup_replicate in H as [-> _]. discriminate.
Qed.

Lemma optional_number_numeric (col : list Value) (v : Value) :
  Forall (fun v => exists q, v = VNum q) col ->
  v = VNone \/ In v col -> optional_number v <> None.
Proof.
  intros Hnum [-> | Hv]; [discriminate|].
  rewrite List.Forall_forall in Hnum. destruct (Hnum v Hv) as [q ->]. discriminate.
Qed.

Lemma rolling_mean_at_number (window : nat) (col : list Value) (i : nat) :
  optional_number (rolling_mean_at window col i) <> None.
Proof.
  unfold rolling_mean_at.
  destruct ((window =? 0)%nat || (i + 1 <? window)%nat); [discriminate|].
  destruct (numbers _); discriminate.
Qed.

Lemma feature_of_row_readable (row : gmap string Value) (created_at : Z) :
  (exists d, cell row "date" = VDate d) ->
  (exists q, cell row "petrol_price" = VNum q) ->
  optional_number (cell row "lag_1") <> None ->
  optional_number (cell row "lag_2") <> None ->
  optional_number (cell row "lag_7") <> None ->
  optional_number (cell row "lag_14") <> None ->
  optional_number (cell row "rolling_7") <> None ->
  optional_number (cell row "crude_oil_price") <> None ->
  optional_number (cell row "inr_usd") <> None ->
  optional_number (cell row "target") <> None ->
  feature_of_row row created_at <> None.
Proof.
  intros [d Hd] [q Hq] H1 H2 H3 H4 H5 H6 H7 H8. unfold feature_of_row.
  rewrite Hd, Hq. cbn [as_date as_number].
  destruct (optional_number (cell row "lag_1")); [|contradiction].
  destruct (optional_number (cell row "lag_2")); [|contradiction].
  destruct (optional_number (cell row "lag_7")); [|contradiction].
  destruct (optional_number (cell row "lag_14")); [|contradiction].
  destruct (optional_number (cell row "rolling_7")); [|contradiction].
  destruct (optional_number (cell row "crude_oil_price")); [|contradiction].
  destruct (optional_number (cell row "inr_usd")); [|contradiction].
  destruct (optional_number (cell row "target")); [|contradiction].
  discriminate.
Qed.

(** The rows of the frame with the six engineered columns, over a frame of
    ETL rows: each can be stored, keeps its date, and is complete only
    between position 14 and the last but one. *)
Lemma feature_frame_rows (df0 : DataFrame) (created_at : Z) :
  Forall etl_row (df_rows df0) ->
  let P := column df0 "petrol_price" in
  let df6 :=
    set_column
      (set_column
         (set_column
            (set_column
               (set_column
                  (set_column df0 "lag_1" (shift 1 P))
                  "lag_2" (shift 2 P))
               "lag_7" (shift 7 P))
            "lag_14" (shift 14 P))
         "rolling_7" (rolling_mean 7 P))
      "target" (shift (- 1) P) in
  forall i r6, df_rows df6 !! i = Some r6 ->
    exists r0,
      df_rows df0 !! i = Some r0 /\
      cell r6 "date" = cell r0 "date" /\
      feature_of_row r6 created_at <> None /\
      (row_complete (df_columns df6) r6 = true ->
       (14 <= i)%nat /\ (i + 1 < len df0)%nat).
Proof.
  intros Hrows P df6 i r6 Hr6.
  assert (HP : length P = len df0) by apply length_map.
  assert (Hnum : Forall (fun v => exists q, v = VNum q) P).
  { unfold P, column. apply Forall_fmap. eapply Forall_impl; [exact Hrows|].
    intros r (_ & Hq & _). exact Hq. }
  assert (Hcols : In "lag_14" (df_columns df6) /\ In "target" (df_columns df6)).
  { unfold df6. rewrite !set_column_columns. tauto. }
  set (cols6 := df_columns df6) in *. clearbody cols6.
  subst df6.
  apply set_column_lookup in Hr6 as (r5 & v6 & -> & Hr5 & Hv6).
  apply set_column_lookup in Hr5 as (r4 & v5 & -> & Hr4 & Hv5).
  apply set_column_lookup in Hr4 as (r3 & v4 & -> & Hr3 & Hv4).
  apply set_column_lookup in Hr3 as (r2 & v3 & -> & Hr2 & Hv3).
  apply set_column_lookup in Hr2 as (r1 & v2 & -> & Hr1 & Hv2).
  apply set_column_lookup in Hr1 as (r0 & v1 & -> & Hr0 & Hv1).
  rewrite Forall_lookup in Hrows.
  destruct (Hrows i r0 Hr0) as (Hd & Hq & Hc & Hi).
  exists r0. split; [exact Hr0|].
  split; [cells; reflexivity|]. split.
  - apply feature_of_row_readable; cells; try assumption.
    + apply (optional_number_numeric P), (shift_values _ _ _ _ Hv1); exact Hnum.
    + apply (optional_number_numeric P), (shift_values _ _ _ _ Hv2); exact Hnum.
    + apply (optional_number_numeric P), (shift_values _ _ _ _ Hv3); exact Hnum.
    + apply (optional_number_numeric P), (shift_values _ _ _ _ Hv4); exact Hnum.
    + apply rolling_mean_lookup in Hv5. subst v5. apply rolling_mean_at_number.
    + apply (optional_number_numeric P), (shift_values _ _ _ _ Hv6); exact Hnum.
  - intros Hcomplete. rewrite row_complete_iff in Hcomplete.
    destruct Hcols as [H14 Ht].
    pose proof (Hcomplete "lag_14" H14) as Hp14.
    pose proof (Hcomplete "target" Ht) as Hpt.
    revert Hp14 Hpt. cells. intros Hp14 Hpt.
    split.
    + exact (shift_lag_present 14 P i v4 Hv4 Hp14).
    + rewrite <- HP. exact (shift_target_present P i v6 Hv6 Hpt).
Qed.


Lemma extract_columns (start_date end_date : option Z) (source_filter : string)
  (w : World) :
  df_columns (extract_raw_data start_date end_date source_filter w) = [] \/
  df_columns (extract_raw_data start_date end_date source_filter w) =
    ["date"; "petrol_price"; "source"; "crude_oil_price"; "inr_usd"].
Proof.
  unfold extract_raw_data.
  set (petrol := List.filter _ (raw_petrol_prices (db w))).
  set (macro := List.filter _ (raw_exogenous_data (db w))).
  clearbody petrol macro.
  destruct petrol as [|p0 petrol]; [left; reflexivity|].
  destruct macro as [|m0 macro]; right; reflexivity.
Qed.

Lemma run_etl_columns (start_date end_date : option Z) (remove_outliers : bool)
  (source_filter : string) (w : World) :
  df_columns (run_etl start_date end_date remove_outliers source_filter w) =
  df_columns (extract_raw_data start_date end_date source_filter w).
Proof.
  unfold run_etl.
  destruct (df_empty (extract_raw_data start_date end_date source_filter w));
    [reflexivity|].
  destruct remove_outliers; [|reflexivity].
  match goal with
  | |- df_columns (detect_outliers ?df ?c ?r) = _ =>
      destruct (detect_outliers_keeps (fun _ => True) df c r) as [Hc _];
        [apply List.Forall_forall; intros; exact I | rewrite Hc; reflexivity]
  end.
Qed.

Lemma NoDup_map_VDate (ds : list Z) : List.NoDup ds -> List.NoDup (map VDate ds).
Proof.
  induction 1 as [|d ds Hd _ IH]; cbn [map]; constructor; [|exact IH].
  rewrite in_map_iff. intros (d' & [= ->] & Hd'). contradiction.
Qed.

Lemma StronglySorted_lt_NoDup (ds : list Z) : StronglySorted Z.lt ds -> List.NoDup ds.
Proof.
  induction 1 as [|d ds _ IH Hd]; constructor; [|exact IH].
  intros Hin. rewrite List.Forall_forall in Hd. specialize (Hd d Hin). lia.
Qed.

Lemma StronglySorted_lookup {A : Type} (R : A -> A -> Prop) (l : list A)
  (i j : nat) (a b : A) :
  StronglySorted R l -> l !! i = Some a -> l !! j = Some b -> (i < j)%nat -> R a b.
Proof.
  intros Hs. revert i j. induction Hs as [|x l _ IH Hx]; intros i j Ha Hb Hij;
    [destruct i; discriminate|].
  destruct j as [|j]; [lia|]. cbn in Hb.
  destruct i as [|i].
  - cbn in Ha. injection Ha as <-. rewrite List.Forall_forall in Hx.
    apply Hx, list_elem_of_In. eapply list_elem_of_lookup_2, Hb.
  - cbn in Ha. apply (IH i j); [assumption | assumption | lia].
Qed.

(** X27. The data preparation request end to end. A success response reports
    the number of feature rows, which is positive; the dates stored
    afterwards are the dates stored before together with the dates of the
    feature rows; and every feature date is earlier than the date of some
    stored price row of the selected provenance, so the most recent price
    never has a feature row. The two failure responses leave the store as
    it was. *)
Theorem prepare_data_end_to_end (data_source : string) (w : World) :
  let features := create_all_features (run_etl None None false data_source w) in
  match prepare_data data_source w with
  | (PrepareSuccess samples source, w') =>
      source = data_source /\
      samples = len features /\
      (0 < samples)%nat /\
      (forall d, In d (map pf_date (processed_features (db w'))) <->
                 In d (map pf_date (processed_features (db w))) \/
                 In (VDate d) (column features "date")) /\
      (forall d, In (VDate d) (column features "date") ->
         exists p, In p (raw_petrol_prices (db w)) /\
                   source_matches data_source (rpp_source p) = true /\
                   d < rpp_date p)
  | (PrepareNoData _, w') => w' = w
  | (PrepareNoFeatures, w') => w' = w
  end.
Proof.
  cbv zeta. unfold prepare_data.
  pose proof (run_etl_rows_typed None None false data_source w) as Htyped.
  pose proof (run_etl_columns None None false data_source w) as Hcolumns.
  destruct (run_etl_dates None None false data_source w)
    as (ds & Hdates & Hsorted & Hfrom & _).
  cbv zeta in Hfrom.
  set (etl := run_etl None None false data_source w) in *.
  destruct (df_empty etl) eqn:Hempty; [reflexivity|].
  assert (Hhas : has_column etl "date" = true /\ has_column etl "petrol_price" = true).
  { unfold has_column. rewrite Hcolumns.
    destruct (extract_columns None None data_source w) as [Hc | Hc];
      rewrite Hc; [|split; reflexivity].
    unfold df_empty in Hempty. rewrite Hcolumns, Hc in Hempty.
    destruct (df_rows etl); discriminate. }
  destruct Hhas as [Hdate Hprice].
  assert (Hfeatures : create_all_features etl =
            dropna
              (let P := column (sort_values etl "date") "petrol_price" in
               set_column
                 (set_column
                    (set_column
                       (set_column
                          (set_column
                             (set_column (sort_values etl "date") "lag_1" (shift 1 P))
                             "lag_2" (shift 2 P))
                          "lag_7" (shift 7 P))
                       "lag_14" (shift 14 P))
                    "rolling_7" (rolling_mean 7 P))
                 "target" (shift (- 1) P))).
  { unfold create_all_features. rewrite Hdate. cbn [negb].
    change (has_column (sort_values etl "date") "petrol_price")
      with (has_column etl "petrol_price").
    rewrite Hprice. cbn [negb]. rewrite features_frame. reflexivity. }
  cbv zeta in Hfeatures.
  set (df0 := sort_values etl "date") in *.
  set (P := column df0 "petrol_price") in *.
  assert (HP : length P = len df0) by apply length_map.
  assert (Htyped0 : Forall etl_row (df_rows df0)).
  { unfold df0, sort_values. cbn [df_rows].
    eapply Permutation_Forall; [symmetry; apply order_by_perm | exact Htyped]. }
  pose proof (feature_frame_rows df0 (now w) Htyped0) as Hrows6.
  cbv zeta in Hrows6. fold P in Hrows6.
  set (df6 := set_column _ "target" _) in *.
  assert (Hlen6 : len df6 = len df0).
  { unfold df6. repeat (rewrite len_set_column);
      rewrite ?length_shift, ?length_rolling_mean; try exact HP. reflexivity. }
  set (sds := order_by Z.leb ds).
  assert (Hperm : Permutation sds ds) by apply order_by_perm.
  assert (Hsds : StronglySorted Z.lt sds).
  { apply sorted_NoDup_strict.
    - apply (order_by_sorted Z.leb).
      + intros a b. rewrite !Z.leb_le. lia.
      + intros a b c. rewrite !Z.leb_le. lia.
    - eapply Permutation_NoDup; [symmetry; exact Hperm|].
      apply StronglySorted_lt_NoDup, Hsorted. }
  assert (Hcol0 : column df0 "date" = map VDate sds).
  { unfold df0. rewrite column_sort_values, Hdates. apply order_by_dates. }
  assert (Hcol6 : column df6 "date" = map VDate sds).
  { rewrite <- Hcol0. unfold df6.
    repeat
      (rewrite column_set_column_ne;
       [ | discriminate
         | repeat (rewrite len_set_column);
           rewrite ?length_shift, ?length_rolling_mean; exact HP ]).
    reflexivity. }
  set (features := create_all_features etl) in *.
  assert (Hrows : df_rows features =
                  List.filter (row_complete (df_columns df6)) (df_rows df6)).
  { rewrite Hfeatures. reflexivity. }
  assert (Hindex : forall r, In r (df_rows features) ->
            exists i r0, df_rows df0 !! i = Some r0 /\
              cell r "date" = cell r0 "date" /\
              feature_of_row r (now w) <> None /\
              (i + 1 < len df0)%nat).
  { intros r Hr. rewrite Hrows in Hr. apply filter_In in Hr as [Hr Hcomplete].
    apply list_elem_of_In, list_elem_of_lookup_1 in Hr as [i Hi].
    destruct (Hrows6 i r Hi) as (r0 & Hr0 & Hd & Hread & Hpos).
    exists i, r0. repeat split; try assumption. apply Hpos, Hcomplete. }
  destruct (df_empty features) eqn:Hfe; [reflexivity|].
  assert (Hread : Forall (fun row => feature_of_row row (now w) <> None)
                    (df_rows features)).
  { apply List.Forall_forall. intros r Hr.
    destruct (Hindex r Hr) as (i & r0 & _ & _ & H & _). exact H. }
  assert (Hnodup : List.NoDup (column features "date")).
  { unfold column. rewrite Hrows. apply NoDup_map_filter.
    fold (column df6 "date"). rewrite Hcol6.
    apply NoDup_map_VDate.
    eapply Permutation_NoDup; [symmetry; exact Hperm|].
    apply StronglySorted_lt_NoDup, Hsorted. }
  unfold save_to_database.
  destruct (save_rows_effect (now w) (df_rows features) Hread
              (processed_features (db w)) [])
    as (table' & news & Hsave & Hkeys & _ & Hnews & Hnd).
  cbn [app] in Hsave. rewrite Hsave.
  rewrite (unique_dates_NoDup news (Hnd Hnodup)).
  split; [reflexivity|]. split; [reflexivity|]. split; [|split].
  - unfold len. unfold df_empty in Hfe.
    destruct (df_rows features); [discriminate | cbn [length]; lia].
  - intros d.
    change (processed_features (db (with_features w (table' ++ news)%list)))
      with (table' ++ news)%list.
    rewrite map_app, in_app_iff, Hkeys, Hnews. unfold column.
    destruct (in_dec Z.eq_dec d (map pf_date (processed_features (db w)))); tauto.
  - intros d Hd. unfold column in Hd. apply in_map_iff in Hd as (r & Hcell & Hr).
    destruct (Hindex r Hr) as (i & r0 & Hr0 & Hsame & _ & Hi).
    assert (Hi0 : column df0 "date" !! i = Some (VDate d)).
    { unfold column. rewrite list_lookup_fmap, Hr0. cbn. congruence. }
    rewrite Hcol0, list_lookup_fmap in Hi0.
    destruct (sds !! i) as [d0|] eqn:Hd0; [|discriminate].
    cbn in Hi0. injection Hi0 as ->.
    assert (Hlen : length sds = len df0).
    { rewrite <- (length_map VDate sds), <- Hcol0. apply length_map. }
    destruct (lookup_lt_is_Some_2 sds (i + 1)) as [d' Hd']; [lia|].
    assert (Hlt : d < d').
    { apply (StronglySorted_lookup Z.lt sds i (i + 1) d d' Hsds Hd0 Hd'). lia. }
    assert (Hin' : In d' ds).
    { eapply Permutation_in; [exact Hperm|].
      apply list_elem_of_In. eapply list_elem_of_lookup_2, Hd'. }
    apply Hfrom, in_map_iff in Hin' as (p & <- & Hp).
    apply filter_In in Hp as [Hp Hsel].
    exists p. split; [exact Hp|]. split; [|exact Hlt].
    apply andb_true_iff in Hsel. tauto.
Qed.


(** X28. Without exogenous rows in the store the data preparation request never
    succeeds, however many prices are stored: it answers that the ETL or
    the feature engineering returned no data, and stores nothing. *)
Theorem prepare_data_without_exogenous_data (data_source : string) (w : World) :
  raw_exogenous_data (db w) = [] ->
  (fst (prepare_data data_source w) = PrepareNoData data_source \/
   fst (prepare_data data_source w) = PrepareNoFeatures) /\
  snd (prepare_data data_source w) = w.
Proof.
  intros Hmacro. unfold prepare_data.
  destruct (df_empty (run_etl None None false data_source w));
    [split; [left|]; reflexivity|].
  pose proof (no_exogenous_data_no_features None None false data_source w Hmacro)
    as Hlen.
  assert (Hempty : df_empty (create_all_features
                              (run_etl None None false data_source w)) = true).
  { unfold len in Hlen. unfold df_empty.
    destruct (df_rows (create_all_features (run_etl None None false data_source w)));
      [reflexivity | discriminate]. }
  rewrite Hempty. split; [right|]; reflexivity.
Qed.

Lemma prepare_data_without_exogenous_data_witness :
  (fst (prepare_data "combined" twenty_prices_world) = PrepareNoData "combined" \/
   fst (prepare_data "combined" twenty_prices_world) = PrepareNoFeatures) /\
  snd (prepare_data "combined" twenty_prices_world) = twenty_prices_world.
Proof.
  refine (prepare_data_without_exogenous_data "combined" twenty_prices_world _).
  vm_compute. reflexivity.
Defined.
